(** * Room monitor: a shallow embedding of the acquisition-and-alerting loop

    Sources embedded here:
    - [room_monitor/monitor.py]: [load_settings], [send_email],
      [format_timestamp], [append_csv], [get_cpu_temp], the module-level
      host diagnostics, and [main] with its nested [should_alert];
    - [room_monitor/current_data.py]: [load_settings], [get_current_data],
      [get_cpu_temp] and the module-level host diagnostics.

    Modelling conventions:
    - Python floats that carry readings and thresholds are finite doubles
      and are modelled by the rationals they denote ([Q]); comparisons of
      finite floats are exact, so [<] and [>] are [Qlt].  The calibration
      product of [get_current_data] is rounded to the nearest double
      ([round_double]); the hourly mean and the host diagnostics are
      computed without rounding, and [float] of a string is the decimal
      number the string spells.
    - A naive [datetime] is a count of microseconds ([Z]) since
      1970-01-01 00:00:00; a [timedelta] is a difference of such counts.
    - A Python dict is a [gmap]; subscripting a missing key raises
      [KeyError], [dict.get] falls back to its default.
    - Exceptions are values of [exn]; a call either returns or raises
      ([result]).  Console output ([print]) is not modelled.
    - The settings document is a JSON object (a dict); its values are
      [pyval]s.
    - Everything the outside world decides during one loop iteration (the
      clock, the settings file, the sensor, the SMTP server, the disk) is
      an explicit input of the iteration. *)

From Stdlib Require Import QArith Qminmax ZArith String Ascii List Lia DecimalString.
From stdpp Require Import gmap strings.

Local Open Scope string_scope.
Local Open Scope list_scope.
Local Open Scope Z_scope.

(** ** Python-level results *)

Inductive exn : Type :=
| FileNotFoundError
| OSError
| JSONDecodeError
| ValueError
| TypeError
| AttributeError
| KeyError
| RuntimeError (msg : string)
| UnboundLocalError
| SMTPException.

Inductive result (A : Type) : Type :=
| Ok (a : A)
| Raise (e : exn).

Arguments Ok {A} a.
Arguments Raise {A} e.

(** ** Time *)

Abbreviation datetime := Z (only parsing).
Abbreviation timedelta := Z (only parsing).

Definition usec_per_second : Z := 1000000.
Definition usec_per_minute : Z := 60 * usec_per_second.
Definition usec_per_hour : Z := 60 * usec_per_minute.

(** [timedelta(hours=n)], [timedelta(minutes=n)] *)
Definition timedelta_hours (n : Z) : timedelta := n * usec_per_hour.
Definition timedelta_minutes (n : Z) : timedelta := n * usec_per_minute.

(** [ts.replace(minute=0, second=0, microsecond=0)] *)
Definition replace_to_hour (ts : datetime) : datetime :=
  ts - ts mod usec_per_hour.

(** ** Float comparisons on finite values *)

Definition Qltb (x y : Q) : bool := negb (Qle_bool y x).


(** ** Decimal rendering *)

Definition digits_of_Z (n : Z) : string := NilZero.string_of_int (Z.to_int n).

(** [f"{n:02d}"] and [f"{n:04d}"] for non-negative [n] *)
Definition pad2 (n : Z) : string :=
  if n <? 10 then "0" +:+ digits_of_Z n else digits_of_Z n.

Definition pad4 (n : Z) : string :=
  if n <? 10 then "000" +:+ digits_of_Z n
  else if n <? 100 then "00" +:+ digits_of_Z n
  else if n <? 1000 then "0" +:+ digits_of_Z n
  else digits_of_Z n.

(** The value times ten, rounded to the nearest integer, ties to even:
    the digits that [format(x, ".1f")] prints for [|x|]. *)
Definition round_tenths (q : Q) : Z :=
  let a := Z.abs (Qnum q) * 10 in
  let d := Zpos (Qden q) in
  let k := a / d in
  let r := a mod d in
  if 2 * r <? d then k
  else if d <? 2 * r then k + 1
  else if Z.even k then k else k + 1.

Definition is_negative (q : Q) : bool := Qnum q <? 0.

Definition unsigned_1f (q : Q) : string :=
  let k := round_tenths q in
  digits_of_Z (k / 10) +:+ "." +:+ digits_of_Z (k mod 10).

(** [f"{x:.1f}"] *)
Definition format_1f (q : Q) : string :=
  (if is_negative q then "-" else "") +:+ unsigned_1f q.

(** [f"{x: .1f}"]: the space flag puts a blank where a minus sign would go *)
Definition format_space_1f (q : Q) : string :=
  (if is_negative q then "-" else " ") +:+ unsigned_1f q.

(** The calendar date of a day count since 1970-01-01 (proleptic Gregorian). *)
Definition civil_from_days (days : Z) : Z * Z * Z :=
  let z := days + 719468 in
  let era := z / 146097 in
  let doe := z mod 146097 in
  let yoe := (doe - doe / 1460 + doe / 36524 - doe / 146096) / 365 in
  let doy := doe - (365 * yoe + yoe / 4 - yoe / 100) in
  let mp := (5 * doy + 2) / 153 in
  let d := doy - (153 * mp + 2) / 5 + 1 in
  let m := if mp <? 10 then mp + 3 else mp - 9 in
  let y := yoe + era * 400 + (if m <=? 2 then 1 else 0) in
  (y, m, d).

(** [ts.strftime("%Y-%m-%d %H:%M")] *)
Definition strftime_minutes (ts : datetime) : string :=
  let usec_per_day := 24 * usec_per_hour in
  let '(y, m, d) := civil_from_days (ts / usec_per_day) in
  let in_day := ts mod usec_per_day in
  pad4 y +:+ "-" +:+ pad2 m +:+ "-" +:+ pad2 d +:+ " " +:+
  pad2 (in_day / usec_per_hour) +:+ ":" +:+ pad2 (in_day mod usec_per_hour / usec_per_minute).

(** [format_timestamp(ts)] (monitor.py) with [ts] given *)
Definition format_timestamp (ts : datetime) : string := strftime_minutes ts.

(** ** Python values read from settings.json *)

Inductive pyval : Type :=
| PNone
| PBool (b : bool)
| PInt (n : Z)
| PFloat (q : Q)
| PStr (s : string)
| PContainer (nonempty : bool) (shown : string).  (* a JSON array or object, with its [str()] *)

(** Truthiness, as used by [x or ""] and [not (a and b and c)] *)
Definition truthy (v : pyval) : bool :=
  match v with
  | PNone => false
  | PBool b => b
  | PInt n => negb (n =? 0)
  | PFloat q => negb (Qeq_bool q 0)
  | PStr s => negb (String.eqb s "")
  | PContainer nonempty _ => nonempty
  end.

(** [x or ""] *)
Definition or_empty (v : pyval) : pyval := if truthy v then v else PStr "".

(** [d.get(k)] and [d.get(k, dflt)] *)
Definition dict_get (d : gmap string pyval) (k : string) : pyval :=
  match d !! k with Some v => v | None => PNone end.

Definition dict_get_default (d : gmap string pyval) (k : string) (dflt : pyval) : pyval :=
  match d !! k with Some v => v | None => dflt end.

(** A key that is missing, or whose value is [null] or the empty string. *)
Definition absent_or_empty (d : gmap string pyval) (k : string) : Prop :=
  d !! k = None \/ d !! k = Some PNone \/ d !! k = Some (PStr "").

(** Decimal literals accepted by [int(str)] and [float(str)]: surrounding
    blanks, an optional sign, ASCII digits, and for floats one optional
    point.  Exponent, underscore and non-finite spellings are outside this
    model. *)
Definition is_blank (c : ascii) : bool :=
  match nat_of_ascii c with
  | 32%nat | 9%nat | 10%nat | 11%nat | 12%nat | 13%nat => true
  | _ => false
  end.

Fixpoint lstrip (s : string) : string :=
  match s with
  | String c rest => if is_blank c then lstrip rest else s
  | EmptyString => s
  end.

Fixpoint rev_string (s acc : string) : string :=
  match s with
  | EmptyString => acc
  | String c rest => rev_string rest (String c acc)
  end.

Definition strip (s : string) : string :=
  rev_string (lstrip (rev_string (lstrip s) "")) "".

Definition digit_value (c : ascii) : option Z :=
  let n := Z.of_nat (nat_of_ascii c) in
  if (48 <=? n) && (n <=? 57) then Some (n - 48) else None.

(** Reads a run of digits; returns its value, its length and the rest. *)
Fixpoint read_digits (s : string) (acc : Z) (len : nat) : Z * nat * string :=
  match s with
  | String c rest =>
    match digit_value c with
    | Some v => read_digits rest (acc * 10 + v) (S len)
    | None => (acc, len, s)
    end
  | EmptyString => (acc, len, s)
  end.

Definition read_sign (s : string) : bool * string :=
  match s with
  | String "-" rest => (true, rest)
  | String "+" rest => (false, rest)
  | _ => (false, s)
  end.

Definition int_of_string (s : string) : option Z :=
  let '(neg, body) := read_sign (strip s) in
  match read_digits body 0 0 with
  | (_, O, _) => None
  | (n, _, EmptyString) => Some (if neg then - n else n)
  | _ => None
  end.

Definition float_of_string (s : string) : option Q :=
  let '(neg, body) := read_sign (strip s) in
  let '(ip, ilen, rest) := read_digits body 0 0 in
  let signed (q : Q) := if neg then Qopp q else q in
  match rest with
  | EmptyString => if Nat.eqb ilen 0 then None else Some (signed (inject_Z ip))
  | String "." frac =>
    match read_digits frac 0 0 with
    | (fp, flen, EmptyString) =>
      if Nat.eqb (ilen + flen) 0 then None
      else Some (signed (Qred (inject_Z ip + Qmake fp (Pos.of_nat (10 ^ flen)))))
    | _ => None
    end
  | _ => None
  end.

(** [int(v)] *)
Definition py_int (v : pyval) : result Z :=
  match v with
  | PNone => Raise TypeError
  | PBool b => Ok (if b then 1 else 0)
  | PInt n => Ok n
  | PFloat q => Ok (Z.quot (Qnum q) (Zpos (Qden q)))
  | PStr s => match int_of_string s with Some n => Ok n | None => Raise ValueError end
  | PContainer _ _ => Raise TypeError
  end.

(** [float(v)] *)
Definition py_float (v : pyval) : result Q :=
  match v with
  | PNone => Raise TypeError
  | PBool b => Ok (if b then 1%Q else 0%Q)
  | PInt n => Ok (inject_Z n)
  | PFloat q => Ok q
  | PStr s => match float_of_string s with Some q => Ok q | None => Raise ValueError end
  | PContainer _ _ => Raise TypeError
  end.

(** The decimal expansion of a rational with at most [places] fractional
    digits, without trailing zeros beyond the first: what [str(x)] prints
    for a float written with few decimals, e.g. [18.0] or [22.5]. *)
Fixpoint fraction_digits (places : nat) (r d : Z) : string :=
  match places with
  | O => ""
  | S p =>
    let r10 := r * 10 in
    digits_of_Z (r10 / d) +:+
    (if r10 mod d =? 0 then "" else fraction_digits p (r10 mod d) d)
  end.

Definition str_float (q : Q) : string :=
  let a := Z.abs (Qnum q) in
  let d := Zpos (Qden q) in
  (if is_negative q then "-" else "") +:+
  digits_of_Z (a / d) +:+ "." +:+ fraction_digits 17 (a mod d) d.

(** [str(v)], as interpolated by an f-string *)
Definition py_str (v : pyval) : string :=
  match v with
  | PNone => "None"
  | PBool b => if b then "True" else "False"
  | PInt n => digits_of_Z n
  | PFloat q => str_float q
  | PStr s => s
  | PContainer _ shown => shown
  end.

(** ** Arithmetic on doubles

    A finite double is the rational it denotes.  An arithmetic operation
    on doubles is the exact operation followed by rounding to the nearest
    double, ties to even (IEEE 754 binary64: 53 significant bits, least
    exponent -1074).  A result beyond the largest double (which Python
    turns into [inf]) is outside this model; no sensor reading comes near
    it. *)

(** The integer nearest to [n / d], for [0 <= n] and [0 < d], ties to even. *)
Definition nearest_even (n d : Z) : Z :=
  let k := n / d in
  let r := n mod d in
  if 2 * r <? d then k
  else if d <? 2 * r then k + 1
  else if Z.even k then k else k + 1.

(** [floor (log2 (n / d))], for [0 < n] and [0 < d]. *)
Definition log2_ratio (n d : Z) : Z :=
  let g := Z.log2 n - Z.log2 d in
  if (if 0 <=? g then d * 2 ^ g <=? n else d <=? n * 2 ^ (- g)) then g else g - 1.

(** The double nearest to [q]: a 53-bit integer [m] times [2 ^ e], where
    [e] is the weight of the last bit. *)
Definition round_double (q : Q) : Q :=
  let n := Z.abs (Qnum q) in
  let d := Zpos (Qden q) in
  if n =? 0 then 0%Q
  else
    let e := Z.max (log2_ratio n d - 52) (-1074) in
    let m := if 0 <=? e then nearest_even n (d * 2 ^ e)
             else nearest_even (n * 2 ^ (- e)) d in
    let s := if Qnum q <? 0 then -1 else 1 in
    Qred (if 0 <=? e then inject_Z (s * m * 2 ^ e)
          else Qmake (s * m) (Z.to_pos (2 ^ (- e)))).

(** [x * y] on doubles *)
Definition fmul (x y : Q) : Q := round_double (x * y).

Arguments round_double : simpl never.
Arguments fmul : simpl never.
(** ** ThresholdEvaluator: [should_alert] (monitor.py, nested in [main])

    The closure reads and mutates the two dicts of [main]:
    [last_alert_time = {"temp": None, "hum": None}] and
    [last_outside_state = {"temp": False, "hum": False}]. *)

Record AlertDicts : Type := mkAlertDicts {
  last_alert_time : gmap string (option Z);
  last_outside_state : gmap string bool
}.

Definition initial_alert_dicts : AlertDicts :=
  {| last_alert_time := <["temp" := None]> (<["hum" := None]> ∅);
     last_outside_state := <["temp" := false]> (<["hum" := false]> ∅) |}.

Definition set_outside (kind : string) (b : bool) (d : AlertDicts) : AlertDicts :=
  {| last_alert_time := last_alert_time d;
     last_outside_state := <[kind := b]> (last_outside_state d) |}.

Definition set_alert_time (kind : string) (now : datetime) (d : AlertDicts) : AlertDicts :=
  {| last_alert_time := <[kind := Some now]> (last_alert_time d);
     last_outside_state := last_outside_state d |}.

(** [value < min_val or value > max_val] *)
Definition outside_range (value min_val max_val : Q) : bool :=
  Qltb value min_val || Qltb max_val value.

(** [last_alert is None or now - last_alert >= timedelta(hours=1)] *)
Definition cooldown_over (last_alert : option Z) (now : datetime) : bool :=
  match last_alert with
  | None => true
  | Some t => timedelta_hours 1 <=? now - t
  end.

Definition should_alert (kind : string) (value min_val max_val : Q)
    (now : datetime) (d : AlertDicts) : result bool * AlertDicts :=
  let outside := outside_range value min_val max_val in
  match last_alert_time d !! kind with
  | None => (Raise KeyError, d)
  | Some last_alert =>
    match last_outside_state d !! kind with
    | None => (Raise KeyError, d)
    | Some previously_outside =>
      if outside then
        if negb previously_outside then
          (Ok false, set_outside kind true d)
        else if previously_outside && cooldown_over last_alert now then
          (Ok true, set_alert_time kind now d)
        else (Ok false, d)
      else (Ok false, set_outside kind false d)
    end
  end.

(** Run [should_alert] for one metric over a list of (value, clock) pairs,
    with fixed bounds; returns the verdicts in order. *)
Fixpoint run_alerts (kind : string) (min_val max_val : Q)
    (readings : list (Q * Z)) (d : AlertDicts) : list (result bool) * AlertDicts :=
  match readings with
  | [] => ([], d)
  | (v, now) :: rest =>
    let '(r, d1) := should_alert kind v min_val max_val now d in
    let '(rs, d2) := run_alerts kind min_val max_val rest d1 in
    (r :: rs, d2)
  end.

(** *** Specification vocabulary for the state machine *)

Definition within (v lo hi : Q) : Prop := (lo <= v)%Q /\ (v <= hi)%Q.

(** The per-metric view [(outside, lastAlertTime)] of the two dicts. *)
Definition metric_state (d : AlertDicts) (kind : string) : option (bool * option Z) :=
  match last_outside_state d !! kind, last_alert_time d !! kind with
  | Some o, Some la => Some (o, la)
  | _, _ => None
  end.

(** [lastAlertTime] is unset, or at least one hour has elapsed since it. *)
Definition cooled (la : option Z) (now : Z) : Prop :=
  la = None \/ exists t, la = Some t /\ t + usec_per_hour <= now.


(** ** The outside world, as far as the two scripts touch it *)

(** settings.json *)
Inductive SettingsFile : Type :=
| Missing
| Unreadable (e : exn)                 (* [open] or [json.load] raises [e] *)
| Document (d : gmap string pyval).

(** /sys/class/thermal/thermal_zone0/temp *)
Inductive ThermalFile : Type :=
| ThermalAbsent
| ThermalUnreadable (e : exn)
| ThermalContent (s : string).

(** [psutil.virtual_memory()] *)
Record MemInfo : Type := mkMemInfo {
  mem_percent : Q;
  mem_used : Q;
  mem_total : Q
}.

Record Host : Type := mkHost {
  thermal : ThermalFile;
  virtual_memory : result MemInfo
}.

(** One pass through the body of the retry loop reads the two properties
    of the DHT22 driver; each read returns a value, [None], or raises. *)
Record Attempt : Type := mkAttempt {
  read_temperature : result (option Q);
  read_humidity : result (option Q)
}.

Record Sensor : Type := mkSensor {
  board_has : string -> bool;          (* the attributes of the [board] module *)
  dht_init : option exn;               (* whether [adafruit_dht.DHT22(...)] raises *)
  dht_read : nat -> Attempt            (* the answers during the n-th attempt of a call *)
}.

(** What a call of [get_current_data] does to the device and the clock. *)
Inductive event : Type :=
| EvInit (pin : string)
| EvReadTemperature
| EvReadHumidity
| EvSleep (seconds : Q)
| EvExit.

Definition is_read_attempt (e : event) : bool :=
  match e with EvReadTemperature => true | _ => false end.

(** The number of read attempts in a trace: every attempt starts by
    reading the temperature property. *)
Definition read_attempts (tr : list event) : nat :=
  length (List.filter is_read_attempt tr).

(** No value is missing from the answers of a null attempt, but one of
    them is [None]. *)
Definition reports_null (a : Attempt) : Prop :=
  exists t h, read_temperature a = Ok t /\ read_humidity a = Ok h /\
              (t = None \/ h = None).

Notation "'let?' x := e 'in' k" :=
  (match e with Ok x => k | Raise err => Raise err end)
  (at level 10, x pattern, e at level 100, k at level 200, only parsing).

(** ** current_data.py *)

Module CurrentData.

Definition load_settings (f : SettingsFile) : result (gmap string pyval) :=
  match f with
  | Missing => Raise FileNotFoundError
  | Unreadable e => Raise e
  | Document d => Ok d
  end.

(** The literals [0.9] and [1.00]: the doubles nearest to them. *)
Definition TEMPERATURE_ADJUSTMENT : Q := round_double (9 # 10).
Definition HUMIDITY_ADJUSTMENT : Q := 1.

Definition exhausted (max_retries : Z) : exn :=
  RuntimeError ("Failed to read valid data from DHT22 after "
                +:+ digits_of_Z max_retries +:+ " attempts").

(** [except RuntimeError as e: ...; time.sleep(retry_delay)], then the rest
    of the loop; any other exception leaves the loop.  [time.sleep]
    rejects a negative delay with [ValueError]. *)
Definition on_error (retry_delay : Q) (e : exn) (done : list event)
    (continue : result (Q * Q) * list event) : result (Q * Q) * list event :=
  match e with
  | RuntimeError _ =>
    if is_negative retry_delay then (Raise ValueError, done)
    else (fst continue, done ++ EvSleep retry_delay :: snd continue)
  | _ => (Raise e, done)
  end.

(** [for attempt in range(max_retries): ...] followed by the final [raise];
    [remaining] counts the iterations left, [attempt] is the loop variable. *)
Fixpoint attempt_loop (dev : nat -> Attempt) (max_retries : Z) (retry_delay : Q)
    (remaining attempt : nat) : result (Q * Q) * list event :=
  match remaining with
  | O => (Raise (exhausted max_retries), [])
  | S remaining' =>
    let continue := attempt_loop dev max_retries retry_delay remaining' (S attempt) in
    match read_temperature (dev attempt) with
    | Raise e => on_error retry_delay e [EvReadTemperature] continue
    | Ok temperature =>
      match read_humidity (dev attempt) with
      | Raise e => on_error retry_delay e [EvReadTemperature; EvReadHumidity] continue
      | Ok humidity =>
        match temperature, humidity with
        | Some t, Some h =>
          (Ok (fmul t TEMPERATURE_ADJUSTMENT, fmul h HUMIDITY_ADJUSTMENT),
           [EvReadTemperature; EvReadHumidity])
        | _, _ =>
          on_error retry_delay (RuntimeError "Received None from sensor")
            [EvReadTemperature; EvReadHumidity] continue
        end
      end
    end
  end.

Definition get_current_data (f : SettingsFile) (s : Sensor)
    (max_retries : Z) (retry_delay : Q) : result (Q * Q) * list event :=
  match load_settings f with
  | Raise e => (Raise e, [])
  | Ok settings =>
    match dict_get settings "data_pin" with
    | PNone => (Raise ValueError, [])
    | pin_number =>
      let name := "D" +:+ py_str pin_number in
      if negb (board_has s name) then (Raise ValueError, [])
      else
        match dht_init s with
        | Some e => (Raise e, [])
        | None =>
          let run := attempt_loop (dht_read s) max_retries retry_delay
                       (Z.to_nat max_retries) 0 in
          (* try: ... finally: dhtDevice.exit() *)
          (fst run, EvInit name :: snd run ++ [EvExit])
        end
    end
  end.

(** The defaults of the signature: [max_retries=5, retry_delay=2.0] *)
Definition get_current_data_default (f : SettingsFile) (s : Sensor) :=
  get_current_data f s 5 2.

Definition get_cpu_temp (f : ThermalFile) : result (option Q) :=
  match f with
  | ThermalAbsent => Ok None                       (* except FileNotFoundError *)
  | ThermalUnreadable e => Raise e
  | ThermalContent s =>
    let? temp_raw := py_int (PStr s) in
    Ok (Some (inject_Z temp_raw / 1000)%Q)
  end.

Definition MIN_T : Q := 18.
Definition MAX_T : Q := 75.

(** [current_temp - MIN_T]: subtracting from [None] raises [TypeError] *)
Definition minus_MIN_T (current_temp : option Q) : result Q :=
  match current_temp with
  | None => Raise TypeError
  | Some t => Ok (t - MIN_T)%Q
  end.

Record Globals : Type := mkGlobals {
  current_temp : option Q;
  temp_percent : Q;
  ram_percent : Q;
  ram_used_mb : Q;
  ram_total_mb : Q
}.

(** The statements at module level, run once when the module is imported
    or executed. *)
Definition module_body (h : Host) : result Globals :=
  let? current_temp := get_cpu_temp (thermal h) in
  let? above := minus_MIN_T current_temp in
  let temp_percent := (above / (MAX_T - MIN_T) * 100)%Q in
  let temp_percent := Qmax 0 (Qmin 100 temp_percent) in
  let? mem := virtual_memory h in
  Ok {| current_temp := current_temp;
        temp_percent := temp_percent;
        ram_percent := mem_percent mem;
        ram_used_mb := (mem_used mem / 1024 / 1024)%Q;
        ram_total_mb := (mem_total mem / 1024 / 1024)%Q |}.

(** [python current_data.py]: the module body, then the one-shot read
    under [if __name__ == "__main__"], whose failures are printed. *)
Definition script (h : Host) (f : SettingsFile) (s : Sensor) : result unit * list event :=
  match module_body h with
  | Raise e => (Raise e, [])
  | Ok _ => (Ok tt, snd (get_current_data_default f s))
  end.

End CurrentData.

(** ** monitor.py *)

Definition newline : string := String (ascii_of_nat 10) "".
Definition crlf : string := String (ascii_of_nat 13) (String (ascii_of_nat 10) "").
Definition dquote : ascii := ascii_of_nat 34.

(** *** [csv.writer(f).writerow(row)] with the default dialect *)

Fixpoint needs_quoting (s : string) : bool :=
  match s with
  | EmptyString => false
  | String c rest =>
    let n := nat_of_ascii c in
    Nat.eqb n 44 || Nat.eqb n 34 || Nat.eqb n 13 || Nat.eqb n 10 || needs_quoting rest
  end.

Fixpoint double_quotes (s : string) : string :=
  match s with
  | EmptyString => EmptyString
  | String c rest =>
    if Nat.eqb (nat_of_ascii c) 34 then String c (String c (double_quotes rest))
    else String c (double_quotes rest)
  end.

Definition csv_field (s : string) : string :=
  if needs_quoting s then String dquote (double_quotes s +:+ String dquote "") else s.

Fixpoint csv_join (fields : list string) : string :=
  match fields with
  | [] => ""
  | [x] => csv_field x
  | x :: rest => csv_field x +:+ "," +:+ csv_join rest
  end.

Definition csv_line (row : list string) : string :=
  match row with
  | [""] => String dquote (String dquote crlf)
  | _ => csv_join row +:+ crlf
  end.

(** The header written when the log is created. *)
Definition csv_header : list string := ["timestamp"; "temperature"; "humidity"].

(** *** State of the running script *)

Record Mail : Type := mkMail {
  mail_host : pyval;
  mail_port : Z;
  mail_from : string;
  mail_to : string;
  mail_subject : string;
  mail_body : string
}.

Record Machine : Type := mkMachine {
  (* the world *)
  settings_file : SettingsFile;
  data_file : option string;           (* static/data/data_log.csv; [None]: absent *)
  outbox : list Mail;                  (* messages handed to the SMTP server *)
  (* the locals of [main] *)
  hourly_temp : list Q;
  hourly_hum : list Q;
  last_hour : Z;
  alert_dicts : AlertDicts;
  log_time : option string             (* [None]: the name is not bound yet *)
}.

Definition with_settings_file (f : SettingsFile) (m : Machine) : Machine :=
  mkMachine f (data_file m) (outbox m) (hourly_temp m) (hourly_hum m)
            (last_hour m) (alert_dicts m) (log_time m).
Definition with_data_file (f : option string) (m : Machine) : Machine :=
  mkMachine (settings_file m) f (outbox m) (hourly_temp m) (hourly_hum m)
            (last_hour m) (alert_dicts m) (log_time m).
Definition with_outbox (o : list Mail) (m : Machine) : Machine :=
  mkMachine (settings_file m) (data_file m) o (hourly_temp m) (hourly_hum m)
            (last_hour m) (alert_dicts m) (log_time m).
Definition with_hourly (ts hs : list Q) (m : Machine) : Machine :=
  mkMachine (settings_file m) (data_file m) (outbox m) ts hs
            (last_hour m) (alert_dicts m) (log_time m).
Definition with_last_hour (h : Z) (m : Machine) : Machine :=
  mkMachine (settings_file m) (data_file m) (outbox m) (hourly_temp m) (hourly_hum m)
            h (alert_dicts m) (log_time m).
Definition with_alert_dicts (d : AlertDicts) (m : Machine) : Machine :=
  mkMachine (settings_file m) (data_file m) (outbox m) (hourly_temp m) (hourly_hum m)
            (last_hour m) d (log_time m).
Definition with_log_time (l : option string) (m : Machine) : Machine :=
  mkMachine (settings_file m) (data_file m) (outbox m) (hourly_temp m) (hourly_hum m)
            (last_hour m) (alert_dicts m) l.

(** Statements: they read and update the machine, and return or raise. *)
Definition M (A : Type) : Type := Machine -> result A * Machine.

Definition ret {A} (a : A) : M A := fun m => (Ok a, m).
Definition raise {A} (e : exn) : M A := fun m => (Raise e, m).
Definition bind {A B} (c : M A) (k : A -> M B) : M B :=
  fun m => match c m with
           | (Ok a, m') => k a m'
           | (Raise e, m') => (Raise e, m')
           end.
Definition lift {A} (r : result A) : M A := fun m => (r, m).
Definition get : M Machine := fun m => (Ok m, m).
Definition modify (f : Machine -> Machine) : M unit := fun m => (Ok tt, f m).

Notation "'let*' x := c 'in' k" := (bind c (fun x => k))
  (at level 10, x pattern, c at level 100, k at level 200, only parsing).
Notation "c ;; k" := (bind c (fun _ => k))
  (at level 100, k at level 200, right associativity, only parsing).

(** What the outside world decides during one iteration of the loop. *)
Record CycleEnv : Type := mkCycleEnv {
  settings_write : option exn;   (* whether creating settings.json raises *)
  timestamp : Z;                 (* [datetime.now()] at the top of the iteration *)
  sensor : Sensor;
  now_temp : Z;                  (* [datetime.now()] inside [should_alert("temp", ...)] *)
  now_hum : Z;                   (* [datetime.now()] inside [should_alert("hum", ...)] *)
  smtp_temp : option exn;        (* whether the SMTP conversation of the temperature alert raises *)
  smtp_hum : option exn;         (* the same for the humidity alert *)
  disk_append : option exn       (* whether appending to the CSV raises *)
}.

(** How creating the CSV at start-up goes. *)
Inductive CreateOutcome : Type :=
| CreateOk
| OpenFails                       (* nothing is created *)
| WriteFails                      (* the file exists and is empty *)
| ChmodFails.                     (* the file has its header *)

Record StartEnv : Type := mkStartEnv {
  makedirs : option exn;         (* whether [os.makedirs(..., exist_ok=True)] raises *)
  create : CreateOutcome;
  start_time : Z                 (* [datetime.now()] before the loop *)
}.

Module Monitor.

Definition defaults : gmap string pyval :=
  <["min_temp" := PFloat 18]> (<["max_temp" := PFloat 22]> (
  <["min_hum" := PFloat 40]> (<["max_hum" := PFloat 70]> (
  <["data_pin" := PInt 4]> (<["email_user" := PStr ""]> (
  <["email_pass" := PStr ""]> (<["email_to" := PStr ""]> (
  <["smtp_host" := PStr "smtp.gmail.com"]> (<["smtp_port" := PInt 465]> ∅))))))))).

Definition load_settings (write_raises : option exn) : M (gmap string pyval) :=
  fun m =>
    match settings_file m with
    | Missing =>
      match write_raises with
      | Some e => (Raise e, m)
      | None => (Ok defaults, with_settings_file (Document defaults) m)
      end
    | Unreadable e => (Raise e, m)
    | Document d => (Ok d, m)
    end.

(** [smtp]: whether connecting, logging in or sending raises.  The headers
    [From] and [To] must be strings for [msg.as_string()] to succeed. *)
Definition send_email (subject body : string) (settings : gmap string pyval)
    (smtp : option exn) : M bool :=
  let user := or_empty (dict_get settings "email_user") in
  let password := or_empty (dict_get settings "email_pass") in
  let recipient := or_empty (dict_get settings "email_to") in
  let host := dict_get_default settings "smtp_host" (PStr "smtp.gmail.com") in
  let* port := lift (py_int (dict_get_default settings "smtp_port" (PInt 465))) in
  if negb (truthy user && truthy password && truthy recipient) then ret false
  else
    (* try: ... except Exception: return False *)
    match smtp, user, recipient with
    | None, PStr u, PStr r =>
      modify (fun m => with_outbox (outbox m ++ [mkMail host port u r subject body]) m) ;;
      ret true
    | _, _, _ => ret false
    end.

Definition append_csv (row : list string) (disk : option exn) : M unit :=
  match disk with
  | Some _ => ret tt                 (* except Exception: printed *)
  | None =>
    modify (fun m =>
      let old := match data_file m with Some s => s | None => "" end in
      with_data_file (Some (old +:+ csv_line row)) m)
  end.

Definition get_cpu_temp (f : ThermalFile) : result (option Q) :=
  match f with
  | ThermalAbsent => Ok None
  | ThermalUnreadable e => Raise e
  | ThermalContent s =>
    let? temp_raw := py_int (PStr s) in
    Ok (Some (inject_Z temp_raw / 1000)%Q)
  end.

Definition MIN_T : Q := 18.
Definition MAX_T : Q := 75.

Definition minus_MIN_T (current_temp : option Q) : result Q :=
  match current_temp with
  | None => Raise TypeError
  | Some t => Ok (t - MIN_T)%Q
  end.

(** The statements at module level: the imports (of which
    [from current_data import get_current_data] runs the body of
    current_data.py), then the host diagnostics. *)
Definition module_body (h : Host) : result CurrentData.Globals :=
  let? _ := CurrentData.module_body h in
  let? current_temp := get_cpu_temp (thermal h) in
  let? above := minus_MIN_T current_temp in
  let temp_percent := (above / (MAX_T - MIN_T) * 100)%Q in
  let temp_percent := Qmax 0 (Qmin 100 temp_percent) in
  let? mem := virtual_memory h in
  Ok {| CurrentData.current_temp := current_temp;
        CurrentData.temp_percent := temp_percent;
        CurrentData.ram_percent := mem_percent mem;
        CurrentData.ram_used_mb := (mem_used mem / 1024 / 1024)%Q;
        CurrentData.ram_total_mb := (mem_total mem / 1024 / 1024)%Q |}.

(** Lines 152-160 of [main]: create the CSV with its header unless it
    exists; a failure is printed. *)
Definition ensure_data_file (c : CreateOutcome) (f : option string) : option string :=
  match f with
  | Some content => Some content
  | None =>
    match c with
    | CreateOk | ChmodFails => Some (csv_line csv_header)
    | WriteFails => Some ""
    | OpenFails => None
    end
  end.

(** [sum(xs) / len(xs)] *)
Definition mean (xs : list Q) : Q :=
  (fold_left Qplus xs 0 / inject_Z (Z.of_nat (length xs)))%Q.

Definition nonempty {A} (l : list A) : bool :=
  match l with [] => false | _ => true end.

Definition should_alert_m (kind : string) (value min_val max_val : Q) (now : Z) : M bool :=
  fun m =>
    let '(r, d) := should_alert kind value min_val max_val now (alert_dicts m) in
    (r, with_alert_dicts d m).

(** The two alert blocks of the loop body share their shape:
    [if should_alert(kind, v, lo, hi): if v < lo: send LOW elif v > hi: send HIGH] *)
Definition alert_block (kind label unit_ : string) (timestamp now : Z)
    (value min_val max_val : Q) (settings : gmap string pyval)
    (smtp : option exn) : M unit :=
  let* fire := should_alert_m kind value min_val max_val now in
  if fire then
    if Qltb value min_val then
      send_email (label +:+ " LOW Alert")
        (format_timestamp timestamp +:+ newline +:+ label +:+ " " +:+ format_1f value
           +:+ unit_ +:+ ", below " +:+ str_float min_val +:+ unit_ +:+ ".")
        settings smtp ;; ret tt
    else if Qltb max_val value then
      send_email (label +:+ " HIGH Alert")
        (format_timestamp timestamp +:+ newline +:+ label +:+ " " +:+ format_1f value
           +:+ unit_ +:+ ", above " +:+ str_float max_val +:+ unit_ +:+ ".")
        settings smtp ;; ret tt
    else ret tt
  else ret tt.

(** Lines 234-247: the hourly rollover. *)
Definition rollover (timestamp : Z) (disk : option exn) : M unit :=
  let current_hour := replace_to_hour timestamp in
  let* m := get in
  if last_hour m <? current_hour then
    (if nonempty (hourly_temp m) && nonempty (hourly_hum m) then
       let avg_temp := mean (hourly_temp m) in
       let avg_hum := mean (hourly_hum m) in
       let log_time := strftime_minutes (current_hour - timedelta_hours 1) in
       modify (with_log_time (Some log_time)) ;;
       append_csv [log_time; format_1f avg_temp; format_space_1f avg_hum] disk
     else
       (* the message of this branch interpolates [log_time] *)
       let* m := get in
       match log_time m with
       | None => raise UnboundLocalError
       | Some _ => ret tt
       end) ;;
    modify (with_hourly [] []) ;;
    modify (with_last_hour current_hour)
  else ret tt.

(** One iteration of [while True], up to the wait for the next reading. *)
Definition cycle (env : CycleEnv) : M unit :=
  let* settings := load_settings (settings_write env) in
  let* min_t := lift (py_float (dict_get_default settings "min_temp" (PFloat 18))) in
  let* max_t := lift (py_float (dict_get_default settings "max_temp" (PFloat 26))) in
  let* min_h := lift (py_float (dict_get_default settings "min_hum" (PFloat 50))) in
  let* max_h := lift (py_float (dict_get_default settings "max_hum" (PFloat 70))) in
  let* m := get in
  (* try: temp, hum = get_current_data() except Exception: temp = hum = None *)
  match fst (CurrentData.get_current_data_default (settings_file m) (sensor env)) with
  | Ok (temp, hum) =>
    modify (fun m => with_hourly (hourly_temp m ++ [temp]) (hourly_hum m ++ [hum]) m) ;;
    alert_block "temp" "Temperature" "°C" (timestamp env) (now_temp env)
      temp min_t max_t settings (smtp_temp env) ;;
    alert_block "hum" "Humidity" "%RH" (timestamp env) (now_hum env)
      hum min_h max_h settings (smtp_hum env) ;;
    rollover (timestamp env) (disk_append env)
  | Raise _ =>
    rollover (timestamp env) (disk_append env)
  end.

(** The loop, for as many iterations as the world is described for. *)
Fixpoint loop (envs : list CycleEnv) : M unit :=
  match envs with
  | [] => ret tt
  | env :: rest => cycle env ;; loop rest
  end.

(** The machine at the first iteration: files as found and initialized,
    locals as [main] sets them. *)
Definition start (s : StartEnv) (f : SettingsFile) (csv : option string) : result Machine :=
  match makedirs s with
  | Some e => Raise e
  | None =>
    Ok {| settings_file := f;
          data_file := ensure_data_file (create s) csv;
          outbox := [];
          hourly_temp := [];
          hourly_hum := [];
          last_hour := replace_to_hour (start_time s);
          alert_dicts := initial_alert_dicts;
          log_time := None |}
  end.

Definition main (s : StartEnv) (f : SettingsFile) (csv : option string)
    (envs : list CycleEnv) : result (result unit * Machine) :=
  let? m := start s f csv in
  Ok (loop envs m).

(** [python monitor.py]: the module body, then [main()]. *)
Definition script (h : Host) (s : StartEnv) (f : SettingsFile) (csv : option string)
    (envs : list CycleEnv) : result (result unit * Machine) :=
  let? _ := module_body h in
  main s f csv envs.

End Monitor.

(** *** Specification vocabulary for the loop *)

(** Both metrics have their entries in the two alert dicts. *)
Definition dicts_ready (m : Machine) : Prop :=
  is_Some (metric_state (alert_dicts m) "temp") /\
  is_Some (metric_state (alert_dicts m) "hum").

(** A statement keeps a property of the machine, whether it returns or
    raises. *)
Definition preserves {A} (P : Machine -> Prop) (c : M A) : Prop :=
  forall m, P m -> P (snd (c m)).

(** ** dashboard.py

    The dashboard is a separate process; its state is settings.json, and it
    reads the CSV that the monitor appends to.  The body of a POST is the
    JSON value that [request.get_json(force=True)] returns. *)

Inductive Body : Type :=
| BodyObject (d : gmap string pyval)
| BodyOther.                           (* any JSON value that is not an object *)

Inductive Response : Type :=
| Accepted                             (* [{"ok": True}], status 200 *)
| Rejected (errors : list string).     (* [{"ok": False, "errors": [...]}], status 400 *)

(** One entry of the list that [/api/data] returns. *)
Record DataPoint : Type := mkDataPoint {
  point_timestamp : option string;
  point_temperature : Q;
  point_humidity : Q
}.

Module Dashboard.

Definition defaults : gmap string pyval :=
  <["min_temp" := PFloat 18]> (<["max_temp" := PFloat 22]> (
  <["min_hum" := PFloat 40]> (<["max_hum" := PFloat 70]> (
  <["data_pin" := PInt 4]> (<["email_user" := PStr "<EMAIL_FROM>"]> (
  <["email_pass" := PStr "<EMAIL_PASSWORD>"]> (<["email_to" := PStr "<EMAIL_TO>"]> (
  <["smtp_host" := PStr "smtp.gmail.com"]> (<["smtp_port" := PInt 465]> ∅))))))))).

(** [write_raises]: whether [open(SETTINGS_FILE, "w")] raises.  A failing
    [os.chmod] is caught and printed. *)
Definition load_settings (write_raises : option exn) (f : SettingsFile)
    : result (gmap string pyval) * SettingsFile :=
  match f with
  | Missing =>
    match write_raises with
    | Some e => (Raise e, Missing)
    | None => (Ok defaults, Document defaults)
    end
  | Unreadable e => (Raise e, f)
  | Document d => (Ok d, f)
  end.

(** [for key in [...]: if key in new_data: current[key] = new_data[key]] *)
Definition copy_key (new_data : gmap string pyval) (key : string)
    (current : gmap string pyval) : gmap string pyval :=
  match new_data !! key with
  | Some v => <[key := v]> current
  | None => current
  end.

Definition setpoint_keys : list string := ["min_temp"; "max_temp"; "min_hum"; "max_hum"].

Definition update_setpoints (new_data current : gmap string pyval) : gmap string pyval :=
  fold_left (fun cur key => copy_key new_data key cur) setpoint_keys current.

Definition write_settings (new_data : gmap string pyval) (write_raises : option exn)
    (f : SettingsFile) : result unit * SettingsFile :=
  let current :=
    match f with
    | Missing => Ok ∅
    | Unreadable JSONDecodeError => Ok ∅       (* except json.JSONDecodeError *)
    | Unreadable e => Raise e
    | Document d => Ok d
    end in
  match current with
  | Raise e => (Raise e, f)
  | Ok current =>
    match write_raises with
    | Some e => (Raise e, f)
    | None => (Ok tt, Document (update_setpoints new_data current))
    end
  end.

(** [data[key]] for the body of the request *)
Definition body_item (data : Body) (key : string) : result pyval :=
  match data with
  | BodyObject d =>
    match d !! key with
    | Some v => Ok v
    | None => Raise KeyError
    end
  | BodyOther => Raise TypeError
  end.

Definition body_float (data : Body) (key : string) : result Q :=
  let? v := body_item data key in py_float v.

(** The four conversions under [try: ... except (ValueError, TypeError, KeyError)] *)
Definition parse_setpoints (data : Body) : result (Q * Q * Q * Q) :=
  let? min_temp := body_float data "min_temp" in
  let? max_temp := body_float data "max_temp" in
  let? min_hum := body_float data "min_hum" in
  let? max_hum := body_float data "max_hum" in
  Ok (min_temp, max_temp, min_hum, max_hum).

(** [lo <= x <= hi] *)
Definition between (lo x hi : Q) : bool := Qle_bool lo x && Qle_bool x hi.

Definition error_if (failed : bool) (message : string) : list string :=
  if failed then [message] else [].

(** The messages appended to [errors], in the order of the checks. *)
Definition validation_errors (min_temp max_temp min_hum max_hum : Q) : list string :=
  error_if (negb (between (-40) min_temp 80))
    "Minimum Temperature out of range (-40 to 80)" ++
  error_if (negb (between (-40) max_temp 80))
    "Maximum Temperature out of range (-40 to 80)." ++
  error_if (negb (between 0 min_hum 100))
    "Minimum Humidity out of range (0 to 100)." ++
  error_if (negb (between 0 max_hum 100))
    "Maximum Humidity out of range (0 to 100)." ++
  error_if (Qle_bool max_temp min_temp)
    "Minimum Temperature must be less than Maximum Temperature." ++
  error_if (Qle_bool max_hum min_hum)
    "Minimum Humidity must be less than Maximum Humidity.".

(** [settings.update({...})] with the four validated floats *)
Definition with_setpoints (min_temp max_temp min_hum max_hum : Q)
    (settings : gmap string pyval) : gmap string pyval :=
  <["max_hum" := PFloat max_hum]> (<["min_hum" := PFloat min_hum]> (
  <["max_temp" := PFloat max_temp]> (<["min_temp" := PFloat min_temp]> settings))).

(** POST /api/settings.  [create_raises] and [write_raises]: whether the
    two places that open settings.json for writing raise. *)
Definition api_post_settings (data : Body) (create_raises write_raises : option exn)
    (f : SettingsFile) : result Response * SettingsFile :=
  match parse_setpoints data with
  | Raise _ => (Ok (Rejected ["Invalid number format."]), f)
  | Ok (min_temp, max_temp, min_hum, max_hum) =>
    match validation_errors min_temp max_temp min_hum max_hum with
    | (_ :: _) as errors => (Ok (Rejected errors), f)
    | [] =>
      match load_settings create_raises f with
      | (Raise e, f1) => (Raise e, f1)
      | (Ok settings, f1) =>
        match write_settings (with_setpoints min_temp max_temp min_hum max_hum settings)
                write_raises f1 with
        | (Raise e, f2) => (Raise e, f2)
        | (Ok _, f2) => (Ok Accepted, f2)
        end
      end
    end
  end.

(** *** [csv.DictReader] over the rows that [csv.reader] yields

    A row dict maps a field name to its string, or to [None] when the row
    is shorter than the header. *)

(** [dict(zip(fieldnames, row))], then [d[key] = None] for the field names
    that got no value; values beyond the header go under the key [None]
    and are never looked up. *)
Fixpoint zip_row (fieldnames row : list string)
    (d : gmap string (option string)) : gmap string (option string) :=
  match fieldnames, row with
  | name :: names, value :: values => zip_row names values (<[name := Some value]> d)
  | name :: names, [] => zip_row names [] (<[name := None]> d)
  | [], _ => d
  end.

(** [float(row[key])]: a missing key raises [KeyError], [None] raises
    [TypeError], a string that is no number raises [ValueError]. *)
Definition row_float (d : gmap string (option string)) (key : string) : result Q :=
  match d !! key with
  | None => Raise KeyError
  | Some None => Raise TypeError
  | Some (Some s) => py_float (PStr s)
  end.

(** The dict literal of the loop body, its three items in order. *)
Definition row_point (d : gmap string (option string)) : result DataPoint :=
  match d !! "timestamp" with
  | None => Raise KeyError
  | Some ts =>
    let? temperature := row_float d "temperature" in
    let? humidity := row_float d "humidity" in
    Ok (mkDataPoint ts temperature humidity)
  end.

(** [for row in reader: try: data.append(...) except (ValueError, KeyError): continue];
    blank rows are skipped by [DictReader]. *)
Fixpoint read_points (fieldnames : list string) (rows : list (list string))
    : result (list DataPoint) :=
  match rows with
  | [] => Ok []
  | [] :: rest => read_points fieldnames rest
  | row :: rest =>
    match row_point (zip_row fieldnames row ∅) with
    | Ok p => let? ps := read_points fieldnames rest in Ok (p :: ps)
    | Raise ValueError | Raise KeyError => read_points fieldnames rest
    | Raise e => Raise e
    end
  end.

(** GET /api/data over a file that is read to its end.  [rows]: [None] when
    the CSV does not exist, otherwise the rows that [csv.reader] yields for
    it, the header first. *)
Definition api_data (rows : option (list (list string))) : result (list DataPoint) :=
  match rows with
  | None => Ok []
  | Some [] => Ok []
  | Some (fieldnames :: rest) => read_points fieldnames rest
  end.

(** What the file gives the handler: it does not exist; [open] raises; or
    the reader yields [rows] and then either ends or raises [failure] in
    place of a next row (bytes that are not text in the locale's encoding,
    an error of [csv.reader], an I/O error). *)
Inductive CsvSource : Type :=
| CsvAbsent
| CsvUnopenable (e : exn)
| CsvRows (rows : list (list string)) (failure : option exn).

(** GET /api/data with the failures of reading.  [open] and the [for]
    statement's step of the reader stand outside the [try] of the loop
    body, so whatever they raise leaves the handler, after the rows read
    so far have been handled. *)
Definition api_data_from (src : CsvSource) : result (list DataPoint) :=
  match src with
  | CsvAbsent => Ok []
  | CsvUnopenable e => Raise e
  | CsvRows rows failure =>
    let? data := api_data (Some rows) in
    match failure with
    | Some e => Raise e
    | None => Ok data
    end
  end.

(** GET /api/current: the reading, or the 500 answer of the [except]. *)
Definition api_current (f : SettingsFile) (s : Sensor) : (Q * Q) + exn :=
  match fst (CurrentData.get_current_data_default f s) with
  | Ok reading => inl reading
  | Raise e => inr e
  end.

End Dashboard.

(** ** Vocabulary for the further properties *)

From Stdlib Require DecimalFacts DecimalPos Qabs.

(** Between creating and releasing the device only reads and sleeps occur. *)
Definition is_read_or_sleep (e : event) : bool :=
  match e with
  | EvReadTemperature | EvReadHumidity | EvSleep _ => true
  | EvInit _ | EvExit => false
  end.

(** An attempt that the loop retries: a driver [RuntimeError], or a missing
    value. *)
Definition retried (a : Attempt) : Prop :=
  (exists msg, read_temperature a = Raise (RuntimeError msg)) \/
  (exists t msg, read_temperature a = Ok t /\ read_humidity a = Raise (RuntimeError msg)) \/
  reports_null a.

Definition is_runtime_error (e : exn) : bool :=
  match e with RuntimeError _ => true | _ => false end.

(** The clock readings at which [run_alerts] returned [True]. *)
Fixpoint alert_times (verdicts : list (result bool)) (readings : list (Q * Z)) : list Z :=
  match verdicts, readings with
  | Ok true :: vs, (_, now) :: rs => now :: alert_times vs rs
  | _ :: vs, _ :: rs => alert_times vs rs
  | _, _ => []
  end.

(** Each time is at least one hour after the one before it, starting from
    [prev] when there is one. *)
Fixpoint spaced (prev : option Z) (times : list Z) : Prop :=
  match times with
  | [] => True
  | t :: rest =>
    match prev with None => True | Some p => p + usec_per_hour <= t end /\
    spaced (Some t) rest
  end.

(** The clock reading of the most recent alert among the first [i]
    evaluations of a run, if one of them alerted. *)
Definition latest_alert (verdicts : list (result bool)) (readings : list (Q * Z))
    (i : nat) : option Z :=
  last (alert_times (take i verdicts) (take i readings)).

(** The last alert time on record for a metric, if any. *)
Definition recorded_alert (d : AlertDicts) (kind : string) : option Z :=
  match last_alert_time d !! kind with
  | Some la => la
  | None => None
  end.

(** The text of the CSV, empty when the file does not exist. *)
Definition file_text (f : option string) : string :=
  match f with Some s => s | None => "" end.

(** The row that the rollover appends for a label and two averages. *)
Definition hourly_row (label : string) (avg_temp avg_hum : Q) : list string :=
  [label; format_1f avg_temp; format_space_1f avg_hum].

(** A property of the machine that every update made by an iteration
    keeps: creating settings.json when it is missing, accumulating a
    reading, clearing the bucket, rewriting the alert dicts, handing a mail
    to the server, binding the label, appending a row, and moving the
    bucket to a later hour. *)
Record closed_under_cycle (P : Machine -> Prop) : Prop := mkClosed {
  cl_settings : forall m, P m -> settings_file m = Missing ->
                P (with_settings_file (Document Monitor.defaults) m);
  cl_accumulate : forall m t h, P m ->
                  P (with_hourly (hourly_temp m ++ [t]) (hourly_hum m ++ [h]) m);
  cl_clear : forall m, P m -> P (with_hourly [] [] m);
  cl_alerts : forall m d, P m -> P (with_alert_dicts d m);
  cl_outbox : forall m mail, P m -> P (with_outbox (outbox m ++ [mail]) m);
  cl_label : forall m label, P m -> P (with_log_time (Some label) m);
  cl_append : forall m label avg_temp avg_hum, P m ->
              P (with_data_file
                   (Some (file_text (data_file m) +:+ csv_line (hourly_row label avg_temp avg_hum)))
                   m);
  cl_hour : forall m ts, P m -> last_hour m < replace_to_hour ts ->
            P (with_last_hour (replace_to_hour ts) m)
}.

(** The text of several rows, one after the other. *)
Fixpoint csv_lines (rows : list (list string)) : string :=
  match rows with
  | [] => ""
  | row :: rest => csv_line row +:+ csv_lines rest
  end.

(** Rows of the shape the rollover writes. *)
Definition is_hourly_row (row : list string) : Prop :=
  exists label avg_temp avg_hum, row = hourly_row label avg_temp avg_hum.

(** The number that [float()] reads back from the one-decimal rendering of
    a value: its tenths, rounded half to even, with the sign of the value. *)
Definition one_decimal (q : Q) : Q :=
  let k := round_tenths q in
  let shown := Qred (inject_Z (k / 10) + Qmake (k mod 10) 10) in
  if is_negative q then Qopp shown else shown.

(** A row that has a field for every name of the header, or no field at
    all (a blank line). *)
Definition fills_header (fieldnames row : list string) : Prop :=
  row = [] \/ (length fieldnames <= length row)%nat.

(** The value of a decimal numeral read left to right onto [acc]. *)
Fixpoint horner (d : Decimal.uint) (acc : Z) : Z :=
  match d with
  | Decimal.Nil => acc
  | Decimal.D0 l => horner l (acc * 10 + 0)
  | Decimal.D1 l => horner l (acc * 10 + 1)
  | Decimal.D2 l => horner l (acc * 10 + 2)
  | Decimal.D3 l => horner l (acc * 10 + 3)
  | Decimal.D4 l => horner l (acc * 10 + 4)
  | Decimal.D5 l => horner l (acc * 10 + 5)
  | Decimal.D6 l => horner l (acc * 10 + 6)
  | Decimal.D7 l => horner l (acc * 10 + 7)
  | Decimal.D8 l => horner l (acc * 10 + 8)
  | Decimal.D9 l => horner l (acc * 10 + 9)
  end.

(** A string that does not begin with a blank, a sign or a digit stops
    [read_digits]; one that begins with a digit is taken as it is by
    [lstrip] and [read_sign]. *)
Definition starts_with_digit (s : string) : Prop :=
  exists c rest v, s = String c rest /\ digit_value c = Some v.

(** An hourly entry (label and the two means), the row the monitor writes
    for it, and the point the dashboard shows for it. *)
Definition entry_row (e : string * Q * Q) : list string :=
  let '(label, avg_temp, avg_hum) := e in hourly_row label avg_temp avg_hum.

Definition entry_point (e : string * Q * Q) : DataPoint :=
  let '(label, avg_temp, avg_hum) := e in
  mkDataPoint (Some label) (one_decimal avg_temp) (one_decimal avg_hum).

(** * Properties *)

Lemma Qltb_lt x y : Qltb x y = true <-> (x < y)%Q.
Proof.
  unfold Qltb. rewrite negb_true_iff, <- not_true_iff_false, Qle_bool_iff.
  split; [apply Qnot_le_lt | apply Qlt_not_le].
Qed.

Lemma Qltb_ge x y : Qltb x y = false <-> (y <= x)%Q.
Proof.
  unfold Qltb. rewrite negb_false_iff. apply Qle_bool_iff.
Qed.

Lemma outside_range_false v lo hi :
  outside_range v lo hi = false <-> within v lo hi.
Proof.
  unfold outside_range, within.
  rewrite orb_false_iff, !Qltb_ge. tauto.
Qed.

Lemma outside_range_true v lo hi :
  outside_range v lo hi = true <-> ~ within v lo hi.
Proof.
  rewrite <- outside_range_false. destruct (outside_range v lo hi); intuition congruence.
Qed.

Lemma outside_range_above v lo hi : (hi < v)%Q -> outside_range v lo hi = true.
Proof.
  intros H. unfold outside_range. apply orb_true_iff. right. now apply Qltb_lt.
Qed.

Lemma cooldown_over_spec la now : cooldown_over la now = true <-> cooled la now.
Proof.
  unfold cooldown_over, cooled, timedelta_hours. destruct la as [t|].
  - rewrite Z.leb_le. split.
    + intros H. right. exists t. split; [reflexivity | lia].
    + intros [H | (t' & H & Hle)]; [discriminate | injection H as ->; lia].
  - split; [now left | reflexivity].
Qed.

Lemma metric_state_inv d kind o la :
  metric_state d kind = Some (o, la) ->
  last_outside_state d !! kind = Some o /\ last_alert_time d !! kind = Some la.
Proof.
  unfold metric_state.
  destruct (last_outside_state d !! kind), (last_alert_time d !! kind);
    intros H; inversion H; auto.
Qed.

Lemma metric_state_set_outside d kind b o la :
  metric_state d kind = Some (o, la) ->
  metric_state (set_outside kind b d) kind = Some (b, la).
Proof.
  intros H. apply metric_state_inv in H as [_ Hla].
  unfold metric_state, set_outside; simpl.
  rewrite lookup_insert_eq, Hla. reflexivity.
Qed.

Lemma metric_state_set_alert_time d kind now o la :
  metric_state d kind = Some (o, la) ->
  metric_state (set_alert_time kind now d) kind = Some (o, Some now).
Proof.
  intros H. apply metric_state_inv in H as [Ho _].
  unfold metric_state, set_alert_time; simpl.
  rewrite lookup_insert_eq, Ho. reflexivity.
Qed.

(** The three branches of [should_alert], one equation each. *)

Lemma should_alert_within kind v lo hi now d o la :
  metric_state d kind = Some (o, la) ->
  outside_range v lo hi = false ->
  should_alert kind v lo hi now d = (Ok false, set_outside kind false d).
Proof.
  intros H Hin. apply metric_state_inv in H as [Ho Hla].
  unfold should_alert. rewrite Hla, Ho, Hin. reflexivity.
Qed.

Lemma should_alert_arm kind v lo hi now d la :
  metric_state d kind = Some (false, la) ->
  outside_range v lo hi = true ->
  should_alert kind v lo hi now d = (Ok false, set_outside kind true d).
Proof.
  intros H Hout. apply metric_state_inv in H as [Ho Hla].
  unfold should_alert. rewrite Hla, Ho, Hout. reflexivity.
Qed.

Lemma should_alert_fire kind v lo hi now d la :
  metric_state d kind = Some (true, la) ->
  outside_range v lo hi = true ->
  cooldown_over la now = true ->
  should_alert kind v lo hi now d = (Ok true, set_alert_time kind now d).
Proof.
  intros H Hout Hc. apply metric_state_inv in H as [Ho Hla].
  unfold should_alert. rewrite Hla, Ho, Hout, Hc. reflexivity.
Qed.

Lemma should_alert_hold kind v lo hi now d la :
  metric_state d kind = Some (true, la) ->
  outside_range v lo hi = true ->
  cooldown_over la now = false ->
  should_alert kind v lo hi now d = (Ok false, d).
Proof.
  intros H Hout Hc. apply metric_state_inv in H as [Ho Hla].
  unfold should_alert. rewrite Hla, Ho, Hout, Hc. reflexivity.
Qed.

(** [should_alert] on one metric never touches the other metric. *)
Lemma should_alert_frame kind other v lo hi now d :
  kind <> other ->
  metric_state (snd (should_alert kind v lo hi now d)) other = metric_state d other.
Proof.
  intros Hne. unfold should_alert.
  destruct (last_alert_time d !! kind) as [la|]; [|reflexivity].
  destruct (last_outside_state d !! kind) as [po|]; [|reflexivity].
  destruct (outside_range v lo hi); [destruct po; simpl|];
    try destruct (cooldown_over la now); simpl;
    unfold metric_state, set_outside, set_alert_time; simpl;
    rewrite ?lookup_insert_ne by assumption; reflexivity.
Qed.

(** C1. One evaluation step obeys the three-case rule: a value within
    [min, max] leads to WithinRange without alert; a value outside from
    WithinRange arms (OutsideRange, no alert); a value outside from
    OutsideRange alerts exactly when the last alert time is unset or at
    least one hour old, and an alert stamps the last alert time with the
    current time while the state stays OutsideRange. *)
Theorem should_alert_three_cases kind v lo hi now d po la :
  metric_state d kind = Some (po, la) ->
  let r := fst (should_alert kind v lo hi now d) in
  let d' := snd (should_alert kind v lo hi now d) in
  (within v lo hi ->
     r = Ok false /\ metric_state d' kind = Some (false, la)) /\
  (~ within v lo hi -> po = false ->
     r = Ok false /\ metric_state d' kind = Some (true, la)) /\
  (~ within v lo hi -> po = true ->
     (r = Ok true <-> cooled la now) /\
     (r = Ok true -> metric_state d' kind = Some (true, Some now)) /\
     (r <> Ok true -> r = Ok false /\ d' = d)).
Proof.
  intros Hst r d'. subst r d'. repeat split.
  - rewrite (should_alert_within _ _ _ _ _ _ _ _ Hst); [reflexivity|].
    now apply outside_range_false.
  - rewrite (should_alert_within _ _ _ _ _ _ _ _ Hst) by now apply outside_range_false.
    simpl. eapply metric_state_set_outside; eauto.
  - subst po. rewrite (should_alert_arm _ _ _ _ _ _ _ Hst); [reflexivity|].
    now apply outside_range_true.
  - subst po. rewrite (should_alert_arm _ _ _ _ _ _ _ Hst) by now apply outside_range_true.
    simpl. eapply metric_state_set_outside; eauto.
  - subst po. apply outside_range_true in H.
    destruct (cooldown_over la now) eqn:Hc.
    + intros _. now apply cooldown_over_spec.
    + rewrite (should_alert_hold _ _ _ _ _ _ _ Hst H Hc). simpl. discriminate.
  - subst po. apply outside_range_true in H. intros Hc.
    apply cooldown_over_spec in Hc.
    rewrite (should_alert_fire _ _ _ _ _ _ _ Hst H Hc). reflexivity.
  - subst po. apply outside_range_true in H.
    destruct (cooldown_over la now) eqn:Hc.
    + rewrite (should_alert_fire _ _ _ _ _ _ _ Hst H Hc). simpl. intros _.
      eapply metric_state_set_alert_time; eauto.
    + rewrite (should_alert_hold _ _ _ _ _ _ _ Hst H Hc). simpl. discriminate.
  - subst po. apply outside_range_true in H.
    destruct (cooldown_over la now) eqn:Hc.
    + rewrite (should_alert_fire _ _ _ _ _ _ _ Hst H Hc) in H1. simpl in H1. congruence.
    + rewrite (should_alert_hold _ _ _ _ _ _ _ Hst H Hc). reflexivity.
  - subst po. apply outside_range_true in H.
    destruct (cooldown_over la now) eqn:Hc.
    + rewrite (should_alert_fire _ _ _ _ _ _ _ Hst H Hc) in H1. simpl in H1. congruence.
    + rewrite (should_alert_hold _ _ _ _ _ _ _ Hst H Hc). reflexivity.
Qed.

Lemma should_alert_three_cases_witness :
  let armed := set_outside "temp" true initial_alert_dicts in
  metric_state armed "temp" = Some (true, None) /\
  fst (should_alert "temp" 25 18 22 0 armed) = Ok true /\
  metric_state (snd (should_alert "temp" 25 18 22 0 armed)) "temp" = Some (true, Some 0).
Proof.
  pose (armed := set_outside "temp" true initial_alert_dicts).
  assert (Hst : metric_state armed "temp" = Some (true, None)) by reflexivity.
  assert (Hout : ~ within 25 18 22).
  { intros [_ H]. apply H. reflexivity. }
  destruct (should_alert_three_cases "temp" 25 18 22 0 armed true None Hst)
    as (_ & _ & H3).
  destruct (H3 Hout eq_refl) as (Hiff & Hstamp & _).
  assert (Hfire : fst (should_alert "temp" 25 18 22 0 armed) = Ok true).
  { apply Hiff. now left. }
  cbv zeta. split; [exact Hst | split; [exact Hfire | exact (Hstamp Hfire)]].
Defined.

(** *** Scenarios over several cycles *)

Lemma run_alerts_cons kind lo hi v now rest d :
  run_alerts kind lo hi ((v, now) :: rest) d =
  (fst (should_alert kind v lo hi now d)
     :: fst (run_alerts kind lo hi rest (snd (should_alert kind v lo hi now d))),
   snd (run_alerts kind lo hi rest (snd (should_alert kind v lo hi now d)))).
Proof.
  simpl. destruct (should_alert kind v lo hi now d) as [r d1]. simpl.
  destruct (run_alerts kind lo hi rest d1) as [rs d2]. reflexivity.
Qed.

(** While the breach persists and less than an hour has passed since the
    last alert, no cycle alerts and the dicts stay as they are. *)
Lemma run_alerts_quiet kind lo hi ta readings : forall d,
  metric_state d kind = Some (true, Some ta) ->
  Forall (fun p => outside_range (fst p) lo hi = true /\ snd p < ta + usec_per_hour) readings ->
  run_alerts kind lo hi readings d = (map (fun _ => Ok false) readings, d).
Proof.
  induction readings as [|[v now] rest IH]; intros d Hst Hall.
  - reflexivity.
  - inversion Hall as [|p l [Hout Hlt] Hrest]; subst. simpl in Hout, Hlt.
    rewrite run_alerts_cons.
    assert (Hc : cooldown_over (Some ta) now = false).
    { unfold cooldown_over, timedelta_hours. apply Z.leb_gt. lia. }
    rewrite (should_alert_hold _ _ _ _ _ _ _ Hst Hout Hc). simpl.
    rewrite (IH d Hst Hrest). reflexivity.
Qed.

(** *** Verdicts of a whole run

    What one evaluation answers depends on the dicts only through the
    metric's pair (outside flag, last alert time); over a run, the flag is
    the previous reading's side of the bounds and the time is that of the
    most recent alert. *)

Lemma cooldown_over_Some ta now :
  cooldown_over (Some ta) now = (ta + usec_per_hour <=? now).
Proof.
  unfold cooldown_over, timedelta_hours.
  destruct (Z.leb_spec (1 * usec_per_hour) (now - ta)),
           (Z.leb_spec (ta + usec_per_hour) now); try reflexivity; lia.
Qed.

Lemma should_alert_step kind v lo hi now d o la :
  metric_state d kind = Some (o, la) ->
  fst (should_alert kind v lo hi now d)
  = Ok (outside_range v lo hi && o && cooldown_over la now) /\
  metric_state (snd (should_alert kind v lo hi now d)) kind
  = Some (outside_range v lo hi,
          if outside_range v lo hi && o && cooldown_over la now
          then Some now else la).
Proof.
  intros Hst. destruct (outside_range v lo hi) eqn:Hout.
  - destruct o.
    + destruct (cooldown_over la now) eqn:Hc.
      * rewrite (should_alert_fire _ _ _ _ _ _ _ Hst Hout Hc). simpl.
        split; [reflexivity|]. apply (metric_state_set_alert_time _ _ _ _ _ Hst).
      * rewrite (should_alert_hold _ _ _ _ _ _ _ Hst Hout Hc). simpl.
        split; [reflexivity | assumption].
    + rewrite (should_alert_arm _ _ _ _ _ _ _ Hst Hout). simpl.
      split; [reflexivity|]. apply (metric_state_set_outside _ _ _ _ _ Hst).
  - rewrite (should_alert_within _ _ _ _ _ _ _ _ Hst Hout). simpl.
    split; [reflexivity|]. apply (metric_state_set_outside _ _ _ _ _ Hst).
Qed.

Lemma run_alerts_length kind lo hi : forall readings d,
  length (fst (run_alerts kind lo hi readings d)) = length readings.
Proof.
  induction readings as [|[v now] rest IH]; intros d; [reflexivity|].
  rewrite run_alerts_cons. simpl. rewrite IH. reflexivity.
Qed.

Lemma run_alerts_take kind lo hi : forall readings i d,
  fst (run_alerts kind lo hi (take i readings) d)
  = take i (fst (run_alerts kind lo hi readings d)).
Proof.
  induction readings as [|[v now] rest IH]; intros [|i] d; try reflexivity.
  cbn [take]. rewrite !run_alerts_cons. cbn [fst take]. f_equal. apply IH.
Qed.

(** The verdict of cycle [i] is the answer of [should_alert] on the dicts
    left by the cycles before it. *)
Lemma run_alerts_lookup kind lo hi : forall readings i d v now,
  readings !! i = Some (v, now) ->
  fst (run_alerts kind lo hi readings d) !! i
  = Some (fst (should_alert kind v lo hi now
                 (snd (run_alerts kind lo hi (take i readings) d)))).
Proof.
  induction readings as [|[v0 t0] rest IH]; intros [|i] d v now Hi;
    try discriminate Hi.
  - injection Hi as -> ->. rewrite run_alerts_cons. reflexivity.
  - cbn [take]. rewrite !run_alerts_cons. cbn [fst snd]. apply IH. exact Hi.
Qed.

(** After a run, the flag is the side of the last reading and the recorded
    time is that of the last alert of the run (the earlier record when the
    run did not alert). *)
Lemma run_alerts_state kind lo hi : forall readings d o la,
  metric_state d kind = Some (o, la) ->
  metric_state (snd (run_alerts kind lo hi readings d)) kind
  = Some (match last readings with
          | Some p => outside_range (fst p) lo hi
          | None => o
          end,
          match last (alert_times (fst (run_alerts kind lo hi readings d)) readings) with
          | Some ta => Some ta
          | None => la
          end).
Proof.
  induction readings as [|[v now] rest IH]; intros d o la Hst.
  - exact Hst.
  - rewrite run_alerts_cons. cbn [fst snd].
    destruct (should_alert_step kind v lo hi now d o la Hst) as [Hv Hs].
    rewrite Hv, (IH _ _ _ Hs). rewrite last_cons.
    destruct (outside_range v lo hi && o && cooldown_over la now);
      cbn [alert_times]; rewrite ?last_cons;
      destruct (last rest), (last (alert_times _ rest)); reflexivity.
Qed.

(** Every verdict of a run, read off the readings and the verdicts before
    it: a cycle alerts exactly when its reading and the previous one are
    both outside the bounds and no alert was sent yet or the most recent
    one is at least an hour old. *)
Lemma run_alerts_verdict kind lo hi readings d o la i v now :
  metric_state d kind = Some (o, la) ->
  readings !! i = Some (v, now) ->
  fst (run_alerts kind lo hi readings d) !! i
  = Some (Ok (outside_range v lo hi
              && match last (take i readings) with
                 | Some p => outside_range (fst p) lo hi
                 | None => o
                 end
              && cooldown_over
                   match latest_alert (fst (run_alerts kind lo hi readings d)) readings i with
                   | Some ta => Some ta
                   | None => la
                   end now)).
Proof.
  intros Hst Hi. rewrite (run_alerts_lookup _ _ _ _ _ _ _ _ Hi).
  pose proof (run_alerts_state kind lo hi (take i readings) d o la Hst) as Hs.
  rewrite run_alerts_take in Hs.
  destruct (should_alert_step kind v lo hi now _ _ _ Hs) as [Hv _].
  rewrite Hv. reflexivity.
Qed.

Lemma last_take_S {A} (l : list A) i x : l !! i = Some x -> last (take (S i) l) = Some x.
Proof. intros H. rewrite (take_S_r _ _ _ H). apply last_snoc. Qed.

Lemma alert_times_snoc : forall verdicts readings r p,
  length verdicts = length readings ->
  alert_times (verdicts ++ [r]) (readings ++ [p])
  = alert_times verdicts readings
      ++ match r with Ok true => [snd p] | _ => [] end.
Proof.
  induction verdicts as [|r0 vs IH]; intros [|p0 rs] r [v now] Hlen;
    try discriminate Hlen.
  - destruct r as [[|]|]; reflexivity.
  - injection Hlen as Hlen. cbn [app alert_times].
    destruct r0 as [[|]|], p0 as [v0 t0]; cbn [alert_times app];
      rewrite (IH rs r (v, now) Hlen); reflexivity.
Qed.

Lemma alert_times_nonempty : forall verdicts readings j,
  verdicts !! j = Some (Ok true) -> is_Some (readings !! j) ->
  alert_times verdicts readings <> [].
Proof.
  induction verdicts as [|r0 vs IH]; intros [|[v0 t0] rs] [|j] Hv [p Hp];
    try discriminate.
  - injection Hv as ->. discriminate.
  - destruct r0 as [[|]|]; cbn [alert_times]; try discriminate;
      apply (IH rs j Hv); exists p; exact Hp.
Qed.

(** A cycle that does not alert leaves the most recent alert as it was. *)
Lemma latest_alert_silent kind lo hi readings d i :
  fst (run_alerts kind lo hi readings d) !! i = Some (Ok false) ->
  latest_alert (fst (run_alerts kind lo hi readings d)) readings (S i)
  = latest_alert (fst (run_alerts kind lo hi readings d)) readings i.
Proof.
  intros Hv. unfold latest_alert.
  assert (Hp : is_Some (readings !! i)).
  { apply lookup_lt_is_Some. rewrite <- (run_alerts_length kind lo hi readings d).
    apply lookup_lt_is_Some. eauto. }
  destruct Hp as [p Hp].
  rewrite (take_S_r _ _ _ Hv), (take_S_r _ _ _ Hp), alert_times_snoc.
  - rewrite app_nil_r. reflexivity.
  - rewrite !length_take, run_alerts_length. reflexivity.
Qed.

(** C2, as stated, fails: with bounds [18, 22] and a temperature of 25 at
    cycle 1, one minute later, and one hour after cycle 1, the second cycle
    already alerts (no alert was ever sent, so there is no cooldown to wait
    for), and the third cycle, 59 minutes after that alert, does not. *)
Lemma cooldown_scenario_counterexample :
  let t1 := 0 in
  let verdicts :=
    fst (run_alerts "temp" 18 22
           [(25%Q, t1); (25%Q, t1 + timedelta_minutes 1); (25%Q, t1 + timedelta_hours 1)]
           initial_alert_dicts) in
  verdicts = [Ok false; Ok true; Ok false] /\
  verdicts <> [Ok false; Ok false; Ok true].
Proof.
  vm_compute. split; [reflexivity | discriminate].
Qed.

(** C2, amended. From WithinRange with no alert sent yet, a metric that
    exceeds max at cycle 1 and again at cycle 2: cycle 1 arms without
    alerting, and cycle 2 alerts whatever the time since cycle 1, because
    no alert was sent before; its time becomes the last alert time.  At any
    later cycle where the metric is above max and was outside the bounds at
    the cycle before, whatever the cycles in between, an alert fires
    exactly when at least one hour has elapsed since the most recent alert
    before that cycle: the alert of cycle 2, or a later one.
    ([verdicts !! i] is the answer of cycle [i + 1].) *)
Theorem cooldown_scenario kind lo hi r1 r2 later d :
  metric_state d kind = Some (false, None) ->
  (hi < fst r1)%Q -> (hi < fst r2)%Q ->
  let readings := r1 :: r2 :: later in
  let verdicts := fst (run_alerts kind lo hi readings d) in
  verdicts !! 0%nat = Some (Ok false) /\
  verdicts !! 1%nat = Some (Ok true) /\
  latest_alert verdicts readings 2 = Some (snd r2) /\
  forall i vp tp v t,
    (1 <= i)%nat ->
    readings !! i = Some (vp, tp) -> ~ within vp lo hi ->
    readings !! S i = Some (v, t) -> (hi < v)%Q ->
    exists ta,
      latest_alert verdicts readings (S i) = Some ta /\
      verdicts !! S i = Some (Ok (ta + usec_per_hour <=? t)).
Proof.
  intros Hst H1 H2 readings verdicts.
  destruct r1 as [v1 t1], r2 as [v2 t2]. cbn [fst snd] in *.
  apply outside_range_above with (lo := lo) in H1, H2.
  pose proof (metric_state_set_outside _ _ true _ _ Hst) as Hst1.
  assert (Hv : verdicts
               = Ok false :: Ok true
                 :: fst (run_alerts kind lo hi later
                           (set_alert_time kind t2 (set_outside kind true d)))).
  { subst verdicts readings. rewrite run_alerts_cons.
    rewrite (should_alert_arm _ _ _ _ _ _ _ Hst H1). cbn [fst snd].
    rewrite run_alerts_cons.
    rewrite (should_alert_fire _ _ _ _ _ _ _ Hst1 H2 eq_refl). reflexivity. }
  split; [rewrite Hv; reflexivity|].
  split; [rewrite Hv; reflexivity|].
  split; [rewrite Hv; reflexivity|].
  intros i vp tp v t Hi Hprev Hout Hnow Habove.
  apply outside_range_true in Hout.
  apply outside_range_above with (lo := lo) in Habove.
  pose proof (run_alerts_verdict kind lo hi readings d _ _ (S i) v t Hst Hnow) as Hverdict.
  fold verdicts in Hverdict.
  rewrite (last_take_S _ _ _ Hprev) in Hverdict. cbn [fst] in Hverdict.
  rewrite Habove, Hout in Hverdict. cbn [andb] in Hverdict.
  destruct (latest_alert verdicts readings (S i)) as [ta|] eqn:Hlatest.
  - exists ta. split; [reflexivity|].
    rewrite Hverdict, cooldown_over_Some. reflexivity.
  - exfalso. unfold latest_alert in Hlatest. apply last_None in Hlatest.
    revert Hlatest. apply (alert_times_nonempty _ _ 1%nat).
    + rewrite lookup_take_lt by lia. rewrite Hv. reflexivity.
    + rewrite lookup_take_lt by lia. eexists. reflexivity.
Qed.

Lemma cooldown_scenario_witness :
  let m := timedelta_minutes in
  let verdicts :=
    fst (run_alerts "temp" 18 22
           [(25%Q, m 0); (25%Q, m 5); (25%Q, m 65); (25%Q, m 125); (25%Q, m 150)]
           initial_alert_dicts) in
  verdicts !! 1%nat = Some (Ok true) /\ verdicts !! 4%nat = Some (Ok false).
Proof.
  intros m verdicts.
  assert (Habove : (22 < 25)%Q) by reflexivity.
  assert (Hout : ~ within 25 18 22) by (intros [_ H]; apply H; reflexivity).
  destruct (cooldown_scenario "temp" 18 22 (25%Q, m 0) (25%Q, m 5)
              [(25%Q, m 65); (25%Q, m 125); (25%Q, m 150)]
              initial_alert_dicts eq_refl Habove Habove) as (_ & H2 & _ & Hlater).
  split; [exact H2|].
  destruct (Hlater 3%nat 25%Q (m 125) 25%Q (m 150) ltac:(lia) eq_refl Hout eq_refl Habove)
    as (ta & Hta & Hv).
  vm_compute in Hta. injection Hta as <-. exact Hv.
Defined.

(** C3, as stated, fails: breach at 0 and 5 minutes (alert at 5), back
    within range at 10, breach again at 15 and 20 minutes.  The second
    re-breach cycle does not alert, because the alert time recorded at
    minute 5 survived the return within range. *)
Lemma rebreach_counterexample :
  let m := timedelta_minutes in
  let verdicts :=
    fst (run_alerts "temp" 18 22
           [(25%Q, m 0); (25%Q, m 5); (20%Q, m 10); (25%Q, m 15); (25%Q, m 20)]
           initial_alert_dicts) in
  verdicts = [Ok false; Ok true; Ok false; Ok false; Ok false] /\
  nth 4 verdicts (Raise KeyError) <> Ok true.
Proof.
  vm_compute. split; [reflexivity | discriminate].
Qed.

(** C3, amended. In any reading sequence, from any state of the metric's
    dict entries: when the value is within [min, max] at one cycle and
    outside at the next two, neither the within-range cycle nor the first
    re-breach cycle alerts (the first re-breach only arms), and the second
    consecutive re-breach cycle alerts exactly when no alert was ever sent
    or at least one hour has elapsed since the most recent one; the return
    within range does not clear that time.  In particular, if some earlier
    cycle of the sequence alerted, the second re-breach cycle alerts exactly
    when at least one hour has elapsed since the most recent alert before
    the return.  ([verdicts !! i] is the answer of cycle [i + 1].) *)
Theorem rebreach_after_alert kind lo hi readings d o la i vb tb vc tc vd td :
  metric_state d kind = Some (o, la) ->
  readings !! i = Some (vb, tb) -> within vb lo hi ->
  readings !! S i = Some (vc, tc) -> ~ within vc lo hi ->
  readings !! S (S i) = Some (vd, td) -> ~ within vd lo hi ->
  let verdicts := fst (run_alerts kind lo hi readings d) in
  verdicts !! i = Some (Ok false) /\
  verdicts !! S i = Some (Ok false) /\
  latest_alert verdicts readings (S (S i)) = latest_alert verdicts readings i /\
  verdicts !! S (S i)
  = Some (Ok (cooldown_over
                match latest_alert verdicts readings i with
                | Some ta => Some ta
                | None => la
                end td)) /\
  forall j, (j < i)%nat -> verdicts !! j = Some (Ok true) ->
    exists ta,
      latest_alert verdicts readings i = Some ta /\
      verdicts !! S (S i) = Some (Ok (ta + usec_per_hour <=? td)).
Proof.
  intros Hst Hb Hwb Hc Hwc Hd Hwd verdicts.
  apply outside_range_false in Hwb. apply outside_range_true in Hwc, Hwd.
  assert (Vb : verdicts !! i = Some (Ok false)).
  { subst verdicts. rewrite (run_alerts_verdict _ _ _ _ _ _ _ _ _ _ Hst Hb), Hwb.
    reflexivity. }
  assert (Vc : verdicts !! S i = Some (Ok false)).
  { subst verdicts. rewrite (run_alerts_verdict _ _ _ _ _ _ _ _ _ _ Hst Hc).
    rewrite (last_take_S _ _ _ Hb). cbn [fst]. rewrite Hwb, Hwc. reflexivity. }
  assert (Hsame : latest_alert verdicts readings (S (S i))
                  = latest_alert verdicts readings i).
  { subst verdicts. rewrite (latest_alert_silent _ _ _ _ _ _ Vc).
    apply (latest_alert_silent _ _ _ _ _ _ Vb). }
  assert (Vd : verdicts !! S (S i)
               = Some (Ok (cooldown_over
                             match latest_alert verdicts readings i with
                             | Some ta => Some ta
                             | None => la
                             end td))).
  { rewrite <- Hsame. subst verdicts.
    rewrite (run_alerts_verdict _ _ _ _ _ _ _ _ _ _ Hst Hd).
    rewrite (last_take_S _ _ _ Hc). cbn [fst]. rewrite Hwc, Hwd. reflexivity. }
  repeat split; try assumption.
  intros j Hj Hfired.
  destruct (latest_alert verdicts readings i) as [ta|] eqn:Hlatest.
  - exists ta. split; [reflexivity|]. rewrite Vd. f_equal. f_equal.
    apply cooldown_over_Some.
  - exfalso. unfold latest_alert in Hlatest. apply last_None in Hlatest.
    revert Hlatest. apply (alert_times_nonempty _ _ j).
    + rewrite lookup_take_lt by exact Hj. exact Hfired.
    + rewrite lookup_take_lt by exact Hj. apply lookup_lt_is_Some.
      apply lookup_lt_Some in Hb. lia.
Qed.

Lemma rebreach_after_alert_witness :
  let m := timedelta_minutes in
  let verdicts :=
    fst (run_alerts "temp" 18 22
           [(25%Q, m 0); (25%Q, m 5); (24%Q, m 10); (20%Q, m 15); (21%Q, m 20);
            (25%Q, m 25); (25%Q, m 30)]
           initial_alert_dicts) in
  verdicts !! 5%nat = Some (Ok false) /\ verdicts !! 6%nat = Some (Ok false).
Proof.
  intros m verdicts.
  assert (Hin : within 21 18 22) by (split; intros H; discriminate H).
  assert (Hout : ~ within 25 18 22) by (intros [_ H]; apply H; reflexivity).
  destruct (rebreach_after_alert "temp" 18 22
              [(25%Q, m 0); (25%Q, m 5); (24%Q, m 10); (20%Q, m 15); (21%Q, m 20);
               (25%Q, m 25); (25%Q, m 30)]
              initial_alert_dicts false None 4%nat 21 (m 20) 25 (m 25) 25 (m 30)
              eq_refl eq_refl Hin eq_refl Hout eq_refl Hout)
    as (_ & Harm & _ & _ & Hfired).
  split; [exact Harm|].
  destruct (Hfired 1%nat ltac:(lia) eq_refl) as (ta & Hta & Hv).
  vm_compute in Hta. injection Hta as <-. exact Hv.
Defined.

(** ** SensorReader: [get_current_data] *)

Section Acquisition.

Variable dev : nat -> Attempt.
Variable max_retries : Z.
Variable retry_delay : Q.

Lemma read_attempts_app (a b : list event) :
  read_attempts (a ++ b) = (read_attempts a + read_attempts b)%nat.
Proof.
  unfold read_attempts. rewrite List.filter_app. apply length_app.
Qed.

(** One iteration over a null attempt: two property reads, a sleep, and
    the remaining iterations. *)
Lemma attempt_loop_null_step remaining attempt :
  reports_null (dev attempt) ->
  is_negative retry_delay = false ->
  CurrentData.attempt_loop dev max_retries retry_delay (S remaining) attempt =
  (fst (CurrentData.attempt_loop dev max_retries retry_delay remaining (S attempt)),
   [EvReadTemperature; EvReadHumidity; EvSleep retry_delay] ++
   snd (CurrentData.attempt_loop dev max_retries retry_delay remaining (S attempt))).
Proof.
  intros (t & h & Ht & Hh & Hnull) Hdelay. simpl.
  rewrite Ht, Hh.
  destruct t as [t|], h as [h|];
    try (unfold CurrentData.on_error; rewrite Hdelay; reflexivity).
  destruct Hnull; discriminate.
Qed.

(** A sensor that always answers [None] uses up all the iterations. *)
Lemma attempt_loop_all_null remaining : forall attempt,
  (forall n, reports_null (dev n)) ->
  is_negative retry_delay = false ->
  fst (CurrentData.attempt_loop dev max_retries retry_delay remaining attempt)
    = Raise (CurrentData.exhausted max_retries) /\
  read_attempts (snd (CurrentData.attempt_loop dev max_retries retry_delay remaining attempt))
    = remaining.
Proof.
  induction remaining as [|remaining IH]; intros attempt Hnull Hdelay.
  - split; reflexivity.
  - rewrite attempt_loop_null_step by auto.
    destruct (IH (S attempt) Hnull Hdelay) as [Hr Hn].
    split; [exact Hr|]. cbn [snd].
    rewrite read_attempts_app, Hn. reflexivity.
Qed.

End Acquisition.

(** C7. With a valid configuration and a sensor that answers [None] for
    temperature or humidity at every attempt, [get_current_data(3, 0)]
    reads the sensor exactly three times, returns no reading and raises the
    error of exhausted retries; the device is released at the end. *)
Theorem retry_exhaustion (settings : gmap string pyval) (pin : pyval) (s : Sensor) :
  settings !! "data_pin" = Some pin ->
  pin <> PNone ->
  board_has s ("D" +:+ py_str pin) = true ->
  dht_init s = None ->
  (forall n, reports_null (dht_read s n)) ->
  let r := CurrentData.get_current_data (Document settings) s 3 0 in
  fst r = Raise (RuntimeError "Failed to read valid data from DHT22 after 3 attempts") /\
  read_attempts (snd r) = 3%nat /\
  last (snd r) = Some EvExit.
Proof.
  intros Hpin Hsome Hboard Hinit Hnull r. subst r.
  unfold CurrentData.get_current_data, CurrentData.load_settings, dict_get.
  rewrite Hpin.
  destruct (attempt_loop_all_null (dht_read s) 3 0 3 0 Hnull eq_refl) as [Hr Hn].
  change (Z.to_nat 3) with 3%nat.
  destruct pin; try congruence;
    rewrite Hboard, Hinit; cbn [negb fst snd];
    (split; [exact Hr|]);
    (split; [| change (EvInit ?p :: ?l ++ [EvExit]) with ((EvInit p :: l) ++ [EvExit]);
               apply last_snoc]);
    change (EvInit ?p :: ?l ++ [EvExit]) with ([EvInit p] ++ l ++ [EvExit]);
    rewrite !read_attempts_app, Hn; reflexivity.
Qed.

Lemma retry_exhaustion_witness :
  let s := mkSensor (fun name => String.eqb name "D4") None
                    (fun _ => mkAttempt (Ok None) (Ok (Some 40%Q))) in
  let r := CurrentData.get_current_data (Document (<["data_pin" := PInt 4]> ∅)) s 3 0 in
  fst r = Raise (RuntimeError "Failed to read valid data from DHT22 after 3 attempts") /\
  read_attempts (snd r) = 3%nat /\
  last (snd r) = Some EvExit.
Proof.
  apply (retry_exhaustion (<["data_pin" := PInt 4]> ∅) (PInt 4)
           (mkSensor (fun name => String.eqb name "D4") None
                     (fun _ => mkAttempt (Ok None) (Ok (Some 40%Q))))).
  - reflexivity.
  - discriminate.
  - reflexivity.
  - reflexivity.
  - intros n. exists None, (Some 40%Q). repeat split. now left.
Defined.

(** ** Host diagnostics at import time *)

(** C10. Without the thermal sysfs file [get_cpu_temp] returns [None], the
    module-level percentage computation raises [TypeError], and so the
    import of current_data.py fails; monitor.py (which imports it) and the
    one-shot reader stop there, before [main] or any sensor read. *)
Theorem import_fails_without_thermal_zone
    (mem : result MemInfo) (s : StartEnv) (f : SettingsFile) (csv : option string)
    (envs : list CycleEnv) (dev : Sensor) :
  let h := mkHost ThermalAbsent mem in
  CurrentData.get_cpu_temp (thermal h) = Ok None /\
  Monitor.get_cpu_temp (thermal h) = Ok None /\
  CurrentData.module_body h = Raise TypeError /\
  Monitor.module_body h = Raise TypeError /\
  Monitor.script h s f csv envs = Raise TypeError /\
  CurrentData.script h f dev = (Raise TypeError, []).
Proof.
  repeat split.
Qed.

(** With the file present and numeric the module body goes through. *)
Lemma module_body_with_thermal_zone content n mem :
  py_int (PStr content) = Ok n ->
  exists g, CurrentData.module_body (mkHost (ThermalContent content) (Ok mem)) = Ok g /\
            CurrentData.current_temp g = Some (inject_Z n / 1000)%Q.
Proof.
  intros Hn. unfold CurrentData.module_body, CurrentData.get_cpu_temp.
  cbn [thermal virtual_memory]. rewrite Hn.
  eexists. split; reflexivity.
Qed.

(** ** PersistentLog: creation of the CSV *)

(** C9. Initialization creates an absent store with exactly the header
    row, leaves an existing store unchanged whatever its contents, and
    running it twice gives the same store as running it once. *)
Theorem ensure_data_file_idempotent :
  Monitor.ensure_data_file CreateOk None
    = Some ("timestamp,temperature,humidity" +:+ crlf) /\
  (forall c content, Monitor.ensure_data_file c (Some content) = Some content) /\
  (forall c f, Monitor.ensure_data_file c (Monitor.ensure_data_file c f)
               = Monitor.ensure_data_file c f) /\
  (forall c f, Monitor.ensure_data_file c (Monitor.ensure_data_file CreateOk f)
               = Monitor.ensure_data_file CreateOk f).
Proof.
  split; [reflexivity|]. split; [reflexivity|]. split.
  - intros c [content|]; [reflexivity|]. destruct c; reflexivity.
  - intros c [content|]; reflexivity.
Qed.

(** [main] hands the loop the store that initialization produced. *)
Lemma start_data_file s f csv m :
  Monitor.start s f csv = Ok m ->
  data_file m = Monitor.ensure_data_file (create s) csv.
Proof.
  unfold Monitor.start. destruct (makedirs s); [discriminate|].
  intros H. injection H as <-. reflexivity.
Qed.

(** ** Aggregator: the hourly rollover *)

(** The space flag: for a non-negative value the field is a blank followed
    by the plain one-decimal rendering. *)
Lemma format_space_1f_blank q :
  is_negative q = false -> format_space_1f q = " " +:+ format_1f q.
Proof.
  intros H. unfold format_space_1f, format_1f. rewrite H. reflexivity.
Qed.

(** C6, checked on the code.  A bucket with temperatures 21, 22, 23 and
    humidities 50, 52, 54 that rolls over at 2025-01-01 10:00 has the means
    22 and 52; the appended row carries "22.0" as temperature, but its
    humidity field is " 52.0", with a leading blank, because line 240
    formats it with [: .1f]. *)
Theorem rollover_row_of_sample_bucket :
  let ten := 1735725600 * usec_per_second in
  let m := {| settings_file := Document Monitor.defaults;
              data_file := Some (csv_line csv_header);
              outbox := [];
              hourly_temp := [21%Q; 22%Q; 23%Q];
              hourly_hum := [50%Q; 52%Q; 54%Q];
              last_hour := ten - usec_per_hour;
              alert_dicts := initial_alert_dicts;
              log_time := None |} in
  let after := Monitor.rollover (ten + 5 * usec_per_second) None m in
  Qred (Monitor.mean (hourly_temp m)) = 22%Q /\
  Qred (Monitor.mean (hourly_hum m)) = 52%Q /\
  format_1f (Monitor.mean (hourly_temp m)) = "22.0" /\
  format_space_1f (Monitor.mean (hourly_hum m)) = " 52.0" /\
  fst after = Ok tt /\
  data_file (snd after)
    = Some ("timestamp,temperature,humidity" +:+ crlf +:+
            "2025-01-01 09:00,22.0, 52.0" +:+ crlf).
Proof.
  vm_compute. repeat split.
Qed.

(** C5, checked on the code.  The script starts at 09:58, the sensor never
    answers, and the second iteration runs at 10:03: the empty-hour branch
    reads [log_time], which no earlier rollover has bound, and
    [UnboundLocalError] ends the loop with the bucket still on 09:00; the
    third iteration never runs. *)
Theorem empty_first_hour_stops_the_loop :
  let nine := 1735722000 * usec_per_second in
  let dead := mkSensor (fun name => String.eqb name "D4") None
                       (fun _ => mkAttempt (Ok None) (Ok None)) in
  let at_ t := mkCycleEnv None t dead t t None None None in
  let s := mkStartEnv None CreateOk (nine + timedelta_minutes 58) in
  let envs := [at_ (nine + timedelta_minutes 58);
               at_ (nine + timedelta_minutes 63);
               at_ (nine + timedelta_minutes 68)] in
  exists m,
    Monitor.main s (Document Monitor.defaults) None envs = Ok (Raise UnboundLocalError, m) /\
    last_hour m = nine /\
    hourly_temp m = [] /\
    data_file m = Some ("timestamp,temperature,humidity" +:+ crlf).
Proof.
  eexists. vm_compute. repeat split.
Qed.

(** The three ways a rollover check can go. *)

Lemma rollover_not_due ts disk m :
  replace_to_hour ts <= last_hour m ->
  Monitor.rollover ts disk m = (Ok tt, m).
Proof.
  intros H. unfold Monitor.rollover, bind, get.
  replace (last_hour m <? replace_to_hour ts) with false; [reflexivity|].
  symmetry. apply Z.ltb_ge. exact H.
Qed.

Lemma rollover_empty_bound ts disk m label :
  last_hour m < replace_to_hour ts ->
  Monitor.nonempty (hourly_temp m) && Monitor.nonempty (hourly_hum m) = false ->
  log_time m = Some label ->
  Monitor.rollover ts disk m
  = (Ok tt, with_last_hour (replace_to_hour ts) (with_hourly [] [] m)).
Proof.
  intros Hdue Hempty Hlabel. unfold Monitor.rollover, bind, get, modify, ret.
  apply Z.ltb_lt in Hdue. rewrite Hdue, Hempty, Hlabel. reflexivity.
Qed.

Lemma rollover_empty_unbound ts disk m :
  last_hour m < replace_to_hour ts ->
  Monitor.nonempty (hourly_temp m) && Monitor.nonempty (hourly_hum m) = false ->
  log_time m = None ->
  Monitor.rollover ts disk m = (Raise UnboundLocalError, m).
Proof.
  intros Hdue Hempty Hlabel. unfold Monitor.rollover, bind, get, modify, ret, raise.
  apply Z.ltb_lt in Hdue. rewrite Hdue, Hempty, Hlabel. reflexivity.
Qed.

Lemma append_csv_returns row disk m :
  fst (Monitor.append_csv row disk m) = Ok tt.
Proof.
  unfold Monitor.append_csv. destruct disk; reflexivity.
Qed.

Lemma rollover_nonempty ts disk m :
  Monitor.nonempty (hourly_temp m) && Monitor.nonempty (hourly_hum m) = true ->
  fst (Monitor.rollover ts disk m) = Ok tt.
Proof.
  intros Hfull. unfold Monitor.rollover, bind, get.
  destruct (last_hour m <? replace_to_hour ts); [|reflexivity].
  rewrite Hfull. unfold modify at 1.
  destruct disk; reflexivity.
Qed.

(** A rollover check returns, except for the unbound label of the
    empty-hour branch. *)
Lemma rollover_returns_or_unbound ts disk m :
  fst (Monitor.rollover ts disk m) = Ok tt \/
  (fst (Monitor.rollover ts disk m) = Raise UnboundLocalError /\ log_time m = None).
Proof.
  destruct (Z.le_gt_cases (replace_to_hour ts) (last_hour m)) as [Hle | Hlt].
  - left. now rewrite rollover_not_due.
  - destruct (Monitor.nonempty (hourly_temp m) && Monitor.nonempty (hourly_hum m)) eqn:Hb.
    + left. now apply rollover_nonempty.
    + destruct (log_time m) as [label|] eqn:Hl.
      * left. now rewrite (rollover_empty_bound _ _ _ label).
      * right. now rewrite rollover_empty_unbound.
Qed.

(** ** Notifier: [send_email] *)

Lemma absent_or_empty_falsy settings k :
  absent_or_empty settings k -> truthy (or_empty (dict_get settings k)) = false.
Proof.
  unfold absent_or_empty, dict_get. intros [H | [H | H]]; rewrite H; reflexivity.
Qed.


(** C8, as stated, fails: the port is converted with [int(...)] before the
    credentials are looked at and outside the [try]; with
    [{"smtp_port": null}] and no credentials at all, [send_email] raises
    [TypeError] instead of returning [False]. *)
Lemma send_email_counterexample :
  let settings : gmap string pyval := <["smtp_port" := PNone]> ∅ in
  let m := {| settings_file := Document settings;
              data_file := None; outbox := [];
              hourly_temp := []; hourly_hum := []; last_hour := 0;
              alert_dicts := initial_alert_dicts; log_time := None |} in
  absent_or_empty settings "email_user" /\
  absent_or_empty settings "email_pass" /\
  absent_or_empty settings "email_to" /\
  fst (Monitor.send_email "Temperature HIGH Alert" "25.0" settings None m)
    = Raise TypeError.
Proof.
  cbv zeta. repeat split; try (left; reflexivity).
Qed.

(** C8, amended. For every subject, body and settings whose [smtp_port] is
    absent or accepted by [int()]: if one of user, password, recipient is
    absent or empty nothing is sent and [False] is returned; if the
    transport raises, nothing is sent and [False] is returned; and in every
    case the call returns a boolean, leaving the machine untouched unless
    it returns [True]. *)
Theorem send_email_contained subject body (settings : gmap string pyval) smtp m port :
  py_int (dict_get_default settings "smtp_port" (PInt 465)) = Ok port ->
  (absent_or_empty settings "email_user" \/
   absent_or_empty settings "email_pass" \/
   absent_or_empty settings "email_to" ->
   Monitor.send_email subject body settings smtp m = (Ok false, m)) /\
  (forall e, smtp = Some e ->
   Monitor.send_email subject body settings smtp m = (Ok false, m)) /\
  (exists sent m',
     Monitor.send_email subject body settings smtp m = (Ok sent, m') /\
     (sent = false -> m' = m) /\
     (sent = true -> smtp = None /\ length (outbox m') = S (length (outbox m)))).
Proof.
  intros Hport. unfold Monitor.send_email, bind, lift. rewrite Hport.
  repeat split.
  - intros Hmissing.
    replace (truthy (or_empty (dict_get settings "email_user")) &&
             truthy (or_empty (dict_get settings "email_pass")) &&
             truthy (or_empty (dict_get settings "email_to"))) with false; [reflexivity|].
    symmetry. destruct Hmissing as [H | [H | H]];
      apply absent_or_empty_falsy in H; rewrite H;
      rewrite ?andb_false_r; reflexivity.
  - intros e ->.
    destruct (negb _); reflexivity.
  - destruct (negb _).
    + exists false, m. repeat split; congruence.
    + destruct smtp as [e|].
      * exists false, m. repeat split; congruence.
      * destruct (or_empty (dict_get settings "email_user")) as [| | | |u|];
          try (exists false, m; repeat split; congruence).
        destruct (or_empty (dict_get settings "email_to")) as [| | | |r|];
          try (exists false, m; repeat split; congruence).
        eexists true, _. unfold modify, ret. split; [reflexivity|].
        split; [discriminate|]. intros _. split; [reflexivity|].
        cbn. rewrite length_app. cbn. lia.
Qed.

Lemma send_email_contained_witness :
  let settings : gmap string pyval :=
    <["email_user" := PStr "pi@example.org"]> (<["email_pass" := PStr "secret"]> ∅) in
  let m := {| settings_file := Document settings;
              data_file := None; outbox := [];
              hourly_temp := []; hourly_hum := []; last_hour := 0;
              alert_dicts := initial_alert_dicts; log_time := None |} in
  Monitor.send_email "Temperature HIGH Alert" "25.0" settings (Some SMTPException) m
    = (Ok false, m).
Proof.
  cbv zeta.
  refine (proj1 (send_email_contained _ _ _ _ _ 465 _) _).
  - reflexivity.
  - right. right. left. reflexivity.
Defined.

(** ** MonitorLoop: one iteration *)

Section Preservation.

Variable P : Machine -> Prop.

Lemma preserves_ret {A} (a : A) : preserves P (ret a).
Proof. intros m H. exact H. Qed.

Lemma preserves_raise {A} e : preserves P (raise (A := A) e).
Proof. intros m H. exact H. Qed.

Lemma preserves_lift {A} (r : result A) : preserves P (lift r).
Proof. intros m H. exact H. Qed.

Lemma preserves_get : preserves P get.
Proof. intros m H. exact H. Qed.

Lemma preserves_modify f : (forall m, P m -> P (f m)) -> preserves P (modify f).
Proof. intros Hf m H. apply Hf, H. Qed.

Lemma preserves_bind {A B} (c : M A) (k : A -> M B) :
  preserves P c -> (forall a, preserves P (k a)) -> preserves P (bind c k).
Proof.
  intros Hc Hk m H. unfold bind.
  specialize (Hc m H). destruct (c m) as [[a|e] m']; simpl in *.
  - apply Hk, Hc.
  - exact Hc.
Qed.

End Preservation.

Lemma should_alert_total kind v lo hi now d :
  is_Some (metric_state d kind) ->
  exists b, fst (should_alert kind v lo hi now d) = Ok b.
Proof.
  intros [[o la] H]. apply metric_state_inv in H as [Ho Hla].
  unfold should_alert. rewrite Hla, Ho.
  destruct (outside_range v lo hi); [|eexists; reflexivity].
  destruct o; simpl; [|eexists; reflexivity].
  destruct (cooldown_over la now); eexists; reflexivity.
Qed.

Lemma metric_state_set_outside_keeps d kind b k :
  is_Some (metric_state d k) -> is_Some (metric_state (set_outside kind b d) k).
Proof.
  intros [[o la] H]. apply metric_state_inv in H as [Ho Hla].
  unfold metric_state, set_outside; simpl.
  destruct (decide (kind = k)) as [->|Hne].
  - rewrite lookup_insert_eq, Hla. eexists; reflexivity.
  - rewrite lookup_insert_ne, Ho, Hla by assumption. eexists; reflexivity.
Qed.

Lemma metric_state_set_alert_time_keeps d kind now k :
  is_Some (metric_state d k) -> is_Some (metric_state (set_alert_time kind now d) k).
Proof.
  intros [[o la] H]. apply metric_state_inv in H as [Ho Hla].
  unfold metric_state, set_alert_time; simpl. rewrite Ho.
  destruct (decide (kind = k)) as [->|Hne].
  - rewrite lookup_insert_eq. eexists; reflexivity.
  - rewrite lookup_insert_ne, Hla by assumption. eexists; reflexivity.
Qed.

Lemma should_alert_keeps kind v lo hi now d k :
  is_Some (metric_state d k) ->
  is_Some (metric_state (snd (should_alert kind v lo hi now d)) k).
Proof.
  intros H. unfold should_alert.
  destruct (last_alert_time d !! kind) as [la|]; [|exact H].
  destruct (last_outside_state d !! kind) as [po|]; [|exact H].
  destruct (outside_range v lo hi); simpl.
  - destruct po; simpl.
    + destruct (cooldown_over la now); simpl;
        [now apply metric_state_set_alert_time_keeps | exact H].
    + now apply metric_state_set_outside_keeps.
  - now apply metric_state_set_outside_keeps.
Qed.

Lemma send_email_returns subject body (settings : gmap string pyval) smtp m port :
  py_int (dict_get_default settings "smtp_port" (PInt 465)) = Ok port ->
  exists sent o, Monitor.send_email subject body settings smtp m
                 = (Ok sent, with_outbox o m).
Proof.
  intros Hport. unfold Monitor.send_email, bind, lift, ret, modify. rewrite Hport.
  assert (Hsame : with_outbox (outbox m) m = m) by (destruct m; reflexivity).
  destruct (negb _); [exists false, (outbox m); now rewrite Hsame|].
  destruct smtp; [exists false, (outbox m); now rewrite Hsame|].
  destruct (or_empty (dict_get settings "email_user"));
    try (exists false, (outbox m); now rewrite Hsame).
  destruct (or_empty (dict_get settings "email_to"));
    try (exists false, (outbox m); now rewrite Hsame).
  eexists true, _. reflexivity.
Qed.

Lemma alert_block_returns kind label unit_ ts now v lo hi
    (settings : gmap string pyval) smtp m port :
  py_int (dict_get_default settings "smtp_port" (PInt 465)) = Ok port ->
  is_Some (metric_state (alert_dicts m) kind) ->
  exists o d,
    Monitor.alert_block kind label unit_ ts now v lo hi settings smtp m
      = (Ok tt, with_outbox o (with_alert_dicts d m)) /\
    (forall k, is_Some (metric_state (alert_dicts m) k) -> is_Some (metric_state d k)).
Proof.
  intros Hport Hkey.
  unfold Monitor.alert_block, bind at 1, Monitor.should_alert_m.
  destruct (should_alert_total kind v lo hi now (alert_dicts m) Hkey) as [b Hb].
  pose proof (fun k => should_alert_keeps kind v lo hi now (alert_dicts m) k) as Hkeep.
  destruct (should_alert kind v lo hi now (alert_dicts m)) as [r d].
  simpl in Hb, Hkeep. subst r.
  assert (Hquiet : exists o d0,
             (Ok tt, with_alert_dicts d m) = (Ok tt, with_outbox o (with_alert_dicts d0 m)) /\
             (forall k, is_Some (metric_state (alert_dicts m) k) ->
                        is_Some (metric_state d0 k))).
  { exists (outbox m), d. split; [|exact Hkeep]. destruct m; reflexivity. }
  destruct b; [|exact Hquiet].
  destruct (Qltb v lo).
  - unfold bind.
    edestruct (send_email_returns) as (sent & o & ->); [exact Hport|].
    exists o, d. split; [reflexivity | exact Hkeep].
  - destruct (Qltb hi v); [|exact Hquiet].
    unfold bind.
    edestruct (send_email_returns) as (sent & o & ->); [exact Hport|].
    exists o, d. split; [reflexivity | exact Hkeep].
Qed.

Lemma load_settings_frame w m :
  exists f, snd (Monitor.load_settings w m) = with_settings_file f m.
Proof.
  unfold Monitor.load_settings. destruct m as [sf df ob ht hh lh ad lt]. simpl.
  destruct sf as [|e|d].
  - destruct w; simpl; [exists Missing | eexists]; reflexivity.
  - exists (Unreadable e). reflexivity.
  - exists (Document d). reflexivity.
Qed.

Lemma nonempty_snoc {A} (l : list A) x : Monitor.nonempty (l ++ [x]) = true.
Proof. destruct l; reflexivity. Qed.

(** A failure of the settings read leaves the iteration as it is raised. *)
Lemma cycle_settings_failure env m e :
  fst (Monitor.load_settings (settings_write env) m) = Raise e ->
  fst (Monitor.cycle env m) = Raise e.
Proof.
  intros H. unfold Monitor.cycle. unfold bind at 1.
  destruct (Monitor.load_settings (settings_write env) m) as [r m1].
  simpl in H. subst r. reflexivity.
Qed.

(** C4, as stated, fails for the settings read: [load_settings()] is
    called at the top of the iteration outside any [try].  With a
    settings.json that [json.load] rejects, the first iteration raises
    [JSONDecodeError] out of [main]; the second never runs and nothing has
    been recorded. *)
Lemma settings_failure_counterexample :
  let nine := 1735722000 * usec_per_second in
  let dev := mkSensor (fun name => String.eqb name "D4") None
                      (fun _ => mkAttempt (Ok (Some 20%Q)) (Ok (Some 55%Q))) in
  let env := mkCycleEnv None nine dev nine nine None None None in
  let s := mkStartEnv None CreateOk nine in
  exists m,
    Monitor.main s (Unreadable JSONDecodeError) None [env; env]
      = Ok (Raise JSONDecodeError, m) /\
    hourly_temp m = [] /\ outbox m = [].
Proof.
  eexists. vm_compute. repeat split.
Qed.

(** C4, amended. In an iteration whose settings are read and converted
    (thresholds by [float()], port by [int()]), no failure of the sensor
    acquisition, of the SMTP transport or of the CSV append leaves the
    iteration: whatever the sensor, the mail server and the disk do, the
    iteration returns and the loop goes on.  The one exception that can
    still leave it is the [UnboundLocalError] of the empty-hour branch,
    raised only while [log_time] is unbound. *)
Theorem cycle_contains_errors env m (settings : gmap string pyval)
    min_t max_t min_h max_h port :
  fst (Monitor.load_settings (settings_write env) m) = Ok settings ->
  py_float (dict_get_default settings "min_temp" (PFloat 18)) = Ok min_t ->
  py_float (dict_get_default settings "max_temp" (PFloat 26)) = Ok max_t ->
  py_float (dict_get_default settings "min_hum" (PFloat 50)) = Ok min_h ->
  py_float (dict_get_default settings "max_hum" (PFloat 70)) = Ok max_h ->
  py_int (dict_get_default settings "smtp_port" (PInt 465)) = Ok port ->
  dicts_ready m ->
  fst (Monitor.cycle env m) = Ok tt \/
  (fst (Monitor.cycle env m) = Raise UnboundLocalError /\ log_time m = None).
Proof.
  intros Hload Hmin_t Hmax_t Hmin_h Hmax_h Hport [Htemp Hhum].
  remember (fst (Monitor.cycle env m)) as out eqn:Hout.
  unfold Monitor.cycle in Hout. unfold bind at 1 in Hout.
  destruct (load_settings_frame (settings_write env) m) as [f Hframe].
  destruct (Monitor.load_settings (settings_write env) m) as [r m1].
  simpl in Hload, Hframe. subst r m1.
  unfold bind at 1, lift at 1 in Hout. rewrite Hmin_t in Hout.
  unfold bind at 1, lift at 1 in Hout. rewrite Hmax_t in Hout.
  unfold bind at 1, lift at 1 in Hout. rewrite Hmin_h in Hout.
  unfold bind at 1, lift at 1 in Hout. rewrite Hmax_h in Hout.
  unfold bind at 1, get at 1 in Hout.
  set (m1 := with_settings_file f m) in *.
  destruct (fst (CurrentData.get_current_data_default (settings_file m1) (sensor env)))
    as [[temp hum]|e].
  - left. unfold bind at 1, modify at 1 in Hout.
    set (m2 := with_hourly _ _ m1) in *.
    destruct (alert_block_returns "temp" "Temperature" "°C" (timestamp env) (now_temp env)
                temp min_t max_t settings (smtp_temp env) m2 port Hport Htemp)
      as (o1 & d1 & Hblock1 & Hkeys1).
    unfold bind at 1 in Hout. rewrite Hblock1 in Hout.
    set (m3 := with_outbox o1 (with_alert_dicts d1 m2)) in *.
    destruct (alert_block_returns "hum" "Humidity" "%RH" (timestamp env) (now_hum env)
                hum min_h max_h settings (smtp_hum env) m3 port Hport (Hkeys1 _ Hhum))
      as (o2 & d2 & Hblock2 & _).
    unfold bind at 1 in Hout. rewrite Hblock2 in Hout.
    subst out. apply rollover_nonempty. cbn. now rewrite !nonempty_snoc.
  - subst out.
    destruct (rollover_returns_or_unbound (timestamp env) (disk_append env) m1)
      as [Hok | [Hraise Hunbound]]; [now left | right].
    split; [exact Hraise | exact Hunbound].
Qed.

Lemma cycle_contains_errors_witness :
  let ten := 1735725600 * usec_per_second in
  let broken := mkSensor (fun name => String.eqb name "D4") (Some OSError)
                         (fun _ => mkAttempt (Ok None) (Ok None)) in
  let working := mkSensor (fun name => String.eqb name "D4") None
                          (fun _ => mkAttempt (Ok (Some 30%Q)) (Ok (Some 55%Q))) in
  let settings :=
    <["email_user" := PStr "pi@example.org"]> (<["email_pass" := PStr "secret"]> (
    <["email_to" := PStr "owner@example.org"]> Monitor.defaults)) in
  let m := {| settings_file := Document settings;
              data_file := Some (csv_line csv_header);
              outbox := [];
              hourly_temp := []; hourly_hum := [];
              last_hour := ten - usec_per_hour;
              alert_dicts := set_outside "temp" true initial_alert_dicts;
              log_time := Some "2025-01-01 08:00" |} in
  fst (Monitor.cycle (mkCycleEnv None ten broken ten ten None None None) m) = Ok tt /\
  fst (Monitor.cycle (mkCycleEnv None ten working ten ten
                        (Some SMTPException) None (Some OSError)) m) = Ok tt.
Proof.
  cbv zeta. split.
  - edestruct cycle_contains_errors as [H | [_ H]]; [..| exact H | discriminate H];
      try reflexivity; split; eexists; reflexivity.
  - edestruct cycle_contains_errors as [H | [_ H]]; [..| exact H | discriminate H];
      try reflexivity; split; eexists; reflexivity.
Defined.

(** The alert dicts keep their two entries along the loop, so the
    readiness assumed above holds at every iteration of [main]. *)

Lemma send_email_preserves_ready subject body settings smtp :
  preserves dicts_ready (Monitor.send_email subject body settings smtp).
Proof.
  unfold Monitor.send_email.
  apply preserves_bind; [apply preserves_lift|]. intros port.
  destruct (negb _); [apply preserves_ret|].
  destruct smtp; [apply preserves_ret|].
  destruct (or_empty (dict_get settings "email_user")); try apply preserves_ret.
  destruct (or_empty (dict_get settings "email_to")); try apply preserves_ret.
  apply preserves_bind; [|intros; apply preserves_ret].
  apply preserves_modify. intros m H. exact H.
Qed.

Lemma alert_block_preserves_ready kind label unit_ ts now v lo hi settings smtp :
  preserves dicts_ready
    (Monitor.alert_block kind label unit_ ts now v lo hi settings smtp).
Proof.
  unfold Monitor.alert_block. apply preserves_bind.
  - intros m [Ht Hh]. unfold Monitor.should_alert_m.
    pose proof (should_alert_keeps kind v lo hi now (alert_dicts m)) as Hkeep.
    destruct (should_alert kind v lo hi now (alert_dicts m)) as [r d].
    split; cbn; apply Hkeep; assumption.
  - intros fire. destruct fire; [|apply preserves_ret].
    destruct (Qltb v lo).
    + apply preserves_bind; [apply send_email_preserves_ready|].
      intros; apply preserves_ret.
    + destruct (Qltb hi v); [|apply preserves_ret].
      apply preserves_bind; [apply send_email_preserves_ready|].
      intros; apply preserves_ret.
Qed.

Lemma rollover_preserves_ready ts disk :
  preserves dicts_ready (Monitor.rollover ts disk).
Proof.
  unfold Monitor.rollover.
  apply preserves_bind; [apply preserves_get|]. intros m0.
  destruct (last_hour m0 <? replace_to_hour ts); [|apply preserves_ret].
  apply preserves_bind.
  - destruct (Monitor.nonempty _ && Monitor.nonempty _).
    + apply preserves_bind; [apply preserves_modify; intros m H; exact H|].
      intros _. unfold Monitor.append_csv. destruct disk; [apply preserves_ret|].
      apply preserves_modify. intros m H. exact H.
    + apply preserves_bind; [apply preserves_get|]. intros m1.
      destruct (log_time m1); [apply preserves_ret | apply preserves_raise].
  - intros _. apply preserves_bind; apply preserves_modify || intros _.
    + intros m H. exact H.
    + apply preserves_modify. intros m H. exact H.
Qed.

Lemma cycle_preserves_ready env : preserves dicts_ready (Monitor.cycle env).
Proof.
  unfold Monitor.cycle.
  apply preserves_bind.
  { intros m H. destruct (load_settings_frame (settings_write env) m) as [f ->].
    exact H. }
  intros settings.
  do 4 (apply preserves_bind; [apply preserves_lift|]; intros ?).
  apply preserves_bind; [apply preserves_get|]. intros m0.
  destruct (fst (CurrentData.get_current_data_default _ _)) as [[temp hum]|e].
  - apply preserves_bind; [apply preserves_modify; intros m H; exact H|]. intros _.
    apply preserves_bind; [apply alert_block_preserves_ready|]. intros _.
    apply preserves_bind; [apply alert_block_preserves_ready|]. intros _.
    apply rollover_preserves_ready.
  - apply rollover_preserves_ready.
Qed.

Lemma loop_preserves_ready envs : preserves dicts_ready (Monitor.loop envs).
Proof.
  induction envs as [|env rest IH]; simpl.
  - apply preserves_ret.
  - apply preserves_bind; [apply cycle_preserves_ready | intros _; exact IH].
Qed.

Lemma start_ready s f csv m : Monitor.start s f csv = Ok m -> dicts_ready m.
Proof.
  unfold Monitor.start. destruct (makedirs s); [discriminate|].
  intros H. injection H as <-. split; eexists; reflexivity.
Qed.

(** ** Further properties of [get_current_data] *)

Lemma attempt_loop_success dev max_retries retry_delay t' h' remaining :
  forall attempt,
  fst (CurrentData.attempt_loop dev max_retries retry_delay remaining attempt) = Ok (t', h') ->
  exists k t h,
    (k < remaining)%nat /\
    read_temperature (dev (attempt + k)%nat) = Ok (Some t) /\
    read_humidity (dev (attempt + k)%nat) = Ok (Some h) /\
    t' = fmul t CurrentData.TEMPERATURE_ADJUSTMENT /\
    h' = fmul h CurrentData.HUMIDITY_ADJUSTMENT /\
    (forall j, (j < k)%nat -> retried (dev (attempt + j)%nat)) /\
    read_attempts (snd (CurrentData.attempt_loop dev max_retries retry_delay remaining attempt))
      = S k.
Proof.
  induction remaining as [|remaining IH]; intros attempt Hok.
  - discriminate Hok.
  - assert (Hnext : forall (done : list event),
              read_attempts done = 1%nat ->
              retried (dev attempt) ->
              fst (CurrentData.attempt_loop dev max_retries retry_delay remaining (S attempt))
                = Ok (t', h') ->
              exists k t h,
                (k < S remaining)%nat /\
                read_temperature (dev (attempt + k)%nat) = Ok (Some t) /\
                read_humidity (dev (attempt + k)%nat) = Ok (Some h) /\
                t' = fmul t CurrentData.TEMPERATURE_ADJUSTMENT /\
                h' = fmul h CurrentData.HUMIDITY_ADJUSTMENT /\
                (forall j, (j < k)%nat -> retried (dev (attempt + j)%nat)) /\
                read_attempts
                  (done ++ EvSleep retry_delay ::
                   snd (CurrentData.attempt_loop dev max_retries retry_delay remaining (S attempt)))
                  = S k).
    { intros done Hdone Hretried Hrest.
      destruct (IH (S attempt) Hrest) as (k & t & h & Hk & Ht & Hh & Et & Eh & Hbefore & Hn).
      exists (S k), t, h.
      replace (attempt + S k)%nat with (S attempt + k)%nat by lia.
      repeat split; try assumption; try lia.
      - intros j Hj. destruct j as [|j].
        + now rewrite Nat.add_0_r.
        + replace (attempt + S j)%nat with (S attempt + j)%nat by lia.
          apply Hbefore. lia.
      - change (done ++ EvSleep retry_delay :: ?l) with (done ++ [EvSleep retry_delay] ++ l).
        rewrite !read_attempts_app, Hdone, Hn. reflexivity. }
    simpl in Hok |- *.
    destruct (read_temperature (dev attempt)) as [temperature|e] eqn:Ht.
    + destruct (read_humidity (dev attempt)) as [humidity|e] eqn:Hh.
      * destruct temperature as [t|], humidity as [h|].
        -- simpl in Hok. injection Hok as <- <-.
           exists 0%nat, t, h. rewrite Nat.add_0_r.
           repeat split; try assumption; try lia.
        -- unfold CurrentData.on_error in *.
           destruct (is_negative retry_delay); [discriminate Hok|].
           apply (Hnext [EvReadTemperature; EvReadHumidity]); [reflexivity | | exact Hok].
           right; right. exists (Some t), None. auto.
        -- unfold CurrentData.on_error in *.
           destruct (is_negative retry_delay); [discriminate Hok|].
           apply (Hnext [EvReadTemperature; EvReadHumidity]); [reflexivity | | exact Hok].
           right; right. exists None, (Some h). auto.
        -- unfold CurrentData.on_error in *.
           destruct (is_negative retry_delay); [discriminate Hok|].
           apply (Hnext [EvReadTemperature; EvReadHumidity]); [reflexivity | | exact Hok].
           right; right. exists None, None. auto.
      * unfold CurrentData.on_error in *.
        destruct e; try discriminate Hok.
        destruct (is_negative retry_delay); [discriminate Hok|].
        apply (Hnext [EvReadTemperature; EvReadHumidity]); [reflexivity | | exact Hok].
        right; left. eauto.
    + unfold CurrentData.on_error in *.
      destruct e; try discriminate Hok.
      destruct (is_negative retry_delay); [discriminate Hok|].
      apply (Hnext [EvReadTemperature]); [reflexivity | | exact Hok].
      left. eauto.
Qed.

(** The calibration constants, as the doubles they are. *)
Lemma TEMPERATURE_ADJUSTMENT_value :
  CurrentData.TEMPERATURE_ADJUSTMENT = 8106479329266893 # 9007199254740992.
Proof. vm_compute. reflexivity. Qed.

Lemma HUMIDITY_ADJUSTMENT_value : CurrentData.HUMIDITY_ADJUSTMENT = 1%Q.
Proof. vm_compute. reflexivity. Qed.

(** X1. A reading returned by [get_current_data] is the answer of one
    attempt within the retry budget, calibrated in double arithmetic: the
    temperature is the double nearest to the product of the sensor's value
    and the double [0.9] (which is 8106479329266893 / 2^53), the humidity
    is the sensor's value times [1.0]; every earlier attempt was a retried
    one, and the sensor was read exactly once per attempt up to that one. *)
Theorem acquired_reading_is_calibrated f s max_retries retry_delay t' h' :
  fst (CurrentData.get_current_data f s max_retries retry_delay) = Ok (t', h') ->
  exists n t h,
    (n < Z.to_nat max_retries)%nat /\
    dht_read s n = mkAttempt (Ok (Some t)) (Ok (Some h)) /\
    t' = round_double (t * (8106479329266893 # 9007199254740992)) /\
    h' = round_double (h * 1) /\
    (forall j, (j < n)%nat -> retried (dht_read s j)) /\
    read_attempts (snd (CurrentData.get_current_data f s max_retries retry_delay)) = S n.
Proof.
  unfold CurrentData.get_current_data.
  destruct (CurrentData.load_settings f) as [settings|e]; [|discriminate].
  assert (Hcore :
    fst (if negb (board_has s ("D" +:+ py_str (dict_get settings "data_pin")))
         then (Raise ValueError, [])
         else match dht_init s with
              | Some e => (Raise e, [])
              | None =>
                (fst (CurrentData.attempt_loop (dht_read s) max_retries retry_delay
                        (Z.to_nat max_retries) 0),
                 EvInit ("D" +:+ py_str (dict_get settings "data_pin")) ::
                 snd (CurrentData.attempt_loop (dht_read s) max_retries retry_delay
                        (Z.to_nat max_retries) 0) ++ [EvExit])
              end) = Ok (t', h') ->
    exists n t h,
      (n < Z.to_nat max_retries)%nat /\
      dht_read s n = mkAttempt (Ok (Some t)) (Ok (Some h)) /\
      t' = round_double (t * (8106479329266893 # 9007199254740992)) /\
      h' = round_double (h * 1) /\
      (forall j, (j < n)%nat -> retried (dht_read s j)) /\
      read_attempts
        (snd (if negb (board_has s ("D" +:+ py_str (dict_get settings "data_pin")))
              then (Raise ValueError, [])
              else match dht_init s with
                   | Some e => (Raise e, [])
                   | None =>
                     (fst (CurrentData.attempt_loop (dht_read s) max_retries retry_delay
                             (Z.to_nat max_retries) 0),
                      EvInit ("D" +:+ py_str (dict_get settings "data_pin")) ::
                      snd (CurrentData.attempt_loop (dht_read s) max_retries retry_delay
                             (Z.to_nat max_retries) 0) ++ [EvExit])
                   end)) = S n).
  { destruct (negb _); [discriminate|].
    destruct (dht_init s); [discriminate|]. cbn [fst snd]. intros Hok.
    destruct (attempt_loop_success _ _ _ _ _ _ _ Hok)
      as (k & t & h & Hk & Ht & Hh & -> & -> & Hbefore & Hn).
    exists k, t, h. cbn in Ht, Hh, Hbefore.
    unfold fmul. rewrite TEMPERATURE_ADJUSTMENT_value, HUMIDITY_ADJUSTMENT_value.
    repeat split; try assumption.
    - destruct (dht_read s k). cbn in Ht, Hh. now subst.
    - change (EvInit ?p :: ?l ++ [EvExit]) with ([EvInit p] ++ l ++ [EvExit]).
      rewrite !read_attempts_app, Hn. cbn. lia. }
  destruct (dict_get settings "data_pin"); try exact Hcore. discriminate.
Qed.

Lemma acquired_reading_is_calibrated_witness :
  let s := mkSensor (fun name => String.eqb name "D4") None
             (fun n => match n with
                       | O => mkAttempt (Ok None) (Ok None)
                       | _ => mkAttempt (Ok (Some 21%Q)) (Ok (Some 60%Q))
                       end) in
  exists n t h,
    (n < Z.to_nat 5)%nat /\
    dht_read s n = mkAttempt (Ok (Some t)) (Ok (Some h)) /\
    (5319877059831399 # 281474976710656)
      = round_double (t * (8106479329266893 # 9007199254740992)) /\
    60%Q = round_double (h * 1) /\
    (forall j, (j < n)%nat -> retried (dht_read s j)) /\
    read_attempts (snd (CurrentData.get_current_data (Document Monitor.defaults) s 5 2))
      = S n.
Proof.
  cbv zeta.
  apply (acquired_reading_is_calibrated (Document Monitor.defaults) _ 5 2).
  vm_compute. reflexivity.
Defined.

Lemma attempt_loop_bounded dev max_retries retry_delay remaining : forall attempt,
  (read_attempts (snd (CurrentData.attempt_loop dev max_retries retry_delay remaining attempt))
   <= remaining)%nat /\
  forallb is_read_or_sleep
    (snd (CurrentData.attempt_loop dev max_retries retry_delay remaining attempt)) = true.
Proof.
  induction remaining as [|remaining IH]; intros attempt.
  - split; [apply Nat.le_refl | reflexivity].
  - destruct (IH (S attempt)) as [Hle Hall].
    assert (Herr : forall e (done : list event),
              read_attempts done = 1%nat -> forallb is_read_or_sleep done = true ->
              (read_attempts
                 (snd (CurrentData.on_error retry_delay e done
                         (CurrentData.attempt_loop dev max_retries retry_delay remaining
                            (S attempt)))) <= S remaining)%nat /\
              forallb is_read_or_sleep
                (snd (CurrentData.on_error retry_delay e done
                        (CurrentData.attempt_loop dev max_retries retry_delay remaining
                           (S attempt)))) = true).
    { intros e done Hdone Hio. unfold CurrentData.on_error.
      assert (Hstop : (read_attempts done <= S remaining)%nat) by lia.
      destruct e; try (split; [exact Hstop | exact Hio]).
      destruct (is_negative retry_delay); [split; [exact Hstop | exact Hio]|].
      cbn [snd].
      change (done ++ EvSleep retry_delay :: ?l) with (done ++ [EvSleep retry_delay] ++ l).
      rewrite !read_attempts_app, !forallb_app, Hdone, Hio, Hall.
      split; [cbn; lia | reflexivity]. }
    cbn [CurrentData.attempt_loop].
    destruct (read_temperature (dev attempt)) as [temperature|e];
      [|apply Herr; reflexivity].
    destruct (read_humidity (dev attempt)) as [humidity|e];
      [|apply Herr; reflexivity].
    destruct temperature, humidity; try (apply Herr; reflexivity).
    split; [cbn; lia | reflexivity].
Qed.

(** X2. Whatever the settings, the board and the sensor do, one call of
    [get_current_data] reads the sensor at most [max_retries] times. *)
Theorem reads_bounded_by_max_retries f s max_retries retry_delay :
  (read_attempts (snd (CurrentData.get_current_data f s max_retries retry_delay))
   <= Z.to_nat max_retries)%nat.
Proof.
  unfold CurrentData.get_current_data.
  destruct (CurrentData.load_settings f) as [settings|e]; [|cbn; lia].
  assert (Hcore : forall pin,
    (read_attempts
       (snd (if negb (board_has s ("D" +:+ py_str pin))
             then (Raise ValueError, [])
             else match dht_init s with
                  | Some e => (Raise e, [])
                  | None =>
                    (fst (CurrentData.attempt_loop (dht_read s) max_retries retry_delay
                            (Z.to_nat max_retries) 0),
                     EvInit ("D" +:+ py_str pin) ::
                     snd (CurrentData.attempt_loop (dht_read s) max_retries retry_delay
                            (Z.to_nat max_retries) 0) ++ [EvExit])
                  end)) <= Z.to_nat max_retries)%nat).
  { intros pin. destruct (negb _); [cbn; lia|].
    destruct (dht_init s); [cbn; lia|]. cbn [snd].
    change (EvInit ?p :: ?l ++ [EvExit]) with ([EvInit p] ++ l ++ [EvExit]).
    rewrite !read_attempts_app.
    destruct (attempt_loop_bounded (dht_read s) max_retries retry_delay
                (Z.to_nat max_retries) 0) as [Hle _].
    cbn. lia. }
  destruct (dict_get settings "data_pin"); try apply Hcore. cbn; lia.
Qed.

(** X3. A call either never creates the device (empty trace), or creates
    it once and releases it as its last action, with only reads and sleeps
    in between: the [finally] clause runs on every path. *)
Theorem device_always_released f s max_retries retry_delay :
  snd (CurrentData.get_current_data f s max_retries retry_delay) = [] \/
  exists pin mid,
    snd (CurrentData.get_current_data f s max_retries retry_delay)
      = EvInit pin :: mid ++ [EvExit] /\
    forallb is_read_or_sleep mid = true.
Proof.
  unfold CurrentData.get_current_data.
  destruct (CurrentData.load_settings f) as [settings|e]; [|now left].
  assert (Hcore : forall pin,
    let r := if negb (board_has s ("D" +:+ py_str pin))
             then (Raise ValueError, [])
             else match dht_init s with
                  | Some e => (Raise e, [])
                  | None =>
                    (fst (CurrentData.attempt_loop (dht_read s) max_retries retry_delay
                            (Z.to_nat max_retries) 0),
                     EvInit ("D" +:+ py_str pin) ::
                     snd (CurrentData.attempt_loop (dht_read s) max_retries retry_delay
                            (Z.to_nat max_retries) 0) ++ [EvExit])
                  end in
    snd r = [] \/
    exists name mid, snd r = EvInit name :: mid ++ [EvExit] /\
                     forallb is_read_or_sleep mid = true).
  { intros pin. cbv zeta. destruct (negb _); [now left|].
    destruct (dht_init s); [now left|]. right. cbn [snd].
    eexists _, _. split; [reflexivity|].
    apply (attempt_loop_bounded (dht_read s) max_retries retry_delay
             (Z.to_nat max_retries) 0). }
  destruct (dict_get settings "data_pin"); try apply Hcore. now left.
Qed.

(** X4. A configuration without a usable pin is rejected with [ValueError]
    before the device is created: when [data_pin] is missing or null, or
    when the board module has no attribute of that name. *)
Theorem unusable_pin_is_rejected (settings : gmap string pyval) s max_retries retry_delay :
  dict_get settings "data_pin" = PNone \/
  board_has s ("D" +:+ py_str (dict_get settings "data_pin")) = false ->
  CurrentData.get_current_data (Document settings) s max_retries retry_delay
    = (Raise ValueError, []).
Proof.
  intros H. unfold CurrentData.get_current_data, CurrentData.load_settings.
  destruct H as [-> | H]; [reflexivity|].
  destruct (dict_get settings "data_pin"); try reflexivity; rewrite H; reflexivity.
Qed.

Lemma unusable_pin_is_rejected_witness :
  CurrentData.get_current_data
    (Document (<["data_pin" := PFloat 4]> ∅))
    (mkSensor (fun name => String.eqb name "D4") None
              (fun _ => mkAttempt (Ok (Some 25%Q)) (Ok (Some 60%Q))))
    5 2
  = (Raise ValueError, []).
Proof.
  apply unusable_pin_is_rejected. right. reflexivity.
Defined.

(** X5. An exception of the driver that is no [RuntimeError] is not
    retried: it leaves the call at once, after a single read, and the
    device is still released. *)
Theorem other_driver_error_is_not_retried (settings : gmap string pyval) s
    max_retries retry_delay e :
  dict_get settings "data_pin" <> PNone ->
  board_has s ("D" +:+ py_str (dict_get settings "data_pin")) = true ->
  dht_init s = None ->
  0 < max_retries ->
  read_temperature (dht_read s 0) = Raise e ->
  is_runtime_error e = false ->
  CurrentData.get_current_data (Document settings) s max_retries retry_delay
    = (Raise e,
       [EvInit ("D" +:+ py_str (dict_get settings "data_pin")); EvReadTemperature; EvExit]).
Proof.
  intros Hpin Hboard Hinit Hpos Hread Hother.
  unfold CurrentData.get_current_data, CurrentData.load_settings.
  destruct (Z.to_nat max_retries) as [|n] eqn:Hn; [lia|].
  assert (Hloop : CurrentData.attempt_loop (dht_read s) max_retries retry_delay (S n) 0
                  = (Raise e, [EvReadTemperature])).
  { simpl. rewrite Hread. unfold CurrentData.on_error.
    destruct e; try reflexivity. discriminate Hother. }
  destruct (dict_get settings "data_pin"); try congruence;
    rewrite Hboard, Hinit, Hloop; reflexivity.
Qed.

Lemma other_driver_error_is_not_retried_witness :
  CurrentData.get_current_data
    (Document Monitor.defaults)
    (mkSensor (fun name => String.eqb name "D4") None
              (fun _ => mkAttempt (Raise OSError) (Ok (Some 60%Q))))
    5 2
  = (Raise OSError, [EvInit "D4"; EvReadTemperature; EvExit]).
Proof.
  apply (other_driver_error_is_not_retried Monitor.defaults); try reflexivity.
  discriminate.
Defined.

(** ** Further properties of [should_alert] *)

Lemma run_alerts_missing_key kind lo hi readings : forall d,
  last_alert_time d !! kind = None ->
  alert_times (fst (run_alerts kind lo hi readings d)) readings = [].
Proof.
  induction readings as [|[v now] rest IH]; intros d Hnone; [reflexivity|].
  rewrite run_alerts_cons. unfold should_alert at 1 2. rewrite Hnone.
  cbn [fst snd alert_times]. apply IH, Hnone.
Qed.

(** X6. Alerts for one metric are throttled: in any sequence of
    evaluations, from any state, each alert comes at least one hour (by the
    clock readings of [should_alert]) after the previous alert and after
    the alert time on record at the start. *)
Theorem alerts_one_hour_apart kind lo hi readings : forall d,
  spaced (recorded_alert d kind) (alert_times (fst (run_alerts kind lo hi readings d)) readings).
Proof.
  induction readings as [|[v now] rest IH]; intros d; [exact I|].
  unfold recorded_alert.
  destruct (last_alert_time d !! kind) as [la|] eqn:Hla.
  2:{ rewrite run_alerts_missing_key by exact Hla. exact I. }
  rewrite run_alerts_cons. specialize (IH (snd (should_alert kind v lo hi now d))).
  unfold recorded_alert in IH. revert IH. unfold should_alert. rewrite Hla.
  destruct (last_outside_state d !! kind) as [po|] eqn:Hpo.
  2:{ cbn [fst snd alert_times]. now rewrite Hla. }
  destruct (outside_range v lo hi).
  - destruct po; cbn [negb andb].
    + destruct (cooldown_over la now) eqn:Hc; cbn [fst snd alert_times].
      * unfold set_alert_time; cbn [last_alert_time]. rewrite lookup_insert_eq.
        intros IH. split; [|exact IH].
        destruct la as [t|]; [|exact I].
        unfold cooldown_over, timedelta_hours in Hc. apply Z.leb_le in Hc. lia.
      * now rewrite Hla.
    + cbn [fst snd alert_times set_outside last_alert_time]. now rewrite Hla.
  - cbn [fst snd alert_times set_outside last_alert_time]. now rewrite Hla.
Qed.

(** After an evaluation that returns, the outside flag of the metric tells
    whether the reading just evaluated was outside its range. *)
Lemma should_alert_records_outside kind v lo hi now d b :
  fst (should_alert kind v lo hi now d) = Ok b ->
  last_outside_state (snd (should_alert kind v lo hi now d)) !! kind
    = Some (outside_range v lo hi).
Proof.
  unfold should_alert.
  destruct (last_alert_time d !! kind) as [la|]; [|discriminate].
  destruct (last_outside_state d !! kind) as [po|] eqn:Hpo; [|discriminate].
  destruct (outside_range v lo hi).
  - destruct po; cbn [negb andb].
    + destruct (cooldown_over la now); intros _; exact Hpo.
    + intros _. apply lookup_insert_eq.
  - intros _. apply lookup_insert_eq.
Qed.

Lemma should_alert_true_inv kind v lo hi now d :
  fst (should_alert kind v lo hi now d) = Ok true ->
  outside_range v lo hi = true /\ last_outside_state d !! kind = Some true.
Proof.
  unfold should_alert.
  destruct (last_alert_time d !! kind) as [la|]; [|discriminate].
  destruct (last_outside_state d !! kind) as [po|]; [|discriminate].
  destruct (outside_range v lo hi); [|discriminate].
  destruct po; [|discriminate]. intros _. split; reflexivity.
Qed.

Lemma should_alert_raise_sticky kind v lo hi now d e :
  fst (should_alert kind v lo hi now d) = Raise e ->
  snd (should_alert kind v lo hi now d) = d /\
  forall v' now', fst (should_alert kind v' lo hi now' d) = Raise KeyError.
Proof.
  unfold should_alert.
  destruct (last_alert_time d !! kind) as [la|]; [|now split].
  destruct (last_outside_state d !! kind) as [po|]; [|now split].
  destruct (outside_range v lo hi); [destruct po; cbn [negb andb];
    [destruct (cooldown_over la now)|]|]; discriminate.
Qed.

Lemma lookup_head {A} (x y : A) (l : list A) : (x :: l) !! 0%nat = Some y -> x = y.
Proof. cbn. congruence. Qed.

Lemma lookup_tail {A} (x : A) (l : list A) (i : nat) : (x :: l) !! S i = l !! i.
Proof. reflexivity. Qed.

(** X7. An alert needs two consecutive breaches: whenever the i-th
    evaluation of a sequence alerts, its reading is outside the range, and
    so is the reading evaluated just before it (for the first evaluation of
    the sequence: the outside flag was already set). *)
Theorem alert_needs_two_breaches kind lo hi (readings : list (Q * Z)) :
  forall d (i : nat),
  fst (run_alerts kind lo hi readings d) !! i = Some (Ok true) ->
  exists v now,
    readings !! i = Some (v, now) /\ outside_range v lo hi = true /\
    match i with
    | O => last_outside_state d !! kind = Some true
    | S j => exists v' now', readings !! j = Some (v', now') /\
                             outside_range v' lo hi = true
    end.
Proof.
  induction readings as [|[v now] rest IH]; intros d i Hi; [discriminate Hi|].
  rewrite run_alerts_cons in Hi. cbn [fst] in Hi.
  destruct i as [|i].
  - apply lookup_head in Hi.
    destruct (should_alert_true_inv _ _ _ _ _ _ Hi) as [Hout Hflag].
    exists v, now. repeat split; assumption.
  - rewrite lookup_tail in Hi.
    destruct (IH _ _ Hi) as (v1 & now1 & Hrd & Hout & Hprev).
    exists v1, now1. split; [exact Hrd|]. split; [exact Hout|].
    destruct i as [|j]; [|exact Hprev].
    exists v, now. split; [reflexivity|].
    destruct (fst (should_alert kind v lo hi now d)) as [b|e] eqn:Hr.
    + rewrite (should_alert_records_outside _ _ _ _ _ _ _ Hr) in Hprev.
      now injection Hprev.
    + (* the dicts lack the key: the next evaluation raises as well *)
      exfalso.
      destruct (should_alert_raise_sticky _ _ _ _ _ _ _ Hr) as [Hsame Hsticky].
      rewrite Hsame in Hi.
      destruct rest as [|[v2 now2] rest']; [discriminate Hrd|].
      rewrite run_alerts_cons in Hi. cbn [fst] in Hi.
      apply lookup_head in Hi. rewrite Hsticky in Hi. discriminate Hi.
Qed.

Lemma alert_needs_two_breaches_witness :
  exists v now,
    [(25%Q, 0); (25%Q, timedelta_minutes 5)] !! 1%nat = Some (v, now) /\
    outside_range v 18 22 = true /\
    exists v' now', [(25%Q, 0); (25%Q, timedelta_minutes 5)] !! 0%nat = Some (v', now') /\
                    outside_range v' 18 22 = true.
Proof.
  apply (alert_needs_two_breaches "temp" 18 22
           [(25%Q, 0); (25%Q, timedelta_minutes 5)] initial_alert_dicts 1).
  reflexivity.
Defined.

(** X8. Evaluating one metric leaves every other entry of the two dicts as
    it was, and an evaluation that raises (a metric missing from the dicts)
    changes nothing at all. *)
Theorem should_alert_touches_one_metric kind other v lo hi now d :
  kind <> other ->
  last_alert_time (snd (should_alert kind v lo hi now d)) !! other
    = last_alert_time d !! other /\
  last_outside_state (snd (should_alert kind v lo hi now d)) !! other
    = last_outside_state d !! other /\
  (forall e, fst (should_alert kind v lo hi now d) = Raise e ->
             e = KeyError /\ snd (should_alert kind v lo hi now d) = d).
Proof.
  intros Hne. unfold should_alert.
  destruct (last_alert_time d !! kind) as [la|].
  2:{ repeat split; try reflexivity; cbn in *; congruence. }
  destruct (last_outside_state d !! kind) as [po|].
  2:{ repeat split; try reflexivity; cbn in *; congruence. }
  destruct (outside_range v lo hi); [destruct po; cbn [negb andb];
    [destruct (cooldown_over la now)|]|];
    cbn [fst snd set_outside set_alert_time last_alert_time last_outside_state];
    rewrite ?lookup_insert_ne by exact Hne;
    repeat split; intros; discriminate.
Qed.

Lemma should_alert_touches_one_metric_witness :
  last_alert_time (snd (should_alert "temp" 25 18 22 0
                          (set_outside "temp" true initial_alert_dicts))) !! "hum"
    = Some None.
Proof.
  exact (proj1 (should_alert_touches_one_metric "temp" "hum" 25 18 22 0
                  (set_outside "temp" true initial_alert_dicts) ltac:(discriminate))).
Defined.

(** ** Further properties of the loop *)

Lemma rollover_full ts disk m :
  last_hour m < replace_to_hour ts ->
  Monitor.nonempty (hourly_temp m) && Monitor.nonempty (hourly_hum m) = true ->
  Monitor.rollover ts disk m
  = (Ok tt,
     with_last_hour (replace_to_hour ts)
       (with_hourly [] []
          (snd (Monitor.append_csv
                  (hourly_row (strftime_minutes (replace_to_hour ts - timedelta_hours 1))
                     (Monitor.mean (hourly_temp m)) (Monitor.mean (hourly_hum m)))
                  disk
                  (with_log_time
                     (Some (strftime_minutes (replace_to_hour ts - timedelta_hours 1))) m))))).
Proof.
  intros Hdue Hfull. unfold Monitor.rollover, bind, get, modify, ret.
  apply Z.ltb_lt in Hdue. rewrite Hdue, Hfull.
  unfold Monitor.append_csv, modify, ret. destruct disk; reflexivity.
Qed.

Section Closed.

Variable P : Machine -> Prop.
Hypothesis closed : closed_under_cycle P.

Lemma load_settings_closed w : preserves P (Monitor.load_settings w).
Proof.
  intros m H. unfold Monitor.load_settings.
  destruct (settings_file m) eqn:Hf; try exact H.
  destruct w; [exact H|]. cbn [snd]. now apply (cl_settings P closed).
Qed.

Lemma send_email_closed subject body settings smtp :
  preserves P (Monitor.send_email subject body settings smtp).
Proof.
  unfold Monitor.send_email.
  apply preserves_bind; [apply preserves_lift|]. intros port.
  destruct (negb _); [apply preserves_ret|].
  destruct smtp; [apply preserves_ret|].
  destruct (or_empty (dict_get settings "email_user")); try apply preserves_ret.
  destruct (or_empty (dict_get settings "email_to")); try apply preserves_ret.
  apply preserves_bind; [|intros; apply preserves_ret].
  apply preserves_modify. intros m H. now apply (cl_outbox P closed).
Qed.

Lemma alert_block_closed kind label unit_ ts now v lo hi settings smtp :
  preserves P (Monitor.alert_block kind label unit_ ts now v lo hi settings smtp).
Proof.
  unfold Monitor.alert_block. apply preserves_bind.
  - intros m H. unfold Monitor.should_alert_m.
    destruct (should_alert kind v lo hi now (alert_dicts m)) as [r d].
    cbn [snd]. now apply (cl_alerts P closed).
  - intros fire. destruct fire; [|apply preserves_ret].
    destruct (Qltb v lo).
    + apply preserves_bind; [apply send_email_closed|]. intros; apply preserves_ret.
    + destruct (Qltb hi v); [|apply preserves_ret].
      apply preserves_bind; [apply send_email_closed|]. intros; apply preserves_ret.
Qed.

Lemma rollover_closed ts disk : preserves P (Monitor.rollover ts disk).
Proof.
  intros m H.
  destruct (Z.le_gt_cases (replace_to_hour ts) (last_hour m)) as [Hle | Hlt].
  - now rewrite rollover_not_due.
  - destruct (Monitor.nonempty (hourly_temp m) && Monitor.nonempty (hourly_hum m)) eqn:Hb.
    + rewrite rollover_full by assumption.
      unfold Monitor.append_csv, ret, modify. destruct disk; cbn [snd].
      * apply (cl_hour P closed); [|exact Hlt].
        apply (cl_clear P closed). now apply (cl_label P closed).
      * apply (cl_hour P closed); [|exact Hlt].
        apply (cl_clear P closed).
        apply (cl_append P closed (with_log_time _ m)). now apply (cl_label P closed).
    + destruct (log_time m) as [label|] eqn:Hl.
      * rewrite (rollover_empty_bound _ _ _ label) by assumption. cbn [snd].
        apply (cl_hour P closed); [|exact Hlt]. now apply (cl_clear P closed).
      * now rewrite rollover_empty_unbound.
Qed.

Lemma cycle_closed env : preserves P (Monitor.cycle env).
Proof.
  unfold Monitor.cycle.
  apply preserves_bind; [apply load_settings_closed|]. intros settings.
  do 4 (apply preserves_bind; [apply preserves_lift|]; intros ?).
  apply preserves_bind; [apply preserves_get|]. intros m0.
  destruct (fst (CurrentData.get_current_data_default _ _)) as [[temp hum]|e].
  - apply preserves_bind.
    { apply preserves_modify. intros m H. now apply (cl_accumulate P closed). }
    intros _.
    apply preserves_bind; [apply alert_block_closed|]. intros _.
    apply preserves_bind; [apply alert_block_closed|]. intros _.
    apply rollover_closed.
  - apply rollover_closed.
Qed.

Lemma loop_closed envs : preserves P (Monitor.loop envs).
Proof.
  induction envs as [|env rest IH]; simpl.
  - apply preserves_ret.
  - apply preserves_bind; [apply cycle_closed | intros _; exact IH].
Qed.

End Closed.

Lemma string_app_cons x (a b : string) : String x a +:+ b = String x (a +:+ b).
Proof. reflexivity. Qed.

Lemma string_app_assoc (a b c : string) : (a +:+ b) +:+ c = a +:+ (b +:+ c).
Proof.
  induction a as [|x a IH]; [reflexivity|].
  now rewrite !string_app_cons, IH.
Qed.

Lemma string_app_nil_r (a : string) : a +:+ "" = a.
Proof.
  induction a as [|x a IH]; [reflexivity|].
  now rewrite string_app_cons, IH.
Qed.

Lemma csv_lines_snoc rows row : csv_lines (rows ++ [row]) = csv_lines rows +:+ csv_line row.
Proof.
  induction rows as [|r rows IH]; cbn [csv_lines app].
  - now rewrite string_app_nil_r.
  - now rewrite IH, string_app_assoc.
Qed.

(** X9. The CSV is append-only: after any number of iterations, finished
    or stopped by an exception, its text is the text found at the start
    followed by whole rows of the shape [label, temperature, humidity] that
    the rollover writes; an existing file never disappears. *)
Theorem log_is_append_only envs m :
  exists rows,
    file_text (data_file (snd (Monitor.loop envs m)))
      = file_text (data_file m) +:+ csv_lines rows /\
    Forall is_hourly_row rows /\
    (is_Some (data_file m) -> is_Some (data_file (snd (Monitor.loop envs m)))).
Proof.
  apply (loop_closed
           (fun m' => exists rows,
              file_text (data_file m') = file_text (data_file m) +:+ csv_lines rows /\
              Forall is_hourly_row rows /\
              (is_Some (data_file m) -> is_Some (data_file m')))).
  - constructor; try (intros; assumption).
    intros m' label avg_temp avg_hum (rows & Htext & Hrows & Hsome).
    exists (rows ++ [hourly_row label avg_temp avg_hum]). cbn [data_file with_data_file file_text].
    split; [|split].
    + now rewrite Htext, csv_lines_snoc, string_app_assoc.
    + apply Forall_app. split; [exact Hrows|].
      constructor; [|constructor]. now exists label, avg_temp, avg_hum.
    + intros _. eexists; reflexivity.
  - exists []. split; [now rewrite string_app_nil_r|]. split; [constructor | auto].
Qed.

(** X10. The loop never rewrites settings.json: after any number of
    iterations the file is as it was, except that a missing file may have
    been created with the defaults of [load_settings]. *)
Theorem settings_only_created envs m :
  settings_file (snd (Monitor.loop envs m)) = settings_file m \/
  (settings_file m = Missing /\
   settings_file (snd (Monitor.loop envs m)) = Document Monitor.defaults).
Proof.
  apply (loop_closed
           (fun m' => settings_file m' = settings_file m \/
                      (settings_file m = Missing /\
                       settings_file m' = Document Monitor.defaults))).
  - constructor; try (intros; assumption).
    intros m' [Hsame | [Hmissing Hdoc]] Hnow.
    + right. split; [congruence | reflexivity].
    + congruence.
  - now left.
Qed.

Lemma replace_to_hour_aligned ts : replace_to_hour ts mod usec_per_hour = 0.
Proof.
  unfold replace_to_hour.
  assert (Hpos : usec_per_hour <> 0) by discriminate.
  rewrite Zminus_mod, Z.mod_mod, Z.sub_diag by exact Hpos. reflexivity.
Qed.

(** X12. In every state that [main] reaches, the two hourly lists have the
    same length, the bucket sits on an exact hour, and that hour is not
    before the hour in which the script started. *)
Theorem main_keeps_bucket_well_formed s f csv envs r m :
  Monitor.main s f csv envs = Ok (r, m) ->
  length (hourly_temp m) = length (hourly_hum m) /\
  last_hour m mod usec_per_hour = 0 /\
  replace_to_hour (start_time s) <= last_hour m.
Proof.
  unfold Monitor.main. destruct (Monitor.start s f csv) as [m0|e] eqn:Hstart; [|discriminate].
  intros H. injection H as H.
  assert (Hm : m = snd (Monitor.loop envs m0)) by now rewrite H.
  subst m. clear H.
  assert (H0 : length (hourly_temp m0) = length (hourly_hum m0) /\
               last_hour m0 mod usec_per_hour = 0 /\
               replace_to_hour (start_time s) <= last_hour m0).
  { unfold Monitor.start in Hstart. destruct (makedirs s); [discriminate|].
    injection Hstart as <-. cbn. split; [reflexivity|].
    split; [apply replace_to_hour_aligned | lia]. }
  revert H0.
  apply (loop_closed
           (fun m' => length (hourly_temp m') = length (hourly_hum m') /\
                      last_hour m' mod usec_per_hour = 0 /\
                      replace_to_hour (start_time s) <= last_hour m')).
  constructor; try (intros; assumption).
  - intros m' t h (Hlen & Hal & Hlo). cbn. rewrite !length_app, Hlen. auto.
  - intros m' (Hlen & Hal & Hlo). cbn. auto.
  - intros m' ts (Hlen & Hal & Hlo) Hlt. cbn.
    split; [exact Hlen|]. split; [apply replace_to_hour_aligned | lia].
Qed.

Lemma main_keeps_bucket_well_formed_witness :
  let nine := 1735722000 * usec_per_second in
  let dev := mkSensor (fun name => String.eqb name "D4") None
                      (fun _ => mkAttempt (Ok (Some 20%Q)) (Ok (Some 55%Q))) in
  let at_ t := mkCycleEnv None t dev t t None None None in
  let s := mkStartEnv None CreateOk (nine + timedelta_minutes 58) in
  let envs := [at_ (nine + timedelta_minutes 58); at_ (nine + timedelta_minutes 63)] in
  exists r m,
    Monitor.main s (Document Monitor.defaults) None envs = Ok (r, m) /\
    length (hourly_temp m) = length (hourly_hum m) /\
    last_hour m mod usec_per_hour = 0 /\
    replace_to_hour (start_time s) <= last_hour m.
Proof.
  cbv zeta. eexists _, _.
  match goal with
  | |- ?main = _ /\ _ =>
    assert (Hrun : main = Ok (Ok tt, _)) by (vm_compute; reflexivity)
  end.
  split; [exact Hrun|].
  exact (main_keeps_bucket_well_formed _ _ _ _ _ _ Hrun).
Defined.

(** ** Further properties of one iteration and of [send_email] *)

Lemma load_settings_document w m (settings : gmap string pyval) :
  settings_file m = Document settings ->
  Monitor.load_settings w m = (Ok settings, m).
Proof.
  intros H. unfold Monitor.load_settings. now rewrite H.
Qed.

(** X13. The iteration that crosses the hour boundary with an acquired
    reading always closes the hour with a row: the reading is accumulated
    before the rollover check, so the bucket that is averaged is never
    empty, even when the hour had no reading before.  Exactly one line is
    appended, labelled with the previous hour, and the reading is spent on
    it: the bucket of the new hour starts empty. *)
Theorem boundary_reading_closes_the_hour env m (settings : gmap string pyval)
    min_t max_t min_h max_h port t h :
  settings_file m = Document settings ->
  py_float (dict_get_default settings "min_temp" (PFloat 18)) = Ok min_t ->
  py_float (dict_get_default settings "max_temp" (PFloat 26)) = Ok max_t ->
  py_float (dict_get_default settings "min_hum" (PFloat 50)) = Ok min_h ->
  py_float (dict_get_default settings "max_hum" (PFloat 70)) = Ok max_h ->
  py_int (dict_get_default settings "smtp_port" (PInt 465)) = Ok port ->
  dicts_ready m ->
  fst (CurrentData.get_current_data_default (Document settings) (sensor env)) = Ok (t, h) ->
  last_hour m < replace_to_hour (timestamp env) ->
  disk_append env = None ->
  fst (Monitor.cycle env m) = Ok tt /\
  (exists avg_temp avg_hum,
     data_file (snd (Monitor.cycle env m))
     = Some (file_text (data_file m) +:+
             csv_line [strftime_minutes (replace_to_hour (timestamp env) - timedelta_hours 1);
                       avg_temp; avg_hum])) /\
  hourly_temp (snd (Monitor.cycle env m)) = [] /\
  hourly_hum (snd (Monitor.cycle env m)) = [] /\
  last_hour (snd (Monitor.cycle env m)) = replace_to_hour (timestamp env).
Proof.
  intros Hfile Hmin_t Hmax_t Hmin_h Hmax_h Hport [Htemp Hhum] Hread Hdue Hdisk.
  assert (Hcycle : exists o1 d1 o2 d2,
    Monitor.cycle env m =
    Monitor.rollover (timestamp env) (disk_append env)
      (with_outbox o2 (with_alert_dicts d2 (with_outbox o1 (with_alert_dicts d1
         (with_hourly (hourly_temp m ++ [t]) (hourly_hum m ++ [h]) m)))))).
  { unfold Monitor.cycle. unfold bind at 1.
    rewrite (load_settings_document _ _ _ Hfile).
    unfold bind at 1, lift at 1. rewrite Hmin_t.
    unfold bind at 1, lift at 1. rewrite Hmax_t.
    unfold bind at 1, lift at 1. rewrite Hmin_h.
    unfold bind at 1, lift at 1. rewrite Hmax_h.
    unfold bind at 1, get at 1. rewrite Hfile, Hread.
    unfold bind at 1, modify at 1.
    set (m2 := with_hourly _ _ m).
    destruct (alert_block_returns "temp" "Temperature" "°C" (timestamp env) (now_temp env)
                t min_t max_t settings (smtp_temp env) m2 port Hport Htemp)
      as (o1 & d1 & Hblock1 & Hkeys1).
    unfold bind at 1. rewrite Hblock1.
    set (m3 := with_outbox o1 (with_alert_dicts d1 m2)).
    destruct (alert_block_returns "hum" "Humidity" "%RH" (timestamp env) (now_hum env)
                h min_h max_h settings (smtp_hum env) m3 port Hport (Hkeys1 _ Hhum))
      as (o2 & d2 & Hblock2 & _).
    unfold bind at 1. rewrite Hblock2.
    exists o1, d1, o2, d2. reflexivity. }
  destruct Hcycle as (o1 & d1 & o2 & d2 & ->).
  rewrite rollover_full; [| exact Hdue | cbn; now rewrite !nonempty_snoc].
  rewrite Hdisk. cbn. repeat split.
  eexists _, _. reflexivity.
Qed.

Lemma boundary_reading_closes_the_hour_witness :
  let ten := 1735725600 * usec_per_second in
  let dev := mkSensor (fun name => String.eqb name "D4") None
                      (fun _ => mkAttempt (Ok (Some 20%Q)) (Ok (Some 55%Q))) in
  let env := mkCycleEnv None (ten + 5 * usec_per_second) dev ten ten None None None in
  let m := {| settings_file := Document Monitor.defaults;
              data_file := Some (csv_line csv_header);
              outbox := []; hourly_temp := []; hourly_hum := [];
              last_hour := ten - usec_per_hour;
              alert_dicts := initial_alert_dicts; log_time := None |} in
  fst (Monitor.cycle env m) = Ok tt /\ hourly_temp (snd (Monitor.cycle env m)) = [].
Proof.
  cbv zeta.
  refine ((fun H => conj (proj1 H) (proj1 (proj2 (proj2 H))))
    (boundary_reading_closes_the_hour _ _ Monitor.defaults 18 22 40 70 465
       (fmul 20 CurrentData.TEMPERATURE_ADJUSTMENT) (fmul 55 CurrentData.HUMIDITY_ADJUSTMENT)
       _ _ _ _ _ _ _ _ _ _)); try reflexivity.
  split; eexists; reflexivity.
Defined.

Lemma send_email_outbox subject body settings smtp m :
  outbox (snd (Monitor.send_email subject body settings smtp m)) = outbox m \/
  exists mail,
    outbox (snd (Monitor.send_email subject body settings smtp m)) = outbox m ++ [mail] /\
    mail_subject mail = subject /\ mail_body mail = body /\
    alert_dicts (snd (Monitor.send_email subject body settings smtp m)) = alert_dicts m.
Proof.
  unfold Monitor.send_email, bind, lift, ret, modify.
  destruct (py_int _); [|now left].
  destruct (negb _); [now left|].
  destruct smtp; [now left|].
  destruct (or_empty (dict_get settings "email_user")); try (now left).
  destruct (or_empty (dict_get settings "email_to")); try (now left).
  right. eexists. cbn. repeat split.
Qed.

Lemma alert_block_outbox kind label unit_ ts now v lo hi settings smtp m :
  exists r m',
    Monitor.alert_block kind label unit_ ts now v lo hi settings smtp m = (r, m') /\
    (outbox m' = outbox m \/
     exists mail,
       outbox m' = outbox m ++ [mail] /\
       last_outside_state (alert_dicts m) !! kind = Some true /\
       ((v < lo)%Q /\ mail_subject mail = label +:+ " LOW Alert" \/
        (lo <= v)%Q /\ (hi < v)%Q /\ mail_subject mail = label +:+ " HIGH Alert")).
Proof.
  unfold Monitor.alert_block, bind at 1, Monitor.should_alert_m.
  pose proof (should_alert_true_inv kind v lo hi now (alert_dicts m)) as Hinv.
  destruct (should_alert kind v lo hi now (alert_dicts m)) as [[fire|e] d];
    [|eexists _, _; split; [reflexivity | now left]].
  destruct fire; [|eexists _, _; split; [reflexivity | now left]].
  destruct (Hinv eq_refl) as [_ Hflag].
  set (m1 := with_alert_dicts d m).
  destruct (Qltb v lo) eqn:Hlow.
  - unfold bind.
    destruct (send_email_outbox (label +:+ " LOW Alert")
                (format_timestamp ts +:+ newline +:+ label +:+ " " +:+ format_1f v
                   +:+ unit_ +:+ ", below " +:+ str_float lo +:+ unit_ +:+ ".")
                settings smtp m1) as [Hsame | (mail & Hout & Hsub & _)];
      destruct (Monitor.send_email _ _ settings smtp m1) as [[sent|e] m2];
      cbn [snd] in *; eexists _, _; (split; [reflexivity|]);
      try (now left);
      right; exists mail; (split; [exact Hout|]); (split; [exact Hflag|]);
      left; (split; [now apply Qltb_lt | exact Hsub]).
  - destruct (Qltb hi v) eqn:Hhigh; [|eexists _, _; split; [reflexivity | now left]].
    unfold bind.
    destruct (send_email_outbox (label +:+ " HIGH Alert")
                (format_timestamp ts +:+ newline +:+ label +:+ " " +:+ format_1f v
                   +:+ unit_ +:+ ", above " +:+ str_float hi +:+ unit_ +:+ ".")
                settings smtp m1) as [Hsame | (mail & Hout & Hsub & _)];
      destruct (Monitor.send_email _ _ settings smtp m1) as [[sent|e] m2];
      cbn [snd] in *; eexists _, _; (split; [reflexivity|]);
      try (now left);
      right; exists mail; (split; [exact Hout|]); (split; [exact Hflag|]);
      right; (split; [now apply Qltb_ge|]); (split; [now apply Qltb_lt | exact Hsub]).
Qed.

(** X14. An alert block hands at most one mail to the server, and only
    when the metric was already flagged outside before this evaluation;
    the subject says LOW when the value is below the minimum and HIGH when
    it is above the maximum (and not below the minimum). *)
Theorem alert_block_mails_by_direction kind label unit_ ts now v lo hi settings smtp m :
  outbox (snd (Monitor.alert_block kind label unit_ ts now v lo hi settings smtp m))
    = outbox m \/
  exists mail,
    outbox (snd (Monitor.alert_block kind label unit_ ts now v lo hi settings smtp m))
      = outbox m ++ [mail] /\
    last_outside_state (alert_dicts m) !! kind = Some true /\
    ((v < lo)%Q /\ mail_subject mail = label +:+ " LOW Alert" \/
     (lo <= v)%Q /\ (hi < v)%Q /\ mail_subject mail = label +:+ " HIGH Alert").
Proof.
  destruct (alert_block_outbox kind label unit_ ts now v lo hi settings smtp m)
    as (r & m' & -> & H).
  exact H.
Qed.




Lemma send_email_defaults subject body smtp m :
  Monitor.send_email subject body Monitor.defaults smtp m = (Ok false, m).
Proof. reflexivity. Qed.

Lemma alert_block_defaults kind label unit_ ts now v lo hi smtp m :
  exists r d,
    Monitor.alert_block kind label unit_ ts now v lo hi Monitor.defaults smtp m
      = (r, with_alert_dicts d m).
Proof.
  unfold Monitor.alert_block, bind at 1, Monitor.should_alert_m.
  destruct (should_alert kind v lo hi now (alert_dicts m)) as [[fire|e] d];
    [|eexists _, d; reflexivity].
  destruct fire; [|eexists _, d; reflexivity].
  destruct (Qltb v lo).
  - unfold bind. rewrite send_email_defaults. eexists _, d; reflexivity.
  - destruct (Qltb hi v); [|eexists _, d; reflexivity].
    unfold bind. rewrite send_email_defaults. eexists _, d; reflexivity.
Qed.

Lemma rollover_keeps_outbox ts disk m :
  outbox (snd (Monitor.rollover ts disk m)) = outbox m.
Proof.
  destruct (Z.le_gt_cases (replace_to_hour ts) (last_hour m)) as [Hle | Hlt].
  - now rewrite rollover_not_due.
  - destruct (Monitor.nonempty (hourly_temp m) && Monitor.nonempty (hourly_hum m)) eqn:Hb.
    + rewrite rollover_full by assumption.
      unfold Monitor.append_csv, ret, modify. destruct disk; reflexivity.
    + destruct (log_time m) as [label|] eqn:Hl.
      * now rewrite (rollover_empty_bound _ _ _ label).
      * now rewrite rollover_empty_unbound.
Qed.

(** Creating the defaults first and reading them gives the same iteration
    as finding them in place. *)
Lemma cycle_creates_defaults env m :
  settings_file m = Missing ->
  settings_write env = None ->
  Monitor.cycle env m
  = Monitor.cycle env (with_settings_file (Document Monitor.defaults) m).
Proof.
  intros Hmissing Hwrite. unfold Monitor.cycle. unfold bind at 1 3.
  unfold Monitor.load_settings. rewrite Hmissing, Hwrite. reflexivity.
Qed.

Lemma cycle_defaults_keeps_outbox env m :
  settings_file m = Document Monitor.defaults ->
  outbox (snd (Monitor.cycle env m)) = outbox m.
Proof.
  intros Hfile. unfold Monitor.cycle. unfold bind at 1.
  rewrite (load_settings_document _ _ _ Hfile).
  change (py_float (dict_get_default Monitor.defaults "min_temp" (PFloat 18))) with (Ok 18%Q).
  change (py_float (dict_get_default Monitor.defaults "max_temp" (PFloat 26))) with (Ok 22%Q).
  change (py_float (dict_get_default Monitor.defaults "min_hum" (PFloat 50))) with (Ok 40%Q).
  change (py_float (dict_get_default Monitor.defaults "max_hum" (PFloat 70))) with (Ok 70%Q).
  unfold bind at 1 2 3 4 5, lift, get.
  destruct (fst (CurrentData.get_current_data_default (settings_file m) (sensor env)))
    as [[temp hum]|e]; [|now rewrite rollover_keeps_outbox].
  unfold bind at 1, modify at 1.
  set (m2 := with_hourly _ _ m).
  destruct (alert_block_defaults "temp" "Temperature" "°C" (timestamp env) (now_temp env)
              temp 18 22 (smtp_temp env) m2) as (r1 & d1 & Hb1).
  unfold bind at 1. rewrite Hb1.
  destruct r1 as [[]|e1]; [|reflexivity].
  destruct (alert_block_defaults "hum" "Humidity" "%RH" (timestamp env) (now_hum env)
              hum 40 70 (smtp_hum env) (with_alert_dicts d1 m2)) as (r2 & d2 & Hb2).
  unfold bind at 1. rewrite Hb2.
  destruct r2 as [[]|e2]; [|reflexivity].
  now rewrite rollover_keeps_outbox.
Qed.

(** X16. On a fresh installation (settings.json missing and creatable) the
    first iteration writes the defaults of [load_settings], which hold no
    credentials, so it hands no mail to the server whatever the sensor
    reads and whatever the alert dicts hold. *)
Theorem first_run_sends_no_mail env m :
  settings_file m = Missing ->
  settings_write env = None ->
  settings_file (snd (Monitor.cycle env m)) = Document Monitor.defaults /\
  outbox (snd (Monitor.cycle env m)) = outbox m.
Proof.
  intros Hmissing Hwrite. rewrite (cycle_creates_defaults _ _ Hmissing Hwrite).
  split.
  - apply (cycle_closed (fun m' => settings_file m' = Document Monitor.defaults));
      [|reflexivity].
    constructor; try (intros; assumption). intros m' H1 H2. congruence.
  - now rewrite cycle_defaults_keeps_outbox.
Qed.

Lemma first_run_sends_no_mail_witness :
  let ten := 1735725600 * usec_per_second in
  let dev := mkSensor (fun name => String.eqb name "D4") None
                      (fun _ => mkAttempt (Ok (Some 40%Q)) (Ok (Some 55%Q))) in
  let env := mkCycleEnv None ten dev ten ten None None None in
  let m := {| settings_file := Missing;
              data_file := Some (csv_line csv_header);
              outbox := []; hourly_temp := []; hourly_hum := [];
              last_hour := ten;
              alert_dicts := set_outside "temp" true initial_alert_dicts;
              log_time := None |} in
  settings_file (snd (Monitor.cycle env m)) = Document Monitor.defaults /\
  outbox (snd (Monitor.cycle env m)) = [].
Proof.
  cbv zeta. apply first_run_sends_no_mail; reflexivity.
Defined.

(** X17. Reading the settings twice gives the same settings: after a call
    of [load_settings] that returns, a second call returns the same dict
    and leaves the file as the first call left it, whether or not the
    first call had to create it. *)
Theorem load_settings_is_stable w w' m (settings : gmap string pyval) :
  fst (Monitor.load_settings w m) = Ok settings ->
  Monitor.load_settings w' (snd (Monitor.load_settings w m))
  = (Ok settings, snd (Monitor.load_settings w m)).
Proof.
  unfold Monitor.load_settings.
  destruct (settings_file m) as [|e|d] eqn:Hf.
  - destruct w; [discriminate|]. cbn. intros H. injection H as <-. reflexivity.
  - discriminate.
  - cbn. intros H. injection H as <-. now rewrite Hf.
Qed.

Lemma load_settings_is_stable_witness :
  let m := {| settings_file := Missing;
              data_file := None; outbox := [];
              hourly_temp := []; hourly_hum := []; last_hour := 0;
              alert_dicts := initial_alert_dicts; log_time := None |} in
  Monitor.load_settings (Some OSError) (snd (Monitor.load_settings None m))
  = (Ok Monitor.defaults, snd (Monitor.load_settings None m)).
Proof.
  cbv zeta. apply load_settings_is_stable. reflexivity.
Defined.

(** X18. Whenever a module body runs through, the CPU temperature
    percentage it computed lies between 0 and 100. *)
Theorem temp_percent_is_clamped h g :
  CurrentData.module_body h = Ok g \/ Monitor.module_body h = Ok g ->
  (0 <= CurrentData.temp_percent g)%Q /\ (CurrentData.temp_percent g <= 100)%Q.
Proof.
  assert (Hclamp : forall x, (0 <= Qmax 0 (Qmin 100 x))%Q /\ (Qmax 0 (Qmin 100 x) <= 100)%Q).
  { intros x. split; [apply Q.le_max_l|].
    apply Q.max_lub; [discriminate | apply Q.le_min_l]. }
  intros [H | H].
  - unfold CurrentData.module_body in H.
    destruct (CurrentData.get_cpu_temp (thermal h)) as [ct|]; [|discriminate].
    destruct (CurrentData.minus_MIN_T ct) as [above|]; [|discriminate].
    destruct (virtual_memory h) as [mem|]; [|discriminate].
    injection H as <-. apply Hclamp.
  - unfold Monitor.module_body in H.
    destruct (CurrentData.module_body h); [|discriminate].
    destruct (Monitor.get_cpu_temp (thermal h)) as [ct|]; [|discriminate].
    destruct (Monitor.minus_MIN_T ct) as [above|]; [|discriminate].
    destruct (virtual_memory h) as [mem|]; [|discriminate].
    injection H as <-. apply Hclamp.
Qed.

Lemma temp_percent_is_clamped_witness :
  exists g,
    CurrentData.module_body (mkHost (ThermalContent "91000") (Ok (mkMemInfo 40 1 2))) = Ok g /\
    (0 <= CurrentData.temp_percent g)%Q /\ (CurrentData.temp_percent g <= 100)%Q.
Proof.
  eexists. split; [reflexivity|].
  apply (temp_percent_is_clamped (mkHost (ThermalContent "91000") (Ok (mkMemInfo 40 1 2)))).
  left. reflexivity.
Defined.

(** ** dashboard.py: the settings endpoint *)

Lemma between_spec lo x hi :
  Dashboard.between lo x hi = true <-> (lo <= x)%Q /\ (x <= hi)%Q.
Proof.
  unfold Dashboard.between. rewrite andb_true_iff, !Qle_bool_iff. reflexivity.
Qed.

Lemma Qle_bool_false x y : Qle_bool x y = false <-> (y < x)%Q.
Proof.
  rewrite <- not_true_iff_false, Qle_bool_iff.
  split; [apply Qnot_le_lt | apply Qlt_not_le].
Qed.

Lemma error_if_nil failed message :
  Dashboard.error_if failed message = [] <-> failed = false.
Proof. destruct failed; cbn; split; congruence. Qed.

(** No message is produced exactly when the four values are in range and
    each minimum is below its maximum. *)
Lemma validation_errors_nil a b c d :
  Dashboard.validation_errors a b c d = [] <->
  ((-40 <= a)%Q /\ (a < b)%Q /\ (b <= 80)%Q) /\
  ((0 <= c)%Q /\ (c < d)%Q /\ (d <= 100)%Q).
Proof.
  unfold Dashboard.validation_errors.
  rewrite !app_nil, !error_if_nil, !negb_false_iff, !between_spec, !Qle_bool_false.
  split.
  - intros ([Ha1 Ha2] & [Hb1 Hb2] & [Hc1 Hc2] & [Hd1 Hd2] & Hab & Hcd). tauto.
  - intros ((Ha & Hab & Hb) & (Hc & Hcd & Hd)).
    repeat split; try assumption.
    + apply Qlt_le_weak in Hab. eapply Qle_trans; eassumption.
    + apply Qlt_le_weak in Hab. eapply Qle_trans; eassumption.
    + apply Qlt_le_weak in Hcd. eapply Qle_trans; eassumption.
    + apply Qlt_le_weak in Hcd. eapply Qle_trans; eassumption.
Qed.

Lemma update_with_setpoints a b c d (settings current : gmap string pyval) :
  Dashboard.update_setpoints (Dashboard.with_setpoints a b c d settings) current
  = <["max_hum" := PFloat d]> (<["min_hum" := PFloat c]> (
    <["max_temp" := PFloat b]> (<["min_temp" := PFloat a]> current))).
Proof.
  unfold Dashboard.update_setpoints, Dashboard.setpoint_keys, Dashboard.copy_key,
    Dashboard.with_setpoints.
  cbn [fold_left]. now simplify_map_eq.
Qed.

(** The shape of every answer of the handler that is not an exception. *)
Lemma api_post_settings_cases data cr wr f r f' :
  Dashboard.api_post_settings data cr wr f = (Ok r, f') ->
  (exists errors, r = Rejected errors /\ errors <> [] /\ f' = f) \/
  (exists a b c d settings f1,
     r = Accepted /\
     Dashboard.parse_setpoints data = Ok (a, b, c, d) /\
     Dashboard.validation_errors a b c d = [] /\
     Dashboard.load_settings cr f = (Ok settings, f1) /\
     wr = None /\
     f' = Document (<["max_hum" := PFloat d]> (<["min_hum" := PFloat c]> (
                    <["max_temp" := PFloat b]> (<["min_temp" := PFloat a]> settings))))).
Proof.
  unfold Dashboard.api_post_settings.
  destruct (Dashboard.parse_setpoints data) as [[[[a b] c] d]|e].
  2:{ intros H. injection H as <- <-. left. eexists.
      split; [reflexivity|]. split; [discriminate | reflexivity]. }
  destruct (Dashboard.validation_errors a b c d) as [|msg rest] eqn:Hval.
  2:{ intros H. injection H as <- <-. left. eexists.
      split; [reflexivity|]. split; [discriminate | reflexivity]. }
  destruct (Dashboard.load_settings cr f) as [[settings|e] f1] eqn:Hload; [|discriminate].
  assert (Hf1 : f1 = Document settings).
  { revert Hload. unfold Dashboard.load_settings.
    destruct f as [|e|d0]; [destruct cr| |]; intros H; inversion H; reflexivity. }
  subst f1. unfold Dashboard.write_settings.
  destruct wr as [e|]; [discriminate|].
  intros H. injection H as <- <-. right.
  exists a, b, c, d, settings, (Document settings).
  rewrite update_with_setpoints. repeat split; try reflexivity; assumption.
Qed.

(** X19. A POST is accepted only if its four values convert to numbers
    with -40 <= min_temp < max_temp <= 80 and 0 <= min_hum < max_hum <= 100;
    the file then holds exactly these four numbers under their keys. *)
Theorem accepted_post_is_valid data cr wr f f' :
  Dashboard.api_post_settings data cr wr f = (Ok Accepted, f') ->
  exists a b c d (stored : gmap string pyval),
    Dashboard.parse_setpoints data = Ok (a, b, c, d) /\
    ((-40 <= a)%Q /\ (a < b)%Q /\ (b <= 80)%Q) /\
    ((0 <= c)%Q /\ (c < d)%Q /\ (d <= 100)%Q) /\
    f' = Document stored /\
    stored !! "min_temp" = Some (PFloat a) /\ stored !! "max_temp" = Some (PFloat b) /\
    stored !! "min_hum" = Some (PFloat c) /\ stored !! "max_hum" = Some (PFloat d).
Proof.
  intros H. apply api_post_settings_cases in H
    as [(errors & Hr & _) | (a & b & c & d & settings & f1 & _ & Hparse & Hval & _ & _ & ->)];
    [discriminate Hr|].
  apply validation_errors_nil in Hval as [Htemp Hhum].
  exists a, b, c, d. eexists. split; [exact Hparse|].
  split; [exact Htemp|]. split; [exact Hhum|]. split; [reflexivity|].
  repeat split; now simplify_map_eq.
Qed.

Lemma accepted_post_is_valid_witness :
  exists a b c d (stored : gmap string pyval),
    Dashboard.parse_setpoints
      (BodyObject (<["min_temp" := PStr "19.5"]> (<["max_temp" := PInt 24]> (
                   <["min_hum" := PFloat 35]> (<["max_hum" := PFloat 60]> ∅)))))
      = Ok (a, b, c, d) /\
    ((-40 <= a)%Q /\ (a < b)%Q /\ (b <= 80)%Q) /\
    ((0 <= c)%Q /\ (c < d)%Q /\ (d <= 100)%Q) /\
    snd (Dashboard.api_post_settings
           (BodyObject (<["min_temp" := PStr "19.5"]> (<["max_temp" := PInt 24]> (
                        <["min_hum" := PFloat 35]> (<["max_hum" := PFloat 60]> ∅)))))
           None None (Document Monitor.defaults))
      = Document stored /\
    stored !! "min_temp" = Some (PFloat a) /\ stored !! "max_temp" = Some (PFloat b) /\
    stored !! "min_hum" = Some (PFloat c) /\ stored !! "max_hum" = Some (PFloat d).
Proof.
  apply (accepted_post_is_valid
           (BodyObject (<["min_temp" := PStr "19.5"]> (<["max_temp" := PInt 24]> (
                        <["min_hum" := PFloat 35]> (<["max_hum" := PFloat 60]> ∅)))))
           None None (Document Monitor.defaults)).
  reflexivity.
Defined.

(** X20. A rejected POST (status 400) carries at least one message and
    leaves settings.json exactly as it was; it does not even create a
    missing file. *)
Theorem rejected_post_changes_nothing data cr wr f errors f' :
  Dashboard.api_post_settings data cr wr f = (Ok (Rejected errors), f') ->
  f' = f /\ errors <> [].
Proof.
  intros H. apply api_post_settings_cases in H
    as [(errors' & Hr & Hne & ->) | (a & b & c & d & settings & f1 & Hr & _)];
    [|discriminate Hr].
  injection Hr as ->. split; [reflexivity | exact Hne].
Qed.

Lemma rejected_post_changes_nothing_witness :
  snd (Dashboard.api_post_settings
         (BodyObject (<["min_temp" := PFloat 22]> (<["max_temp" := PFloat 18]> (
                      <["min_hum" := PFloat 35]> (<["max_hum" := PFloat 60]> ∅)))))
         None None Missing) = Missing /\
  ["Minimum Temperature must be less than Maximum Temperature."] <> [].
Proof.
  apply (rejected_post_changes_nothing
           (BodyObject (<["min_temp" := PFloat 22]> (<["max_temp" := PFloat 18]> (
                        <["min_hum" := PFloat 35]> (<["max_hum" := PFloat 60]> ∅)))))
           None None Missing).
  reflexivity.
Defined.

(** X21. An accepted POST changes the four setpoints only: every other key
    of an existing settings.json keeps its value. *)
Theorem accepted_post_keeps_other_keys data cr wr (before after : gmap string pyval) key :
  Dashboard.api_post_settings data cr wr (Document before) = (Ok Accepted, Document after) ->
  key ∉ Dashboard.setpoint_keys ->
  after !! key = before !! key.
Proof.
  intros H Hkey. apply api_post_settings_cases in H
    as [(errors & Hr & _) | (a & b & c & d & settings & f1 & _ & _ & _ & Hload & _ & Hf)];
    [discriminate Hr|].
  cbn in Hload. injection Hload as <- <-. injection Hf as ->.
  unfold Dashboard.setpoint_keys in Hkey.
  rewrite !lookup_insert_ne; [reflexivity|..];
    intros Heq; apply Hkey; rewrite <- Heq; apply list_elem_of_In; cbn; auto 10.
Qed.

Lemma accepted_post_keeps_other_keys_witness :
  let data := BodyObject (<["min_temp" := PFloat 19]> (<["max_temp" := PFloat 24]> (
                          <["min_hum" := PFloat 35]> (<["max_hum" := PFloat 60]> ∅)))) in
  let after := <["max_hum" := PFloat 60]> (<["min_hum" := PFloat 35]> (
               <["max_temp" := PFloat 24]> (<["min_temp" := PFloat 19]> Monitor.defaults))) in
  after !! "data_pin" = Monitor.defaults !! "data_pin".
Proof.
  cbv zeta.
  apply (accepted_post_keeps_other_keys
           (BodyObject (<["min_temp" := PFloat 19]> (<["max_temp" := PFloat 24]> (
                        <["min_hum" := PFloat 35]> (<["max_hum" := PFloat 60]> ∅)))))
           None None).
  - reflexivity.
  - unfold Dashboard.setpoint_keys. rewrite list_elem_of_In. cbn.
    intros [H | [H | [H | [H | []]]]]; discriminate H.
Defined.



(** X23. The handler cannot repair a settings.json that does not parse:
    a valid POST reads the file with [load_settings] first, so the
    handler raises the read error and the file stays as it is; the
    [except json.JSONDecodeError] of [write_settings] is never reached
    from here. *)
Theorem post_cannot_repair_unreadable_file data cr wr e a b c d :
  Dashboard.parse_setpoints data = Ok (a, b, c, d) ->
  Dashboard.validation_errors a b c d = [] ->
  Dashboard.api_post_settings data cr wr (Unreadable e) = (Raise e, Unreadable e).
Proof.
  intros Hparse Hval. unfold Dashboard.api_post_settings.
  rewrite Hparse, Hval. reflexivity.
Qed.

Lemma post_cannot_repair_unreadable_file_witness :
  Dashboard.api_post_settings
    (BodyObject (<["min_temp" := PFloat 19]> (<["max_temp" := PFloat 24]> (
                 <["min_hum" := PFloat 35]> (<["max_hum" := PFloat 60]> ∅)))))
    None None (Unreadable JSONDecodeError)
  = (Raise JSONDecodeError, Unreadable JSONDecodeError).
Proof.
  apply (post_cannot_repair_unreadable_file _ None None JSONDecodeError 19 24 35 60);
    reflexivity.
Defined.

(** ** dashboard.py: reading the CSV back *)

Lemma py_float_str_error s e : py_float (PStr s) = Raise e -> e = ValueError.
Proof.
  cbn. destruct (float_of_string s); [discriminate|]. now intros [= <-].
Qed.

(** A row at least as long as the header leaves no field at [None]. *)
Lemma zip_row_no_none fieldnames : forall row (d : gmap string (option string)) key,
  (length fieldnames <= length row)%nat ->
  Dashboard.zip_row fieldnames row d !! key = Some None -> d !! key = Some None.
Proof.
  induction fieldnames as [|name names IH]; intros row d key Hlen H; [exact H|].
  destruct row as [|value values]; [cbn in Hlen; lia|].
  cbn in H, Hlen. apply IH in H; [|lia].
  destruct (decide (name = key)) as [->|Hne].
  - rewrite lookup_insert_eq in H. discriminate.
  - now rewrite lookup_insert_ne in H.
Qed.

Lemma row_float_error d key e :
  Dashboard.row_float d key = Raise e ->
  e = KeyError \/ e = ValueError \/ (e = TypeError /\ d !! key = Some None).
Proof.
  unfold Dashboard.row_float.
  destruct (d !! key) as [[s|]|].
  - intros H. apply py_float_str_error in H. auto.
  - intros [= <-]. auto.
  - intros [= <-]. auto.
Qed.

Lemma row_point_error d e :
  Dashboard.row_point d = Raise e ->
  e = KeyError \/ e = ValueError \/
  (e = TypeError /\ exists key, d !! key = Some None).
Proof.
  unfold Dashboard.row_point.
  destruct (d !! "timestamp") as [ts|]; [|intros [= <-]; auto].
  destruct (Dashboard.row_float d "temperature") as [t|e1] eqn:Ht.
  - destruct (Dashboard.row_float d "humidity") as [h|e2] eqn:Hh; [discriminate|].
    intros [= <-]. apply row_float_error in Hh as [-> | [-> | [-> Hnone]]]; eauto.
  - intros [= <-]. apply row_float_error in Ht as [-> | [-> | [-> Hnone]]]; eauto.
Qed.

Lemma read_points_error fieldnames rows e :
  Dashboard.read_points fieldnames rows = Raise e ->
  e = TypeError /\ Exists (fun row => ~ fills_header fieldnames row) rows.
Proof.
  induction rows as [|row rest IH]; [discriminate|].
  destruct row as [|field fields].
  - cbn. intros H. destruct (IH H) as [-> Hex]. split; [reflexivity|].
    now apply Exists_cons_tl.
  - cbn [Dashboard.read_points].
    destruct (Dashboard.row_point _) as [p|e1] eqn:Hp.
    + destruct (Dashboard.read_points fieldnames rest) as [ps|e2]; [discriminate|].
      intros [= <-]. destruct (IH eq_refl) as [-> Hex]. split; [reflexivity|].
      now apply Exists_cons_tl.
    + apply row_point_error in Hp as [-> | [-> | [-> [key Hnone]]]].
      * intros H. destruct (IH H) as [-> Hex]. split; [reflexivity|].
        now apply Exists_cons_tl.
      * intros H. destruct (IH H) as [-> Hex]. split; [reflexivity|].
        now apply Exists_cons_tl.
      * intros [= <-]. split; [reflexivity|]. apply Exists_cons_hd.
        intros [Hnil | Hlen]; [discriminate Hnil|].
        apply zip_row_no_none in Hnone; [|exact Hlen].
        rewrite lookup_empty in Hnone. discriminate.
Qed.

(** X24. [/api/data] lets an exception out of its reading of the CSV in
    three cases only: [open] raised it; the reader raised it while being
    stepped; or it is a [TypeError] and some row that was read has fewer
    fields than the header (the missing fields are [None], which [float()]
    rejects and the [except] clause does not catch).  Rows that merely hold
    unreadable numbers or lack a column are skipped. *)
Theorem api_data_fails_only_on_short_rows src e :
  Dashboard.api_data_from src = Raise e ->
  src = Dashboard.CsvUnopenable e \/
  (exists rows, src = Dashboard.CsvRows rows (Some e)) \/
  (e = TypeError /\
   exists fieldnames rest failure,
     src = Dashboard.CsvRows (fieldnames :: rest) failure /\
     Exists (fun row => ~ fills_header fieldnames row) rest).
Proof.
  destruct src as [|e0|rows failure]; cbn [Dashboard.api_data_from].
  - discriminate.
  - intros [= ->]. now left.
  - destruct (Dashboard.api_data (Some rows)) as [data|e1] eqn:Hrows.
    + destruct failure as [e1|]; [|discriminate].
      intros [= ->]. right; left. now exists rows.
    + intros [= ->]. right; right.
      unfold Dashboard.api_data in Hrows.
      destruct rows as [|fieldnames rest]; [discriminate|].
      apply read_points_error in Hrows as [-> Hex].
      split; [reflexivity|]. now exists fieldnames, rest, failure.
Qed.

Lemma api_data_fails_only_on_short_rows_witness :
  let src := Dashboard.CsvRows [csv_header; ["2025-01-01 09:00"; "22.0"]] None in
  src = Dashboard.CsvUnopenable TypeError \/
  (exists rows, src = Dashboard.CsvRows rows (Some TypeError)) \/
  (TypeError = TypeError /\
   exists fieldnames rest failure,
     src = Dashboard.CsvRows (fieldnames :: rest) failure /\
     Exists (fun row => ~ fills_header fieldnames row) rest).
Proof.
  apply (api_data_fails_only_on_short_rows
           (Dashboard.CsvRows [csv_header; ["2025-01-01 09:00"; "22.0"]] None) TypeError).
  reflexivity.
Defined.

(** ** Writing a number with one decimal and reading it back *)

Lemma read_digits_numeral d : forall rest acc len,
  exists len',
    read_digits (NilEmpty.string_of_uint d +:+ rest) acc len
    = read_digits rest (horner d acc) len'.
Proof.
  induction d; intros rest acc len; cbn [NilEmpty.string_of_uint horner];
    try (rewrite string_app_cons; cbn [read_digits];
         match goal with
         | |- context [digit_value ?c] =>
           change (digit_value c) with (Some (Z.of_nat (nat_of_ascii c) - 48))
         end;
         cbn [nat_of_ascii]; apply IHd).
  exists len. reflexivity.
Qed.

Lemma horner_of_uint_acc d : forall acc,
  Z.pos (Pos.of_uint_acc d acc) = horner d (Z.pos acc).
Proof.
  induction d; intros acc; cbn [Pos.of_uint_acc horner]; [reflexivity|..];
    rewrite IHd; f_equal; lia.
Qed.

Lemma horner_of_uint d : Z.of_N (Pos.of_uint d) = horner d 0.
Proof.
  induction d; cbn [Pos.of_uint horner]; [reflexivity | exact IHd |..];
    cbn [Z.of_N]; rewrite horner_of_uint_acc; reflexivity.
Qed.

Lemma digits_of_Z_pos p :
  digits_of_Z (Z.pos p) = NilEmpty.string_of_uint (Pos.to_uint p).
Proof.
  unfold digits_of_Z. cbn [Z.to_int NilZero.string_of_int].
  unfold NilZero.string_of_uint.
  pose proof (DecimalPos.Unsigned.to_uint_nonnil p) as Hnn.
  destruct (Pos.to_uint p); [contradiction|..]; reflexivity.
Qed.

(** Reading the decimal numeral of a natural number gives the number. *)
Lemma read_digits_of_Z n rest len :
  0 <= n ->
  exists len', read_digits (digits_of_Z n +:+ rest) 0 len = read_digits rest n len'.
Proof.
  intros Hn. destruct n as [|p|p]; [|clear Hn|lia].
  - exists (S len). reflexivity.
  - rewrite digits_of_Z_pos.
    destruct (read_digits_numeral (Pos.to_uint p) rest 0 len) as [len' ->].
    exists len'. f_equal.
    rewrite <- horner_of_uint, DecimalPos.Unsigned.of_to. reflexivity.
Qed.

Lemma digits_of_Z_starts_with_digit n rest :
  0 <= n -> starts_with_digit (digits_of_Z n +:+ rest).
Proof.
  intros Hn. destruct n as [|p|p]; [|clear Hn|lia].
  - exists "0"%char, rest, 0. split; reflexivity.
  - rewrite digits_of_Z_pos.
    pose proof (DecimalPos.Unsigned.to_uint_nonnil p) as Hnn.
    destruct (Pos.to_uint p) as [|d|d|d|d|d|d|d|d|d|d]; [contradiction|..];
      cbn [NilEmpty.string_of_uint]; rewrite string_app_cons;
      eexists _, _, _; split; reflexivity.
Qed.

Lemma digit_is_plain c v :
  digit_value c = Some v ->
  is_blank c = false /\ (forall s, read_sign (String c s) = (false, String c s)).
Proof.
  destruct c as [[] [] [] [] [] [] [] []]; cbv; try discriminate; intros _;
    split; reflexivity.
Qed.

Lemma digits_of_digit b :
  0 <= b < 10 -> exists c v, digits_of_Z b = String c "" /\ digit_value c = Some v /\ v = b.
Proof.
  intros Hb.
  assert (Hcases : b = 0 \/ b = 1 \/ b = 2 \/ b = 3 \/ b = 4 \/
                   b = 5 \/ b = 6 \/ b = 7 \/ b = 8 \/ b = 9) by lia.
  repeat (destruct Hcases as [-> | Hcases]; [eexists _, _; repeat split|]).
  subst. eexists _, _; repeat split.
Qed.

Lemma rev_string_rev_string s : forall acc acc',
  rev_string (rev_string s acc) acc' = rev_string acc (s +:+ acc').
Proof.
  induction s as [|c s IH]; intros acc acc'; [reflexivity|].
  cbn [rev_string]. rewrite IH. reflexivity.
Qed.

Lemma rev_string_app a : forall b acc,
  rev_string (a +:+ b) acc = rev_string b (rev_string a acc).
Proof.
  induction a as [|c a IH]; intros b acc; [reflexivity|].
  rewrite string_app_cons. cbn [rev_string]. apply IH.
Qed.

(** [strip] leaves a string alone when it neither begins nor ends with a
    blank. *)
Lemma strip_plain body c :
  (exists c0 rest, body +:+ String c "" = String c0 rest /\ is_blank c0 = false) ->
  is_blank c = false ->
  strip (body +:+ String c "") = body +:+ String c "".
Proof.
  intros (c0 & rest & Hhead & Hc0) Hc. unfold strip.
  rewrite Hhead. cbn [lstrip]. rewrite Hc0. rewrite <- Hhead.
  rewrite rev_string_app. cbn [rev_string lstrip]. rewrite Hc.
  change (String c (rev_string body "")) with (rev_string (String c "") (rev_string body "")).
  rewrite <- rev_string_app, rev_string_rev_string.
  cbn [rev_string]. apply string_app_nil_r.
Qed.

(** The digits of a rendering: integer part, point, one digit. *)
Lemma float_of_unsigned a b :
  0 <= a -> 0 <= b < 10 ->
  float_of_string (digits_of_Z a +:+ "." +:+ digits_of_Z b)
  = Some (Qred (inject_Z a + Qmake b 10)) /\
  float_of_string (" " +:+ digits_of_Z a +:+ "." +:+ digits_of_Z b)
  = Some (Qred (inject_Z a + Qmake b 10)) /\
  float_of_string ("-" +:+ digits_of_Z a +:+ "." +:+ digits_of_Z b)
  = Some (Qopp (Qred (inject_Z a + Qmake b 10))).
Proof.
  intros Ha Hb.
  destruct (digits_of_digit b Hb) as (c & v & Hc & Hcv & ->).
  destruct (digit_is_plain _ _ Hcv) as [Hcblank _].
  destruct (digits_of_Z_starts_with_digit a ("." +:+ digits_of_Z b) Ha)
    as (c0 & rest0 & v0 & Hhead & Hc0v).
  destruct (digit_is_plain _ _ Hc0v) as [Hc0blank Hc0sign].
  destruct (read_digits_of_Z a ("." +:+ digits_of_Z b) 0 Ha) as [len Hread].
  assert (Hstrip : strip (digits_of_Z a +:+ "." +:+ digits_of_Z b)
                   = digits_of_Z a +:+ "." +:+ digits_of_Z b).
  { rewrite Hc.
    replace (digits_of_Z a +:+ "." +:+ String c "")
      with ((digits_of_Z a +:+ ".") +:+ String c "") by apply string_app_assoc.
    apply strip_plain; [|exact Hcblank].
    exists c0, rest0. split; [|exact Hc0blank].
    rewrite string_app_assoc. rewrite <- Hc. exact Hhead. }
  assert (Hcore : forall neg : bool,
    (let '(ip, ilen, rest) := read_digits (digits_of_Z a +:+ "." +:+ digits_of_Z b) 0 0 in
     let signed (q : Q) := if neg then Qopp q else q in
     match rest with
     | EmptyString => if Nat.eqb ilen 0 then None else Some (signed (inject_Z ip))
     | String "." frac =>
       match read_digits frac 0 0 with
       | (fp, flen, EmptyString) =>
         if Nat.eqb (ilen + flen) 0 then None
         else Some (signed (Qred (inject_Z ip + Qmake fp (Pos.of_nat (10 ^ flen)))))
       | _ => None
       end
     | _ => None
     end) = Some (if neg then Qopp (Qred (inject_Z a + Qmake b 10))
                  else Qred (inject_Z a + Qmake b 10))).
  { intros neg. rewrite Hread. rewrite Hc.
    change ("." +:+ String c "") with (String "." (String c "")).
    cbn [read_digits]. change (digit_value ".") with (@None Z). cbv beta iota.
    cbn [read_digits]. rewrite Hcv. cbn [read_digits].
    replace (0 * 10 + b) with b by lia.
    rewrite Nat.add_1_r. cbn [Nat.eqb]. reflexivity. }
  split; [|split].
  - unfold float_of_string. rewrite Hstrip, Hhead, Hc0sign, <- Hhead.
    exact (Hcore false).
  - unfold float_of_string.
    assert (Hs : strip (" " +:+ digits_of_Z a +:+ "." +:+ digits_of_Z b)
                 = strip (digits_of_Z a +:+ "." +:+ digits_of_Z b)) by reflexivity.
    rewrite Hs, Hstrip, Hhead, Hc0sign, <- Hhead.
    exact (Hcore false).
  - unfold float_of_string.
    assert (Hs : strip ("-" +:+ digits_of_Z a +:+ "." +:+ digits_of_Z b)
                 = "-" +:+ digits_of_Z a +:+ "." +:+ digits_of_Z b).
    { rewrite Hc.
      replace ("-" +:+ digits_of_Z a +:+ "." +:+ String c "")
        with (("-" +:+ digits_of_Z a +:+ ".") +:+ String c "").
      - apply strip_plain; [|exact Hcblank]. eexists _, _. split; reflexivity.
      - rewrite !string_app_assoc. reflexivity. }
    rewrite Hs. change (read_sign ("-" +:+ ?s)) with (true, s).
    exact (Hcore true).
Qed.

Lemma round_tenths_close q :
  let k := round_tenths q in
  let d := Z.pos (Qden q) in
  let a := Z.abs (Qnum q) * 10 in
  0 <= k /\ 2 * (k * d - a) <= d /\ 2 * (a - k * d) <= d.
Proof.
  cbv zeta. unfold round_tenths.
  set (a := Z.abs (Qnum q) * 10). set (d := Z.pos (Qden q)).
  assert (Hd : 0 < d) by (subst d; lia).
  assert (Ha : 0 <= a) by (subst a; lia).
  pose proof (Z.div_mod a d ltac:(lia)) as Hdiv.
  pose proof (Z.mod_pos_bound a d Hd) as Hmod.
  pose proof (Z.div_pos a d Ha Hd) as Hq.
  destruct (2 * (a mod d) <? d) eqn:H1; [apply Z.ltb_lt in H1; nia|].
  apply Z.ltb_ge in H1.
  destruct (d <? 2 * (a mod d)) eqn:H2; [apply Z.ltb_lt in H2; nia|].
  apply Z.ltb_ge in H2.
  destruct (Z.even (a / d)); nia.
Qed.

(** [float()] reads both renderings of a value back as [one_decimal]. *)
Lemma float_of_rendering q :
  float_of_string (format_1f q) = Some (one_decimal q) /\
  float_of_string (format_space_1f q) = Some (one_decimal q).
Proof.
  destruct (round_tenths_close q) as (Hk & _ & _).
  assert (Ha : 0 <= round_tenths q / 10) by (apply Z.div_pos; lia).
  assert (Hb : 0 <= round_tenths q mod 10 < 10) by (apply Z.mod_pos_bound; lia).
  destruct (float_of_unsigned _ _ Ha Hb) as (Hplain & Hblank & Hminus).
  unfold format_1f, format_space_1f, unsigned_1f, one_decimal. cbv zeta.
  destruct (is_negative q).
  - split; exact Hminus.
  - split; [exact Hplain | exact Hblank].
Qed.

(** X25. The text that the monitor writes for a mean (with or without the
    blank of the humidity column) is a sign, a whole part, a point and one
    digit, and the number it spells is at most 0.05 away from the mean in
    absolute value: an hourly row shows its means to the nearest tenth. *)
Theorem written_mean_is_nearest_tenth q :
  exists whole tenth : Z,
    0 <= whole /\ 0 <= tenth < 10 /\
    format_1f q
    = (if is_negative q then "-" else "") +:+ digits_of_Z whole +:+ "." +:+ digits_of_Z tenth /\
    format_space_1f q
    = (if is_negative q then "-" else " ") +:+ digits_of_Z whole +:+ "." +:+ digits_of_Z tenth /\
    (Qabs.Qabs (Qabs.Qabs q - (inject_Z whole + Qmake tenth 10)) <= 1 # 20)%Q.
Proof.
  destruct (round_tenths_close q) as (Hk & Hup & Hdown).
  exists (round_tenths q / 10), (round_tenths q mod 10).
  assert (Ha : 0 <= round_tenths q / 10) by (apply Z.div_pos; lia).
  assert (Hb : 0 <= round_tenths q mod 10 < 10) by (apply Z.mod_pos_bound; lia).
  pose proof (Z.div_mod (round_tenths q) 10 ltac:(lia)) as Hsplit.
  repeat split; try lia.
  apply Qabs.Qabs_Qle_condition.
  destruct q as [n d]. cbn [Qnum Qden] in *.
  set (k := round_tenths (n # d)) in *.
  unfold Qabs.Qabs, Qle, Qminus, Qplus, Qopp, inject_Z; cbn [Qnum Qden].
  split; nia.
Qed.

Lemma zip_header_row label a b :
  Dashboard.row_point (Dashboard.zip_row csv_header [label; a; b] ∅)
  = match py_float (PStr a) with
    | Ok temperature =>
      match py_float (PStr b) with
      | Ok humidity => Ok (mkDataPoint (Some label) temperature humidity)
      | Raise e => Raise e
      end
    | Raise e => Raise e
    end.
Proof.
  unfold Dashboard.row_point, Dashboard.row_float, csv_header.
  cbn [Dashboard.zip_row]. now simplify_map_eq.
Qed.

Lemma read_points_row fieldnames field fields rest p :
  Dashboard.row_point (Dashboard.zip_row fieldnames (field :: fields) ∅) = Ok p ->
  Dashboard.read_points fieldnames ((field :: fields) :: rest)
  = match Dashboard.read_points fieldnames rest with
    | Ok ps => Ok (p :: ps)
    | Raise e => Raise e
    end.
Proof.
  intros H. cbn [Dashboard.read_points]. rewrite H. reflexivity.
Qed.

(** X26. The dashboard reads back every row the monitor has written: for
    a CSV made of the header and hourly rows, [/api/data] returns one point
    per row, in order, with the row's label and its two means rounded to
    tenths; the blank in front of the humidity field does no harm. *)
Theorem api_data_reads_hourly_rows (entries : list (string * Q * Q)) :
  Dashboard.api_data (Some (csv_header :: map entry_row entries))
  = Ok (map entry_point entries).
Proof.
  unfold Dashboard.api_data.
  induction entries as [|[[label avg_temp] avg_hum] rest IH]; [reflexivity|].
  cbn [map entry_row entry_point]. unfold hourly_row.
  rewrite (read_points_row _ _ _ _
             (mkDataPoint (Some label) (one_decimal avg_temp) (one_decimal avg_hum))).
  - rewrite IH. reflexivity.
  - rewrite zip_header_row. cbn [py_float].
    destruct (float_of_rendering avg_temp) as [-> _].
    destruct (float_of_rendering avg_hum) as [_ ->].
    reflexivity.
Qed.

(** ** Further properties of [write_settings], of the two sets of defaults
    and of the module bodies *)

Lemma copy_key_lookup new_data key current k :
  Dashboard.copy_key new_data key current !! k
  = if decide (key = k)
    then match new_data !! key with Some v => Some v | None => current !! k end
    else current !! k.
Proof.
  unfold Dashboard.copy_key.
  destruct (new_data !! key) as [v|] eqn:Hnew; destruct (decide (key = k)) as [->|Hne];
    try reflexivity.
  - apply lookup_insert_eq.
  - now apply lookup_insert_ne.
Qed.

(** X27. [write_settings] copies the four setpoints that [new_data] holds
    and nothing else: every other key of [new_data] is ignored, every
    other key of the file is kept, and a setpoint missing from [new_data]
    keeps the value of the file.  A missing file, or one that does not
    parse, counts as empty. *)
Theorem write_settings_copies_setpoints_only new_data f (written : gmap string pyval) key :
  Dashboard.write_settings new_data None f = (Ok tt, Document written) ->
  let current : gmap string pyval := match f with Document d => d | _ => ∅ end in
  written !! key
  = if bool_decide (key ∈ Dashboard.setpoint_keys)
    then match new_data !! key with Some v => Some v | None => current !! key end
    else current !! key.
Proof.
  intros H current.
  assert (Hw : written = Dashboard.update_setpoints new_data current).
  { revert H. unfold Dashboard.write_settings. subst current.
    destruct f as [|e|d]; [|destruct e|]; try discriminate;
      intros [= <-]; reflexivity. }
  subst written. unfold Dashboard.update_setpoints, Dashboard.setpoint_keys.
  cbn [fold_left]. rewrite !copy_key_lookup.
  assert (Hin : forall k : string,
            k = "min_temp" \/ k = "max_temp" \/ k = "min_hum" \/ k = "max_hum" ->
            bool_decide (k ∈ ["min_temp"; "max_temp"; "min_hum"; "max_hum"]) = true).
  { intros k Hk. apply bool_decide_eq_true_2, list_elem_of_In. cbn. intuition auto. }
  destruct (decide ("max_hum" = key)) as [<-|H4].
  { rewrite Hin by auto. destruct (new_data !! "max_hum"); [reflexivity|].
    repeat (case_decide; [discriminate|]). reflexivity. }
  destruct (decide ("min_hum" = key)) as [<-|H3].
  { rewrite Hin by auto. destruct (new_data !! "min_hum"); [reflexivity|].
    repeat (case_decide; [discriminate|]). reflexivity. }
  destruct (decide ("max_temp" = key)) as [<-|H2].
  { rewrite Hin by auto. destruct (new_data !! "max_temp"); [reflexivity|].
    repeat (case_decide; [discriminate|]). reflexivity. }
  destruct (decide ("min_temp" = key)) as [<-|H1].
  { rewrite Hin by auto. destruct (new_data !! "min_temp"); reflexivity. }
  rewrite bool_decide_eq_false_2; [reflexivity|].
  rewrite list_elem_of_In. cbn. intros [E | [E | [E | [E | []]]]]; congruence.
Qed.

Lemma write_settings_copies_setpoints_only_witness :
  let new_data : gmap string pyval :=
    <["max_temp" := PFloat 25]> (<["email_pass" := PStr "leak"]> ∅) in
  let written := <["max_temp" := PFloat 25]> Monitor.defaults in
  written !! "email_pass"
  = if bool_decide ("email_pass" ∈ Dashboard.setpoint_keys)
    then match new_data !! "email_pass" with
         | Some v => Some v
         | None => Monitor.defaults !! "email_pass"
         end
    else Monitor.defaults !! "email_pass".
Proof.
  cbv zeta.
  apply (write_settings_copies_setpoints_only
           (<["max_temp" := PFloat 25]> (<["email_pass" := PStr "leak"]> ∅))
           (Document Monitor.defaults)).
  reflexivity.
Defined.

(** X28. The two scripts write different defaults.  When the dashboard
    created settings.json, its placeholder credentials are non-empty, so
    the monitor does not skip the mail: with a server that accepts it, an
    alert goes out from "<EMAIL_FROM>" to "<EMAIL_TO>"; with the monitor's
    own defaults nothing is ever sent. *)
Theorem placeholder_credentials_are_used subject body smtp m :
  Monitor.send_email subject body Dashboard.defaults None m
  = (Ok true,
     with_outbox (outbox m ++ [mkMail (PStr "smtp.gmail.com") 465
                                      "<EMAIL_FROM>" "<EMAIL_TO>" subject body]) m) /\
  Monitor.send_email subject body Monitor.defaults smtp m = (Ok false, m).
Proof.
  split; reflexivity.
Qed.
